(** * uvaii-todo-backend: the Express/Prisma server of [src/server.js]

    A shallow embedding of the middleware and the request handlers of
    [src/server.js], and of the middleware and two handlers of its earlier
    revision kept in [src/unnamed/part_000], followed by the properties of
    the specification that concern them.

    The embedding comes first:
    - [Js]: the fragment of JavaScript values and built-ins the handlers
      use (truthiness, property reads, [trim], [split], [parseInt],
      [Object.keys]);
    - [Bcrypt], [Jsonwebtoken]: the two libraries, as interfaces with the
      facts assumed of them;
    - [User], [Task], [Prisma]: the tables and the Prisma client calls;
    - the middleware, the handlers and the routes, as functions from a
      request and a database to an outcome and a database;
    - [Legacy]: the earlier middleware, [login] and [GET /api/tasks].
    Then the vocabulary of the properties ([wf_db], [valid_update], ...),
    facts about the built-ins, sorting and the tables, reference
    implementations of the two libraries with a small database to run the
    server on, and the properties themselves, each with a run on that
    database.

    Strings are [string]s whose characters stand for code units below 256.
    Numbers are the integers ([Z]) and database ids are unbounded integers:
    the embedding is that of the code where JavaScript's numbers are exact
    and print by their digits (integers up to 2^53 in magnitude, which
    covers every id the server signs or stores); beyond that range
    [parseInt] and the store round or refuse where the embedding goes on
    counting.  The store fails on ill-typed arguments and on violated
    constraints only, not on its own.  Requests are served one after
    another. *)

From Stdlib Require Import ZArith List String Ascii Bool Lia.
From Stdlib Require Import Permutation Sorted RelationClasses.
From Stdlib Require Import DecimalString DecimalZ DecimalPos.
Import ListNotations.

Local Open Scope string_scope.
Local Open Scope list_scope.
Local Open Scope Z_scope.

#[local] Set Warnings "-register-all".

(* ------------------------------------------------------------------ *)
(** ** JavaScript values and built-ins *)
(* ------------------------------------------------------------------ *)

Module Js.

(** A value as [express.json()] or [jwt.verify] hands it to the code. *)
Inductive JsVal : Type :=
| JUndefined
| JNull
| JBool (b : bool)
| JNum (n : Z)
| JStr (s : string)
| JArr (items : list JsVal)
| JObj (props : list (string * JsVal)).

(** [!!v]. *)
Definition truthy (v : JsVal) : bool :=
  match v with
  | JUndefined | JNull => false
  | JBool b => b
  | JNum n => negb (n =? 0)
  | JStr s => negb (s =? "")%string
  | JArr _ | JObj _ => true
  end.

(** [v !== undefined && v !== null]. *)
Definition is_nullish (v : JsVal) : bool :=
  match v with
  | JUndefined | JNull => true
  | _ => false
  end.

(** The own property [k] of a parsed object: the first binding of [k]. *)
Fixpoint assoc (k : string) (props : list (string * JsVal)) : JsVal :=
  match props with
  | [] => JUndefined
  | (k', v) :: rest => if (k =? k')%string then v else assoc k rest
  end.

(** [o.k] (also what [const { k } = o] reads).  [None] is the [TypeError]
    of reading a property of [undefined] or [null].  The keys the server
    reads ([username], [email], [password], [title], [isDone], [completed],
    [userId]) are properties of no primitive or array. *)
Definition get_prop (o : JsVal) (k : string) : option JsVal :=
  match o with
  | JUndefined | JNull => None
  | JObj props => Some (assoc k props)
  | _ => Some JUndefined
  end.

(** [Object.keys(v).length], for a [v] that is not nullish. *)
Definition object_keys_length (v : JsVal) : nat :=
  match v with
  | JObj props => List.length (nodup string_dec (map fst props))
  | JArr items => List.length items
  | JStr s => String.length s
  | _ => 0%nat
  end.

(** White space and line terminators among the code units below 256:
    TAB, LF, VT, FF, CR, SP and NBSP. *)
Definition is_white_space (c : ascii) : bool :=
  let n := nat_of_ascii c in
  ((9 <=? n)%nat && (n <=? 13)%nat) || (n =? 32)%nat || (n =? 160)%nat.

Fixpoint trimStart (s : string) : string :=
  match s with
  | EmptyString => EmptyString
  | String c rest => if is_white_space c then trimStart rest else s
  end.

Fixpoint trimEnd (s : string) : string :=
  match s with
  | EmptyString => EmptyString
  | String c rest =>
      let rest' := trimEnd rest in
      if is_white_space c && (rest' =? "")%string then EmptyString
      else String c rest'
  end.

(** [s.trim()]. *)
Definition trim (s : string) : string := trimEnd (trimStart s).

(** Every character of [s] is white space. *)
Fixpoint all_white_space (s : string) : bool :=
  match s with
  | EmptyString => true
  | String c rest => is_white_space c && all_white_space rest
  end.

(** [s.split(sep)] for a one-character separator. *)
Fixpoint split (sep : ascii) (s : string) : list string :=
  match s with
  | EmptyString => [EmptyString]
  | String c rest =>
      if Ascii.eqb c sep then EmptyString :: split sep rest
      else match split sep rest with
           | piece :: pieces => String c piece :: pieces
           | [] => [String c EmptyString]
           end
  end.

(** [s] holds no [sep]. *)
Definition lacks (sep : ascii) (s : string) : Prop :=
  forall c, In c (list_ascii_of_string s) -> c <> sep.

(** The value of [c] as a digit of the given radix. *)
Definition digit_value (radix : Z) (c : ascii) : option Z :=
  let n := Z.of_nat (nat_of_ascii c) in
  let d :=
    if (48 <=? n) && (n <=? 57) then Some (n - 48)
    else if (97 <=? n) && (n <=? 122) then Some (n - 87)
    else if (65 <=? n) && (n <=? 90) then Some (n - 55)
    else None in
  match d with
  | Some v => if v <? radix then Some v else None
  | None => None
  end.

(** The longest prefix of digits, read in the radix; [acc] is the value of
    the digits read so far ([None]: no digit yet). *)
Fixpoint parse_digits (radix : Z) (s : string) (acc : option Z) : option Z :=
  match s with
  | EmptyString => acc
  | String c rest =>
      match digit_value radix c with
      | Some d =>
          parse_digits radix rest
            (Some (match acc with Some a => a * radix + d | None => d end))
      | None => acc
      end
  end.

(** [parseInt(s)]: leading white space, a sign, a [0x] prefix, then the
    digits; [None] is [NaN].  The value is the exact integer (JavaScript
    rounds it to a double, which changes it above 2^53 only). *)
Definition parseInt_string (s : string) : option Z :=
  let s1 := trimStart s in
  let '(sign, s2) :=
    match s1 with
    | String "-"%char rest => (-1, rest)
    | String "+"%char rest => (1, rest)
    | _ => (1, s1)
    end in
  let '(radix, s3) :=
    match s2 with
    | String "0"%char (String x rest) =>
        if Ascii.eqb x "x" || Ascii.eqb x "X" then (16, rest) else (10, s2)
    | _ => (10, s2)
    end in
  option_map (Z.mul sign) (parse_digits radix s3 None).

(** [parseInt(v)]: [v] is first converted to a string.  A number prints as
    its digits (below 10^21 in magnitude; the exponent form JavaScript
    prints from there on is not modelled); an array prints its elements
    separated by commas, so only its first element is read; [undefined],
    [null], booleans and objects print as words. *)
Fixpoint parseInt (v : JsVal) : option Z :=
  match v with
  | JNum n => Some n
  | JStr s => parseInt_string s
  | JArr (first :: _) => parseInt first
  | _ => None
  end.

End Js.
Import Js.

(* ------------------------------------------------------------------ *)
(** ** The libraries: bcrypt and jsonwebtoken *)
(* ------------------------------------------------------------------ *)

(** What a call of a library or of the Prisma client can throw. *)
Inductive Exn : Type :=
| TypeError
| BcryptError
| PrismaClientValidationError
| PrismaClientKnownRequestError (code : string).

(** [bcrypt.hash(data, rounds)] draws a salt; [bcrypt.compare(data, hash)]
    recomputes with the salt kept in [hash].  The two facts assumed of the
    library: a digest verifies against its own data, and a digest is never
    the data it was computed from. *)
Class Bcrypt : Type := {
  bcrypt_hash : string -> Z -> string -> string;
  bcrypt_compare : string -> string -> bool;
  bcrypt_compare_hash :
    forall data rounds salt,
      bcrypt_compare data (bcrypt_hash data rounds salt) = true;
  bcrypt_hash_not_data :
    forall data rounds salt, bcrypt_hash data rounds salt <> data
}.

Inductive JwtError : Type :=
| JsonWebTokenError
| TokenExpiredError
| NotBeforeError.

(** [jwt_sign userId secret expiresIn clock] is
    [jwt.sign({ userId }, secret, { expiresIn })] at time [clock] (seconds);
    [jwt_verify token secret clock] is what [jwt.verify(token, secret, cb)]
    passes to [cb] at time [clock]: an error or the decoded payload.  The
    facts assumed of the library: a token verifies under the secret that
    signed it until its expiry, from then on it is expired, and it is one
    non-empty word (it holds no space). *)
Class Jsonwebtoken : Type := {
  jwt_sign : Z -> string -> Z -> Z -> string;
  jwt_verify : string -> string -> Z -> JwtError + JsVal;
  jwt_verify_sign :
    forall userId secret expiresIn iat clock,
      jwt_verify (jwt_sign userId secret expiresIn iat) secret clock =
      if clock <? iat + expiresIn
      then inr (JObj [("userId", JNum userId); ("iat", JNum iat);
                      ("exp", JNum (iat + expiresIn))])
      else inl TokenExpiredError;
  jwt_sign_one_word :
    forall userId secret expiresIn iat,
      jwt_sign userId secret expiresIn iat <> "" /\
      split " " (jwt_sign userId secret expiresIn iat) =
      [jwt_sign userId secret expiresIn iat]
}.

(* ------------------------------------------------------------------ *)
(** ** The tables and the Prisma client *)
(* ------------------------------------------------------------------ *)

(** Modelled from the spec: the Prisma schema is not among the sources.
    A user row is [{id, username, email, passwordHash}] with [username]
    and [email] unique. *)
Module User.
Record t : Type := { id : Z; username : string; email : string; passwordHash : string }.
End User.

(** Modelled from the spec: the Prisma schema is not among the sources.
    A task row is [{id, title, isDone, authorId}], [authorId] a foreign key
    to [User.id]; [isDone] is the name [src/server.js] uses for the
    completion column. *)
Module Task.
Record t : Type := { id : Z; title : string; isDone : bool; authorId : Z }.
End Task.

(** A task as the API returns it: [isDone] renamed to [completed]. *)
Module Flutter.
Record t : Type := { id : Z; title : string; authorId : Z; completed : bool }.
End Flutter.

(** The database: both tables and their autoincrement counters. *)
Record Db : Type := {
  users : list User.t;
  tasks : list Task.t;
  user_seq : Z;
  task_seq : Z
}.

Definition empty_db : Db :=
  {| users := []; tasks := []; user_seq := 1; task_seq := 1 |}.

(** Insertion sort, the stand-in for the store's [ORDER BY]. *)
Fixpoint insert_by {A : Type} (leb : A -> A -> bool) (x : A) (l : list A) : list A :=
  match l with
  | [] => [x]
  | y :: rest => if leb x y then x :: l else y :: insert_by leb x rest
  end.

Fixpoint sort_by {A : Type} (leb : A -> A -> bool) (l : list A) : list A :=
  match l with
  | [] => []
  | x :: rest => insert_by leb x (sort_by leb rest)
  end.

Module Prisma.

(** What [updateMany] is given as [data]: the keys set on [updateData]. *)
Record UpdateData : Type := { data_title : option string; data_isDone : option JsVal }.

(** [orderBy: [{ isDone: 'asc' }, { id: 'asc' }]]: [false] before [true],
    then by id. *)
Definition isDone_asc_id_asc (x y : Task.t) : bool :=
  if Bool.eqb (Task.isDone x) (Task.isDone y) then Task.id x <=? Task.id y
  else negb (Task.isDone x).

(** A value given for a [String] column or filter.  (The filter objects
    Prisma also takes in a [where] are not modelled: they count as ill
    typed.) *)
Definition string_arg (v : JsVal) : Exn + string :=
  match v with
  | JStr s => inr s
  | _ => inl PrismaClientValidationError
  end.

(** A value given for a [Boolean] column.  (The update operation
    [{ set: b }] Prisma also takes as [data] is not modelled: it counts as
    ill typed.) *)
Definition boolean_arg (v : JsVal) : Exn + bool :=
  match v with
  | JBool b => inr b
  | _ => inl PrismaClientValidationError
  end.

(** A value given for an [Int] column: a number, not [NaN].  (The bounds
    of the column are not modelled.) *)
Definition int_arg (v : option Z) : Exn + Z :=
  match v with
  | Some n => inr n
  | None => inl PrismaClientValidationError
  end.

(** [prisma.user.findFirst({ where: { OR: [{ username }, { email }] } })]. *)
Definition user_findFirst_username_or_email
    (db : Db) (username email : JsVal) : Exn + option User.t :=
  match string_arg username, string_arg email with
  | inr u, inr e =>
      inr (find (fun row => (User.username row =? u)%string
                            || (User.email row =? e)%string) (users db))
  | inl err, _ | _, inl err => inl err
  end.

(** [prisma.user.findUnique({ where: { email } })]. *)
Definition user_findUnique_email (db : Db) (email : JsVal) : Exn + option User.t :=
  match string_arg email with
  | inr e => inr (find (fun row => (User.email row =? e)%string) (users db))
  | inl err => inl err
  end.

(** [prisma.user.create({ data: { username, email, passwordHash } })]:
    [P2002] on a taken username or email, else the new row with the next
    id. *)
Definition user_create
    (db : Db) (username email : JsVal) (passwordHash : string)
    : Exn + (User.t * Db) :=
  match string_arg username, string_arg email with
  | inr u, inr e =>
      if existsb (fun row => (User.username row =? u)%string
                             || (User.email row =? e)%string) (users db)
      then inl (PrismaClientKnownRequestError "P2002")
      else
        let row := {| User.id := user_seq db; User.username := u;
                      User.email := e; User.passwordHash := passwordHash |} in
        inr (row, {| users := users db ++ [row]; tasks := tasks db;
                     user_seq := user_seq db + 1; task_seq := task_seq db |})
  | inl err, _ | _, inl err => inl err
  end.

(** [prisma.task.findMany({ where: { authorId }, orderBy })]. *)
Definition task_findMany
    (db : Db) (authorId : option Z) (orderBy : Task.t -> Task.t -> bool)
    : Exn + list Task.t :=
  match int_arg authorId with
  | inr a => inr (sort_by orderBy (filter (fun row => Task.authorId row =? a) (tasks db)))
  | inl err => inl err
  end.

(** [prisma.task.create({ data: { title, authorId, isDone } })]: [P2003]
    when [authorId] is the id of no user. *)
Definition task_create
    (db : Db) (title : JsVal) (authorId : option Z) (isDone : bool)
    : Exn + (Task.t * Db) :=
  match string_arg title, int_arg authorId with
  | inr t, inr a =>
      if existsb (fun u => User.id u =? a) (users db)
      then
        let row := {| Task.id := task_seq db; Task.title := t;
                      Task.isDone := isDone; Task.authorId := a |} in
        inr (row, {| users := users db; tasks := tasks db ++ [row];
                     user_seq := user_seq db; task_seq := task_seq db + 1 |})
      else inl (PrismaClientKnownRequestError "P2003")
  | inl err, _ | _, inl err => inl err
  end.

(** The row after [data] is applied. *)
Definition apply_update (title : option string) (isDone : option bool) (row : Task.t) : Task.t :=
  {| Task.id := Task.id row;
     Task.title := match title with Some t => t | None => Task.title row end;
     Task.isDone := match isDone with Some b => b | None => Task.isDone row end;
     Task.authorId := Task.authorId row |}.

(** The [where: { id, authorId }] of [updateMany] and [deleteMany]. *)
Definition matches (taskId authorId : Z) (row : Task.t) : bool :=
  (Task.id row =? taskId) && (Task.authorId row =? authorId).

(** [prisma.task.updateMany({ where: { id, authorId }, data })]: the
    number of rows matched, each of them updated. *)
Definition task_updateMany
    (db : Db) (taskId : Z) (authorId : option Z) (data : UpdateData)
    : Exn + (nat * Db) :=
  let isDone :=
    match data_isDone data with
    | Some v => match boolean_arg v with inr b => inr (Some b) | inl err => inl err end
    | None => inr None
    end in
  match int_arg authorId, isDone with
  | inr a, inr isDone =>
      inr (List.length (filter (matches taskId a) (tasks db)),
           {| users := users db;
              tasks := map (fun row => if matches taskId a row
                                       then apply_update (data_title data) isDone row
                                       else row) (tasks db);
              user_seq := user_seq db; task_seq := task_seq db |})
  | inl err, _ | _, inl err => inl err
  end.

(** [prisma.task.findUnique({ where: { id } })]; a read of the table as
    it is, which does not fail. *)
Definition task_findUnique (db : Db) (taskId : Z) : option Task.t :=
  find (fun row => Task.id row =? taskId) (tasks db).

(** [prisma.task.deleteMany({ where: { id, authorId } })]. *)
Definition task_deleteMany
    (db : Db) (taskId : Z) (authorId : option Z) : Exn + (nat * Db) :=
  match int_arg authorId with
  | inr a =>
      inr (List.length (filter (matches taskId a) (tasks db)),
           {| users := users db;
              tasks := filter (fun row => negb (matches taskId a row)) (tasks db);
              user_seq := user_seq db; task_seq := task_seq db |})
  | inl err => inl err
  end.

End Prisma.

(* ------------------------------------------------------------------ *)
(** ** Requests and responses *)
(* ------------------------------------------------------------------ *)

(** The parts of an Express request the server reads: the
    [authorization] header, the [:id] route parameter, the parsed body,
    and [req.userId], which only the middleware writes. *)
Record Request : Type := {
  authorization : option string;
  params_id : string;
  body : JsVal;
  userId : JsVal
}.

Definition with_userId (req : Request) (v : JsVal) : Request :=
  {| authorization := authorization req; params_id := params_id req;
     body := body req; userId := v |}.

(** What a request finds outside the database: the clock (in seconds) and
    the salt [bcrypt.hash] draws. *)
Record Ambient : Type := { clock : Z; salt : string }.

(** [{ id, username, email }], the user object of a response. *)
Record PublicUser : Type := { pu_id : Z; pu_username : string; pu_email : string }.

(** The JSON documents the handlers send. *)
Inductive Body : Type :=
| ErrorBody (error : string)
| AuthBody (message token : string) (user : PublicUser)
| TaskBody (task : option Flutter.t)
| TasksBody (tasks : list (option Flutter.t))
| MessageBody (message : string).

(** How a handler ends: with a response, or with an exception thrown
    outside its [try], which leaves the response unwritten. *)
Inductive Outcome : Type :=
| Sent (status : Z) (json : Body)
| Uncaught (exn : Exn).

Definition status_of (o : Outcome) : option Z :=
  match o with
  | Sent status _ => Some status
  | Uncaught _ => None
  end.

Definition Handler : Type := Request -> Db -> Outcome * Db.

(* ------------------------------------------------------------------ *)
(** ** src/server.js *)
(* ------------------------------------------------------------------ *)

(** [const { isDone, ...rest } = task; return { ...rest, completed: isDone }]. *)
Definition rename_isDone (task : Task.t) : Flutter.t :=
  {| Flutter.id := Task.id task; Flutter.title := Task.title task;
     Flutter.authorId := Task.authorId task; Flutter.completed := Task.isDone task |}.

(** [mapPrismaToFlutter]; [None] is [null], which it passes through. *)
Definition mapPrismaToFlutter (task : option Task.t) : option Flutter.t :=
  match task with
  | None => None
  | Some row => Some (rename_isDone row)
  end.

(** [{ expiresIn: '7d' }], in seconds. *)
Definition expiresIn_7d : Z := 7 * 24 * 60 * 60.

(** The routes of the server. *)
Inductive Route : Type :=
| POST_register
| POST_login
| GET_tasks
| POST_tasks
| PUT_tasks_id
| DELETE_tasks_id.

Section Server.

Context {bcrypt : Bcrypt} {jwt : Jsonwebtoken}.

(** [process.env.JWT_SECRET]. *)
Variable process_env_JWT_SECRET : option string.

(** [process.env.JWT_SECRET || 'your_super_secret_jwt_key_12345']. *)
Definition JWT_SECRET : string :=
  match process_env_JWT_SECRET with
  | Some s => if (s =? "")%string then "your_super_secret_jwt_key_12345" else s
  | None => "your_super_secret_jwt_key_12345"
  end.

(** [authHeader && authHeader.split(' ')[1]]; [None] is [undefined].  An
    empty header is falsy, so it is itself the value of the [&&]. *)
Definition bearer_token (authHeader : option string) : option string :=
  match authHeader with
  | None => None
  | Some h => if (h =? "")%string then Some h else nth_error (split " " h) 1
  end.

(** [authenticateToken(req, res, next)]. *)
Definition authenticateToken (amb : Ambient) (next : Handler) : Handler :=
  fun req db =>
    match bearer_token (authorization req) with
    | None => (Sent 401 (ErrorBody "Unauthorized: Token missing."), db)
    | Some token =>
        match jwt_verify token JWT_SECRET (clock amb) with
        | inl _ => (Sent 403 (ErrorBody "Forbidden: Invalid or expired token."), db)
        | inr user =>
            match get_prop user "userId" with
            | Some v => next (with_userId req v) db
            | None => (Uncaught TypeError, db)
            end
        end
    end.

(** [bcrypt.hash(password, 10)] on a request value. *)
Definition hash_password (amb : Ambient) (password : JsVal) : Exn + string :=
  match password with
  | JStr p => inr (bcrypt_hash p 10 (salt amb))
  | _ => inl BcryptError
  end.

(** [bcrypt.compare(password, hash)] on a request value. *)
Definition compare_password (password : JsVal) (hash : string) : Exn + bool :=
  match password with
  | JStr p => inr (bcrypt_compare p hash)
  | _ => inl BcryptError
  end.

Definition public_user (u : User.t) : PublicUser :=
  {| pu_id := User.id u; pu_username := User.username u; pu_email := User.email u |}.

(** [app.post('/api/register', ...)]. *)
Definition register (amb : Ambient) : Handler :=
  fun req db =>
    if negb (truthy (body req)) || (object_keys_length (body req) =? 0)%nat
    then (Sent 400 (ErrorBody "Request body missing or invalid JSON format."), db)
    else
      match get_prop (body req) "username", get_prop (body req) "email",
            get_prop (body req) "password" with
      | Some username, Some email, Some password =>
          if negb (truthy username) || negb (truthy email) || negb (truthy password)
          then (Sent 400 (ErrorBody "Please provide username, email, and password."), db)
          else
            let caught := (Sent 500 (ErrorBody "Server error during registration."), db) in
            match Prisma.user_findFirst_username_or_email db username email with
            | inl _ => caught
            | inr (Some existingUser) =>
                (Sent 409 (ErrorBody "User with this username or email already exists."), db)
            | inr None =>
                match hash_password amb password with
                | inl _ => caught
                | inr passwordHash =>
                    match Prisma.user_create db username email passwordHash with
                    | inl _ => caught
                    | inr (newUser, db') =>
                        let token :=
                          jwt_sign (User.id newUser) JWT_SECRET expiresIn_7d (clock amb) in
                        (Sent 201 (AuthBody "User registered successfully" token
                                     (public_user newUser)), db')
                    end
                end
            end
      | _, _, _ => (Uncaught TypeError, db) (* not reached: the body is truthy *)
      end.

(** [app.post('/api/login', ...)]. *)
Definition login (amb : Ambient) : Handler :=
  fun req db =>
    if negb (truthy (body req)) || (object_keys_length (body req) =? 0)%nat
    then (Sent 400 (ErrorBody "Request body missing or invalid JSON format."), db)
    else
      match get_prop (body req) "email", get_prop (body req) "password" with
      | Some email, Some password =>
          if negb (truthy email) || negb (truthy password)
          then (Sent 400 (ErrorBody "Please provide email and password."), db)
          else
            let caught := (Sent 500 (ErrorBody "Server error during login."), db) in
            match Prisma.user_findUnique_email db email with
            | inl _ => caught
            | inr None => (Sent 401 (ErrorBody "Invalid email or password."), db)
            | inr (Some user) =>
                match compare_password password (User.passwordHash user) with
                | inl _ => caught
                | inr false => (Sent 401 (ErrorBody "Invalid email or password."), db)
                | inr true =>
                    let token :=
                      jwt_sign (User.id user) JWT_SECRET expiresIn_7d (clock amb) in
                    (Sent 200 (AuthBody "Login successful" token (public_user user)), db)
                end
            end
      | _, _ => (Uncaught TypeError, db)
      end.

(** [app.get('/api/tasks', ...)]. *)
Definition get_tasks : Handler :=
  fun req db =>
    let authorId := parseInt (userId req) in
    match Prisma.task_findMany db authorId Prisma.isDone_asc_id_asc with
    | inl _ => (Sent 500 (ErrorBody "Failed to fetch tasks."), db)
    | inr tasks =>
        let flutterTasks := map (fun task => mapPrismaToFlutter (Some task)) tasks in
        (Sent 200 (TasksBody flutterTasks), db)
    end.

(** [!title || title.trim() === ''] of the create handler; [inl] is the
    [TypeError] of calling [trim] on a value that has none. *)
Definition title_missing_or_blank (title : JsVal) : Exn + bool :=
  if negb (truthy title) then inr true
  else match title with
       | JStr s => inr (trim s =? "")%string
       | _ => inl TypeError
       end.

(** [app.post('/api/tasks', ...)]. *)
Definition post_task : Handler :=
  fun req db =>
    let authorId := parseInt (userId req) in
    match get_prop (body req) "title" with
    | None => (Uncaught TypeError, db)
    | Some title =>
        match title_missing_or_blank title with
        | inl exn => (Uncaught exn, db)
        | inr true => (Sent 400 (ErrorBody "Task title is required."), db)
        | inr false =>
            match Prisma.task_create db title authorId false with
            | inl _ => (Sent 500 (ErrorBody "Failed to create task."), db)
            | inr (newTask, db') =>
                (Sent 201 (TaskBody (mapPrismaToFlutter (Some newTask))), db')
            end
        end
    end.

(** What the update handler makes of the body before it touches the
    store: a response, an exception, or the [updateData] it will pass. *)
Inductive Validation : Type :=
| Rejected (status : Z) (error : string)
| Thrown (exn : Exn)
| Accepted (updateData : Prisma.UpdateData).

(** Lines 240-258: [updateData] is filled from [title], then from
    [completed], else from [isDone]; an empty [updateData] is refused. *)
Definition build_updateData (title isDoneBody completed : JsVal) : Validation :=
  let with_isDone (data_title : option string) :=
    let data_isDone :=
      if negb (is_nullish completed) then Some completed
      else if negb (is_nullish isDoneBody) then Some isDoneBody
      else None in
    match data_title, data_isDone with
    | None, None => Rejected 400 "Must provide title or completed status for update."
    | _, _ => Accepted {| Prisma.data_title := data_title; Prisma.data_isDone := data_isDone |}
    end in
  if negb (is_nullish title) then
    match title with
    | JStr s =>
        if (trim s =? "")%string then Rejected 400 "Task title cannot be empty."
        else with_isDone (Some s)
    | _ => Thrown TypeError
    end
  else with_isDone None.

(** [app.put('/api/tasks/:id', ...)]. *)
Definition put_task : Handler :=
  fun req db =>
    let authorId := parseInt (userId req) in
    let taskId := parseInt_string (params_id req) in
    match get_prop (body req) "title", get_prop (body req) "isDone",
          get_prop (body req) "completed" with
    | Some title, Some isDoneBody, Some completed =>
        match taskId with
        | None => (Sent 400 (ErrorBody "Invalid task ID."), db)
        | Some taskId =>
            match build_updateData title isDoneBody completed with
            | Rejected status error => (Sent status (ErrorBody error), db)
            | Thrown exn => (Uncaught exn, db)
            | Accepted updateData =>
                match Prisma.task_updateMany db taskId authorId updateData with
                | inl _ => (Sent 500 (ErrorBody "Failed to update task."), db)
                | inr (count, db') =>
                    if (count =? 0)%nat
                    then (Sent 404 (ErrorBody "Task not found or unauthorized."), db')
                    else
                      let task := Prisma.task_findUnique db' taskId in
                      (Sent 200 (TaskBody (mapPrismaToFlutter task)), db')
                end
            end
        end
    | _, _, _ => (Uncaught TypeError, db)
    end.

(** [app.delete('/api/tasks/:id', ...)]. *)
Definition delete_task : Handler :=
  fun req db =>
    let authorId := parseInt (userId req) in
    let taskId := parseInt_string (params_id req) in
    match taskId with
    | None => (Sent 400 (ErrorBody "Invalid task ID."), db)
    | Some taskId =>
        match Prisma.task_deleteMany db taskId authorId with
        | inl _ => (Sent 500 (ErrorBody "Failed to delete task."), db)
        | inr (count, db') =>
            if (count =? 0)%nat
            then (Sent 404 (ErrorBody "Task not found or unauthorized."), db')
            else (Sent 200 (MessageBody "Task deleted successfully."), db')
        end
    end.

(** [app.use('/api/tasks', authenticateToken)]: a task route is its
    handler behind the middleware. *)
Definition protected (amb : Ambient) (handler : Handler) : Handler :=
  authenticateToken amb handler.

(** The handler Express runs for a route, middleware included. *)
Definition serve (route : Route) (amb : Ambient) : Handler :=
  match route with
  | POST_register => register amb
  | POST_login => login amb
  | GET_tasks => protected amb get_tasks
  | POST_tasks => protected amb post_task
  | PUT_tasks_id => protected amb put_task
  | DELETE_tasks_id => protected amb delete_task
  end.

(** The database after a sequence of requests, one served after another. *)
Fixpoint run (calls : list (Route * Ambient * Request)) (db : Db) : Db :=
  match calls with
  | [] => db
  | (route, amb, req) :: rest => run rest (snd (serve route amb req db))
  end.

End Server.

(* ------------------------------------------------------------------ *)
(** ** src/unnamed/part_000: the earlier revision *)
(* ------------------------------------------------------------------ *)

(** The earlier revision of the server differs in the two handlers below
    by what it checks and how it orders; its task rows already carry the
    column [completed], so a row has the shape of [Flutter.t] and is sent
    as it is. *)
Module Legacy.

Record Db : Type := { users : list User.t; tasks : list Flutter.t }.

(** [{ expiresIn: '1h' }], in seconds. *)
Definition expiresIn_1h : Z := 60 * 60.

(** The hard-coded [JWT_SECRET]. *)
Definition JWT_SECRET : string := "your_super_secret_jwt_key_12345".

(** [orderBy: { id: 'asc' }]. *)
Definition id_asc (x y : Flutter.t) : bool := Flutter.id x <=? Flutter.id y.

(** [prisma.task.findMany({ where: { authorId: userId }, orderBy })] on
    [req.userId] as it is: a number filters, [undefined] is no condition,
    anything else is ill typed. *)
Definition task_findMany (db : Db) (authorId : JsVal) : Exn + list Flutter.t :=
  match authorId with
  | JNum a => inr (sort_by id_asc (filter (fun row => Flutter.authorId row =? a) (tasks db)))
  | JUndefined => inr (sort_by id_asc (tasks db))
  | _ => inl PrismaClientValidationError
  end.

(** [app.get('/api/tasks', ...)] of the earlier revision. *)
Definition get_tasks (req : Request) (db : Db) : Outcome * Db :=
  match task_findMany db (userId req) with
  | inl _ => (Sent 500 (ErrorBody "Failed to fetch tasks."), db)
  | inr tasks => (Sent 200 (TasksBody (map Some tasks)), db)
  end.

(** What the earlier middleware does with a request: it ends it with
    [res.sendStatus(code)], calls [next()] on the request with [userId]
    attached, or throws. *)
Inductive Gate : Type :=
| SendStatus (code : Z)
| Next (req : Request)
| Throws (exn : Exn).

Section Login.

Context {bcrypt : Bcrypt} {jwt : Jsonwebtoken}.

(** [authenticateToken(req, res, next)] of the earlier revision. *)
Definition authenticateToken (amb : Ambient) (req : Request) : Gate :=
  match bearer_token (authorization req) with
  | None => SendStatus 401
  | Some token =>
      match jwt_verify token JWT_SECRET (clock amb) with
      | inl _ => SendStatus 403
      | inr user =>
          match get_prop user "userId" with
          | Some v => Next (with_userId req v)
          | None => Throws TypeError
          end
      end
  end.

(** [app.post('/api/login', ...)] of the earlier revision. *)
Definition login (amb : Ambient) (req : Request) (db : Db) : Outcome * Db :=
  match get_prop (body req) "email", get_prop (body req) "password" with
  | Some email, Some password =>
      if negb (truthy email) || negb (truthy password)
      then (Sent 400 (ErrorBody "Please provide email and password."), db)
      else
        let caught := (Sent 500 (ErrorBody "Server error during login."), db) in
        match Prisma.string_arg email with
        | inl _ => caught
        | inr e =>
            match find (fun row => (User.email row =? e)%string) (users db) with
            | None => (Sent 401 (ErrorBody "Invalid email or password."), db)
            | Some user =>
                match password with
                | JStr p =>
                    if bcrypt_compare p (User.passwordHash user)
                    then
                      let token :=
                        jwt_sign (User.id user) JWT_SECRET expiresIn_1h (clock amb) in
                      (Sent 200 (AuthBody "Login successful" token
                                   {| pu_id := User.id user;
                                      pu_username := User.username user;
                                      pu_email := User.email user |}), db)
                    else (Sent 401 (ErrorBody "Invalid email or password."), db)
                | _ => caught
                end
            end
        end
  | _, _ => (Uncaught TypeError, db)
  end.

End Login.

End Legacy.

(* ------------------------------------------------------------------ *)
(** ** The well-formed database *)
(* ------------------------------------------------------------------ *)

(** What the schema's constraints keep true of the tables: primary keys
    are distinct and below the counters, usernames and emails are unique,
    and every task's author is a user. *)
Record wf_db (db : Db) : Prop := {
  wf_task_ids : NoDup (map Task.id (tasks db));
  wf_task_seq : Forall (fun row => Task.id row < task_seq db) (tasks db);
  wf_user_ids : NoDup (map User.id (users db));
  wf_user_seq : Forall (fun row => User.id row < user_seq db) (users db);
  wf_usernames : NoDup (map User.username (users db));
  wf_emails : NoDup (map User.email (users db));
  wf_authors :
    Forall (fun row => exists u, In u (users db) /\ User.id u = Task.authorId row)
           (tasks db)
}.

(** [a] is the id of a user row. *)
Definition user_exists (db : Db) (a : Z) : Prop :=
  exists u, In u (users db) /\ User.id u = a.

(** The order [orderBy: [{ isDone: 'asc' }, { id: 'asc' }]] asks for, on
    the tasks as returned: an incomplete task before a completed one, and
    within a group the smaller id first. *)
Definition listed_before (x y : Flutter.t) : Prop :=
  (Flutter.completed x = false /\ Flutter.completed y = true) \/
  (Flutter.completed x = Flutter.completed y /\ Flutter.id x <= Flutter.id y).

(** The body supplies the field [k]: it has the field, and not as [null].
    A request without a body supplies nothing. *)
Definition supplies (b : JsVal) (k : string) : bool :=
  match get_prop b k with
  | Some v => negb (is_nullish v)
  | None => false
  end.

(** A body of an update the handler and the store both take: [title]
    absent or a string that is not blank, the completion value
    ([completed], else [isDone]) absent or a boolean, one of the two
    present. *)
Definition update_title_ok (title : JsVal) : bool :=
  match title with
  | JUndefined | JNull => true
  | JStr s => negb (all_white_space s)
  | _ => false
  end.

Definition completion_value (completed isDoneBody : JsVal) : JsVal :=
  if is_nullish completed then isDoneBody else completed.

Definition update_completion_ok (v : JsVal) : bool :=
  match v with
  | JUndefined | JNull | JBool _ => true
  | _ => false
  end.

Definition valid_update (b : JsVal) : bool :=
  match get_prop b "title", get_prop b "isDone", get_prop b "completed" with
  | Some title, Some isDoneBody, Some completed =>
      update_title_ok title
      && update_completion_ok (completion_value completed isDoneBody)
      && negb (is_nullish title && is_nullish (completion_value completed isDoneBody))
  | _, _, _ => false
  end.

(** The rows after [updateMany] with well-typed data. *)
Definition updated_tasks
    (taskId a : Z) (title : option string) (done : option bool) (rows : list Task.t)
    : list Task.t :=
  map (fun row => if Prisma.matches taskId a row
                  then Prisma.apply_update title done row else row) rows.

(** The row [POST /api/tasks] inserts. *)
Definition new_task (db : Db) (title : string) (a : Z) : Task.t :=
  {| Task.id := task_seq db; Task.title := title; Task.isDone := false;
     Task.authorId := a |}.

Definition with_new_task (db : Db) (row : Task.t) : Db :=
  {| users := users db; tasks := tasks db ++ [row];
     user_seq := user_seq db; task_seq := task_seq db + 1 |}.

(** The row a registration inserts. *)
Definition new_user {bcrypt : Bcrypt} (amb : Ambient) (db : Db) (u e p : string)
    : User.t :=
  {| User.id := user_seq db; User.username := u; User.email := e;
     User.passwordHash := bcrypt_hash p 10 (salt amb) |}.

Definition with_new_user (db : Db) (row : User.t) : Db :=
  {| users := users db ++ [row]; tasks := tasks db;
     user_seq := user_seq db + 1; task_seq := task_seq db |}.

(** The username or the email is taken. *)
Definition taken (db : Db) (u e : string) : Prop :=
  exists row, In row (users db) /\ (User.username row = u \/ User.email row = e).

(** The statuses a route can answer with. *)
Definition route_statuses (route : Route) : list Z :=
  match route with
  | POST_register => [201; 400; 409; 500]
  | POST_login => [200; 400; 401; 500]
  | GET_tasks => [200; 401; 403; 500]
  | POST_tasks => [201; 400; 401; 403; 500]
  | PUT_tasks_id => [200; 400; 401; 403; 404; 500]
  | DELETE_tasks_id => [200; 400; 401; 403; 404; 500]
  end.

(** The database after [deleteMany] on [(taskId, a)]. *)
Definition without_tasks (db : Db) (taskId a : Z) : Db :=
  {| users := users db;
     tasks := filter (fun row => negb (Prisma.matches taskId a row)) (tasks db);
     user_seq := user_seq db; task_seq := task_seq db |}.

(** The database after [updateMany] on [(taskId, a)]. *)
Definition with_updated_tasks
    (db : Db) (taskId a : Z) (title : option string) (done : option bool) : Db :=
  {| users := users db; tasks := updated_tasks taskId a title done (tasks db);
     user_seq := user_seq db; task_seq := task_seq db |}.

(** The title a valid update asks for, if any. *)
Definition requested_title (title : JsVal) : option string :=
  match title with
  | JStr s => Some s
  | _ => None
  end.

(** The completion state a valid update asks for, if any: that of
    [completed], else that of [isDone]. *)
Definition requested_done (completed isDoneBody : JsVal) : option bool :=
  match completion_value completed isDoneBody with
  | JBool b => Some b
  | _ => None
  end.

(** The request carries no token of user [a]: whichever word of its
    [Authorization] header verifies as a token, the [userId] of the
    payload is an integer other than [a], as the server signs them.  The
    integer is below 10^21 in magnitude: from there on JavaScript prints a
    number with an exponent, and [parseInt] reads its first digit only. *)
Definition carries_no_token_of {jwt : Jsonwebtoken}
    (process_env_JWT_SECRET : option string) (a : Z) (amb : Ambient) (req : Request)
    : Prop :=
  forall (header token : string) (payload : JsVal),
    authorization req = Some header ->
    In token (split " " header) ->
    jwt_verify token (JWT_SECRET process_env_JWT_SECRET) (clock amb) = inr payload ->
    exists n, get_prop payload "userId" = Some (JNum n) /\ Z.abs n < 10 ^ 21 /\ n <> a.

(** An integer written in decimal, as a client puts an id into the path. *)
Definition decimal (n : Z) : string := NilEmpty.string_of_int (Z.to_int n).

(* ------------------------------------------------------------------ *)
(** ** Facts about the built-ins *)
(* ------------------------------------------------------------------ *)

Lemma trimStart_all_white_space (s : string) :
  all_white_space s = true -> trimStart s = "".
Proof.
  induction s as [|c rest IH]; simpl; [reflexivity|].
  intros H. apply andb_true_iff in H as [Hc Hrest].
  rewrite Hc. now apply IH.
Qed.

Lemma trimStart_not_all_white_space (s : string) :
  all_white_space s = false ->
  exists c rest, trimStart s = String c rest /\ is_white_space c = false.
Proof.
  induction s as [|c rest IH]; simpl; [discriminate|].
  destruct (is_white_space c) eqn:Hc; simpl.
  - exact IH.
  - intros _. now exists c, rest.
Qed.

Lemma trimEnd_keeps_head (c : ascii) (rest : string) :
  is_white_space c = false -> trimEnd (String c rest) <> "".
Proof.
  intros Hc. simpl. rewrite Hc. simpl. discriminate.
Qed.

(** [s.trim() === ''] exactly when [s] is all white space. *)
Lemma trim_empty_iff (s : string) :
  (trim s =? "")%string = all_white_space s.
Proof.
  unfold trim. destruct (all_white_space s) eqn:Hs.
  - now rewrite (trimStart_all_white_space s Hs).
  - destruct (trimStart_not_all_white_space s Hs) as (c & rest & -> & Hc).
    apply String.eqb_neq. now apply trimEnd_keeps_head.
Qed.

(** A string without the separator splits into itself. *)
Lemma split_no_sep (sep : ascii) (s : string) :
  lacks sep s -> split sep s = [s].
Proof.
  unfold lacks. induction s as [|c rest IH]; simpl; intros H; [reflexivity|].
  destruct (Ascii.eqb_spec c sep) as [->|Hne].
  - exfalso. apply (H sep); auto.
  - rewrite IH by (intros c' Hc'; apply H; auto). reflexivity.
Qed.

(** Splitting at the first separator. *)
Lemma split_app (sep : ascii) (s rest : string) :
  lacks sep s ->
  split sep (s ++ String sep rest)%string = s :: split sep rest.
Proof.
  unfold lacks. induction s as [|c s' IH]; simpl; intros H.
  - now rewrite Ascii.eqb_refl.
  - destruct (Ascii.eqb_spec c sep) as [->|Hne].
    + exfalso. apply (H sep); auto.
    + rewrite IH by (intros c' Hc'; apply H; auto). reflexivity.
Qed.

(** A header [Bearer <token>] yields the token when the token is one word. *)
Lemma bearer_token_of_header (token : string) :
  split " " token = [token] ->
  bearer_token (Some ("Bearer " ++ token)%string) = Some token.
Proof.
  intros Hword. unfold bearer_token.
  change ("Bearer " ++ token)%string with ("Bearer" ++ String " " token)%string.
  replace (("Bearer" ++ String " " token =? "")%string) with false by reflexivity.
  rewrite split_app.
  - rewrite Hword. reflexivity.
  - intros c Hc. simpl in Hc. repeat (destruct Hc as [<-|Hc]; [discriminate|]). destruct Hc.
Qed.

(** A header that is one non-empty word has no second word. *)
Lemma bearer_token_one_word (word : string) :
  word <> ""%string -> lacks " " word -> bearer_token (Some word) = None.
Proof.
  intros Hne Hword. unfold bearer_token.
  apply String.eqb_neq in Hne. rewrite Hne.
  now rewrite split_no_sep.
Qed.

(** The second word of a header, whatever the first word is and whatever
    follows the second. *)
Lemma bearer_token_second_word (scheme token rest : string) :
  lacks " " scheme -> lacks " " token ->
  bearer_token (Some (scheme ++ " " ++ token)%string) = Some token /\
  bearer_token (Some (scheme ++ " " ++ token ++ " " ++ rest)%string) = Some token.
Proof.
  intros Hscheme Htoken.
  assert (Hne : forall tail, ((scheme ++ String " " tail)%string =? "")%string = false).
  { intros tail. destruct scheme; reflexivity. }
  split; unfold bearer_token.
  - change (scheme ++ " " ++ token)%string with (scheme ++ String " " token)%string.
    rewrite Hne, split_app, split_no_sep; auto.
  - change (scheme ++ " " ++ token ++ " " ++ rest)%string
      with (scheme ++ String " " (token ++ String " " rest))%string.
    rewrite Hne, split_app, split_app; auto.
Qed.

(** The token is one of the words of the header. *)
Lemma bearer_token_in_header (header token : string) :
  bearer_token (Some header) = Some token -> In token (split " " header).
Proof.
  unfold bearer_token. destruct (String.eqb_spec header "") as [->|_].
  - intros [= <-]. now left.
  - apply nth_error_In.
Qed.

(** [lacks], by running through the characters. *)
Lemma lacks_by_test (sep : ascii) (s : string) :
  forallb (fun c => negb (Ascii.eqb c sep)) (list_ascii_of_string s) = true ->
  lacks sep s.
Proof.
  intros Htest c Hc. rewrite forallb_forall in Htest.
  specialize (Htest c Hc). apply negb_true_iff in Htest.
  now apply Ascii.eqb_neq.
Qed.

(** The built-ins on a few inputs. *)
Example parseInt_string_examples :
  parseInt_string "12" = Some 12 /\ parseInt_string "12abc" = Some 12 /\
  parseInt_string "  -7" = Some (-7) /\ parseInt_string "0x1f" = Some 31 /\
  parseInt_string "abc" = None /\ parseInt_string "" = None /\
  parseInt (JArr [JStr "7"; JNum 1]) = Some 7 /\ parseInt JUndefined = None.
Proof. repeat split. Qed.

Example trim_examples :
  trim "  buy milk " = "buy milk"%string /\ trim "   " = ""%string /\
  trim "" = ""%string.
Proof. repeat split. Qed.

Example bearer_token_examples :
  bearer_token (Some "Bearer abc.def") = Some "abc.def"%string /\
  bearer_token (Some "Bearer") = None /\
  bearer_token None = None /\
  bearer_token (Some "") = Some ""%string.
Proof. repeat split. Qed.

(** A property that reads as something defined is a key of the body. *)
Lemma assoc_defined_has_key (k : string) (props : list (string * JsVal)) :
  assoc k props <> JUndefined -> In k (map fst props).
Proof.
  induction props as [|[k' v] rest IH]; simpl; [congruence|].
  destruct (String.eqb_spec k k') as [->|Hne]; auto.
Qed.

Lemma object_keys_of_defined_prop (b : JsVal) (k : string) (v : JsVal) :
  get_prop b k = Some v -> v <> JUndefined ->
  truthy b = true /\ (object_keys_length b =? 0)%nat = false.
Proof.
  destruct b; simpl; try discriminate; try (intros [= <-]; congruence).
  intros [= <-] Hv. split; [reflexivity|].
  apply assoc_defined_has_key in Hv.
  apply (nodup_In string_dec) in Hv.
  destruct (nodup string_dec (map fst props)); [destruct Hv | reflexivity].
Qed.

(* ------------------------------------------------------------------ *)
(** ** Facts about sorting *)
(* ------------------------------------------------------------------ *)

Section Sorting.

Context {A : Type} (leb : A -> A -> bool).

Hypothesis leb_total : forall x y, leb x y = true \/ leb y x = true.
Hypothesis leb_trans : forall x y z, leb x y = true -> leb y z = true -> leb x z = true.

Lemma insert_by_perm (x : A) (l : list A) :
  Permutation (x :: l) (insert_by leb x l).
Proof.
  induction l as [|y rest IH]; simpl; [reflexivity|].
  destruct (leb x y); [reflexivity|].
  rewrite perm_swap. now constructor.
Qed.

Lemma sort_by_perm (l : list A) : Permutation l (sort_by leb l).
Proof.
  induction l as [|x rest IH]; simpl; [constructor|].
  rewrite <- insert_by_perm. now constructor.
Qed.

Lemma insert_by_sorted (x : A) (l : list A) :
  StronglySorted (fun a b => leb a b = true) l ->
  StronglySorted (fun a b => leb a b = true) (insert_by leb x l).
Proof.
  induction 1 as [|y rest Hsorted IH Hy]; simpl.
  - repeat constructor.
  - destruct (leb x y) eqn:Hxy.
    + constructor; [now constructor|].
      constructor; [exact Hxy|].
      eapply Forall_impl; [|exact Hy]. intros z Hz. now apply (leb_trans x y z).
    + constructor; [exact IH|].
      rewrite <- insert_by_perm. constructor; [|exact Hy].
      destruct (leb_total x y) as [H|H]; congruence.
Qed.

Lemma sort_by_sorted (l : list A) :
  StronglySorted (fun a b => leb a b = true) (sort_by leb l).
Proof.
  induction l as [|x rest IH]; simpl; [constructor|].
  now apply insert_by_sorted.
Qed.

End Sorting.

Lemma isDone_asc_id_asc_total (x y : Task.t) :
  Prisma.isDone_asc_id_asc x y = true \/ Prisma.isDone_asc_id_asc y x = true.
Proof.
  unfold Prisma.isDone_asc_id_asc.
  destruct (Task.isDone x), (Task.isDone y); simpl; auto; lia.
Qed.

Lemma isDone_asc_id_asc_trans (x y z : Task.t) :
  Prisma.isDone_asc_id_asc x y = true -> Prisma.isDone_asc_id_asc y z = true ->
  Prisma.isDone_asc_id_asc x z = true.
Proof.
  unfold Prisma.isDone_asc_id_asc.
  destruct (Task.isDone x), (Task.isDone y), (Task.isDone z); simpl;
    try discriminate; auto; lia.
Qed.

Lemma isDone_asc_id_asc_listed (x y : Task.t) :
  Prisma.isDone_asc_id_asc x y = true ->
  listed_before (rename_isDone x) (rename_isDone y).
Proof.
  unfold Prisma.isDone_asc_id_asc, listed_before. simpl.
  destruct (Task.isDone x), (Task.isDone y); simpl; try discriminate; auto.
  - intros H. right. split; [reflexivity|lia].
  - intros H. right. split; [reflexivity|lia].
Qed.

(** A list in the order of [listed_before] is its incomplete tasks, then
    its completed tasks, each group by id. *)
Lemma listed_before_groups (l : list Flutter.t) :
  StronglySorted listed_before l ->
  exists incomplete completed,
    l = incomplete ++ completed /\
    Forall (fun x => Flutter.completed x = false) incomplete /\
    Forall (fun x => Flutter.completed x = true) completed /\
    StronglySorted (fun x y => Flutter.id x <= Flutter.id y) incomplete /\
    StronglySorted (fun x y => Flutter.id x <= Flutter.id y) completed.
Proof.
  induction 1 as [|x rest Hsorted IH Hx].
  - exists [], []. repeat split; constructor.
  - destruct IH as (inc & comp & -> & Hinc & Hcomp & Sinc & Scomp).
    apply Forall_app in Hx as [Hxinc Hxcomp].
    destruct (Flutter.completed x) eqn:Hc.
    + assert (inc = []) as ->.
      { destruct inc as [|y inc']; [reflexivity|].
        apply Forall_inv in Hinc. apply Forall_inv in Hxinc.
        destruct Hxinc as [[H _]|[H _]]; congruence. }
      exists [], (x :: comp). simpl. repeat split; auto; try constructor; auto.
      eapply Forall_impl; [|exact Hxcomp].
      intros y [[H _]|[_ H]]; [congruence|exact H].
    + exists (x :: inc), comp. simpl. repeat split; auto.
      constructor; [exact Sinc|].
      rewrite Forall_forall in *. intros y Hy.
      destruct (Hxinc y Hy) as [[_ H]|[_ H]]; [|exact H].
      specialize (Hinc y Hy). simpl in Hinc. congruence.
Qed.

Lemma StronglySorted_map {A B : Type} (f : A -> B)
    (R : A -> A -> Prop) (S : B -> B -> Prop) (l : list A) :
  (forall x y, R x y -> S (f x) (f y)) ->
  StronglySorted R l -> StronglySorted S (map f l).
Proof.
  intros HRS. induction 1 as [|x rest Hsorted IH Hx]; simpl; constructor; auto.
  apply Forall_map. eapply Forall_impl; [|exact Hx]. intros y. apply HRS.
Qed.

(* ------------------------------------------------------------------ *)
(** ** Facts about the tables *)
(* ------------------------------------------------------------------ *)

Lemma db_eta (db : Db) :
  {| users := users db; tasks := tasks db;
     user_seq := user_seq db; task_seq := task_seq db |} = db.
Proof. now destruct db. Qed.

Lemma NoDup_map_eq {A B : Type} (f : A -> B) (l : list A) (x y : A) :
  NoDup (map f l) -> In x l -> In y l -> f x = f y -> x = y.
Proof.
  induction l as [|z rest IH]; simpl; [easy|].
  intros Hnd Hx Hy Hf. apply NoDup_cons_iff in Hnd as [Hz Hnd].
  destruct Hx as [->|Hx], Hy as [->|Hy]; auto.
  - exfalso. apply Hz. rewrite Hf. now apply in_map.
  - exfalso. apply Hz. rewrite <- Hf. now apply in_map.
Qed.

Lemma filter_nil_iff {A : Type} (p : A -> bool) (l : list A) :
  filter p l = [] <-> forall x, In x l -> p x = false.
Proof.
  induction l as [|y rest IH]; simpl.
  - split; [intros _ x []|reflexivity].
  - destruct (p y) eqn:Hy; split.
    + discriminate.
    + intros H. specialize (H y (or_introl eq_refl)). congruence.
    + intros H x [<-|Hx]; [exact Hy|]. now apply IH.
    + intros H. apply IH. intros x Hx. apply H. now right.
Qed.

Lemma map_unmatched {A : Type} (p : A -> bool) (f : A -> A) (l : list A) :
  (forall x, In x l -> p x = false) ->
  map (fun x => if p x then f x else x) l = l.
Proof.
  induction l as [|y rest IH]; simpl; intros H; [reflexivity|].
  rewrite (H y (or_introl eq_refl)), IH; auto.
Qed.

Lemma filter_unmatched {A : Type} (p : A -> bool) (l : list A) :
  (forall x, In x l -> p x = false) ->
  filter (fun x => negb (p x)) l = l.
Proof.
  induction l as [|y rest IH]; simpl; intros H; [reflexivity|].
  rewrite (H y (or_introl eq_refl)). simpl. rewrite IH; auto.
Qed.

(** With distinct ids, nobody but the author matches a task's id. *)
Lemma no_match_for_other_author (db : Db) (task : Task.t) (b : Z) :
  NoDup (map Task.id (tasks db)) ->
  In task (tasks db) -> b <> Task.authorId task ->
  forall row, In row (tasks db) -> Prisma.matches (Task.id task) b row = false.
Proof.
  intros Hnd Hin Hb row Hrow. unfold Prisma.matches.
  destruct (Z.eqb_spec (Task.id row) (Task.id task)) as [Hid|]; [|reflexivity].
  assert (row = task) as -> by (eapply NoDup_map_eq; eauto).
  simpl. apply Z.eqb_neq. congruence.
Qed.

(** An update or a delete that matches nothing leaves the database as it
    was and counts nothing. *)
Lemma updateMany_unmatched (db : Db) (taskId a : Z) (data : Prisma.UpdateData) :
  (forall row, In row (tasks db) -> Prisma.matches taskId a row = false) ->
  match Prisma.data_isDone data with
  | Some v => exists b, v = JBool b
  | None => True
  end ->
  Prisma.task_updateMany db taskId (Some a) data = inr (0%nat, db).
Proof.
  intros Hno Hdata. unfold Prisma.task_updateMany. simpl.
  assert (filter (Prisma.matches taskId a) (tasks db) = []) as Hf
    by now apply filter_nil_iff.
  destruct (Prisma.data_isDone data) as [v|].
  - destruct Hdata as [b ->]. simpl. rewrite Hf, map_unmatched, db_eta; auto.
  - rewrite Hf, map_unmatched, db_eta; auto.
Qed.

Lemma deleteMany_unmatched (db : Db) (taskId a : Z) :
  (forall row, In row (tasks db) -> Prisma.matches taskId a row = false) ->
  Prisma.task_deleteMany db taskId (Some a) = inr (0%nat, db).
Proof.
  intros Hno. unfold Prisma.task_deleteMany. simpl.
  assert (filter (Prisma.matches taskId a) (tasks db) = []) as Hf
    by now apply filter_nil_iff.
  rewrite Hf, filter_unmatched, db_eta; auto.
Qed.

(* ------------------------------------------------------------------ *)
(** ** Reference instances of the libraries *)
(* ------------------------------------------------------------------ *)

(** Small implementations of the two interfaces, to run the server on
    concrete requests: a digest that prefixes the data, and a token that
    lists its claims in decimal with a tag of the secret. *)
Module Reference.

Definition hash (data : string) (rounds : Z) (salt : string) : string :=
  String "$" data.

Definition compare (data hash : string) : bool :=
  (hash =? String "$" data)%string.

Definition dec (z : Z) : string := NilEmpty.string_of_int (Z.to_int z).

Definition undec (s : string) : option Z :=
  option_map Z.of_int (NilEmpty.int_of_string s).

Definition tag (secret : string) : Z := Z.of_nat (String.length secret).

Definition sign (userId : Z) (secret : string) (expiresIn iat : Z) : string :=
  (dec userId ++ String "." (dec iat ++ String "."
     (dec (iat + expiresIn) ++ String "." (dec (tag secret)))))%string.

Definition verify (token secret : string) (clock : Z) : JwtError + JsVal :=
  match split "." token with
  | [u; i; e; t] =>
      match undec u, undec i, undec e, undec t with
      | Some u, Some i, Some e, Some t =>
          if negb (t =? tag secret) then inl JsonWebTokenError
          else if clock <? e
               then inr (JObj [("userId", JNum u); ("iat", JNum i); ("exp", JNum e)])
               else inl TokenExpiredError
      | _, _, _, _ => inl JsonWebTokenError
      end
  | _ => inl JsonWebTokenError
  end.

Lemma lacks_app (sep : ascii) (s1 s2 : string) :
  lacks sep s1 -> lacks sep s2 -> lacks sep (s1 ++ s2)%string.
Proof.
  unfold lacks. induction s1 as [|c rest IH]; simpl; intros H1 H2; [exact H2|].
  intros c' [<-|Hc']; [apply H1; auto|].
  apply IH; auto.
Qed.

Lemma lacks_String (sep c : ascii) (s : string) :
  c <> sep -> lacks sep s -> lacks sep (String c s).
Proof.
  intros Hc Hs c' [<-|Hc']; auto.
Qed.

Lemma uint_lacks (sep : ascii) (d : Decimal.uint) :
  (nat_of_ascii sep < 48 \/ 57 < nat_of_ascii sep)%nat ->
  lacks sep (NilEmpty.string_of_uint d).
Proof.
  intros Hsep. induction d; simpl; [intros c [] | ..];
    (apply lacks_String; [intros <-; cbv in Hsep; lia | assumption]).
Qed.

Lemma dec_lacks (sep : ascii) (z : Z) :
  (nat_of_ascii sep < 45 \/ nat_of_ascii sep = 46 \/ nat_of_ascii sep = 47
   \/ 57 < nat_of_ascii sep)%nat ->
  lacks sep (dec z).
Proof.
  intros Hsep. unfold dec. destruct (Z.to_int z) as [d|d]; simpl.
  - apply uint_lacks. lia.
  - apply lacks_String; [intros <-; cbv in Hsep; lia|].
    apply uint_lacks. lia.
Qed.

Lemma undec_dec (z : Z) : undec (dec z) = Some z.
Proof.
  unfold undec, dec. rewrite NilEmpty.isi. simpl. now rewrite DecimalZ.of_to.
Qed.

Lemma verify_sign (userId : Z) (secret : string) (expiresIn iat clock : Z) :
  verify (sign userId secret expiresIn iat) secret clock =
  if clock <? iat + expiresIn
  then inr (JObj [("userId", JNum userId); ("iat", JNum iat);
                  ("exp", JNum (iat + expiresIn))])
  else inl TokenExpiredError.
Proof.
  unfold verify, sign.
  assert (Hdec : forall z, lacks "." (dec z)) by (intros z; apply dec_lacks; cbv; lia).
  rewrite (split_app "." (dec userId)), (split_app "." (dec iat)),
    (split_app "." (dec (iat + expiresIn))), split_no_sep by apply Hdec.
  rewrite !undec_dec, Z.eqb_refl. reflexivity.
Qed.

Lemma sign_one_word (userId : Z) (secret : string) (expiresIn iat : Z) :
  sign userId secret expiresIn iat <> "" /\
  split " " (sign userId secret expiresIn iat) = [sign userId secret expiresIn iat].
Proof.
  split.
  - unfold sign. destruct (dec userId); discriminate.
  - apply split_no_sep. unfold sign.
    assert (Hdec : forall z, lacks " " (dec z)) by (intros z; apply dec_lacks; cbv; lia).
    repeat (apply lacks_app; [apply Hdec|]; apply lacks_String; [discriminate|]).
    apply Hdec.
Qed.

Lemma compare_hash (data : string) (rounds : Z) (salt : string) :
  compare data (hash data rounds salt) = true.
Proof. unfold compare, hash. apply String.eqb_refl. Qed.

Lemma hash_not_data (data : string) (rounds : Z) (salt : string) :
  hash data rounds salt <> data.
Proof.
  unfold hash. intros H. apply (f_equal String.length) in H. simpl in H. lia.
Qed.

#[export] Instance bcrypt : Bcrypt :=
  {| bcrypt_hash := hash; bcrypt_compare := compare;
     bcrypt_compare_hash := compare_hash; bcrypt_hash_not_data := hash_not_data |}.

#[export] Instance jwt : Jsonwebtoken :=
  {| jwt_sign := sign; jwt_verify := verify;
     jwt_verify_sign := verify_sign; jwt_sign_one_word := sign_one_word |}.

End Reference.

(* ------------------------------------------------------------------ *)
(** ** A small database to run the handlers on *)
(* ------------------------------------------------------------------ *)

Module Fixture.

Definition alice : User.t :=
  {| User.id := 1; User.username := "alice"; User.email := "a@x.com";
     User.passwordHash := "$p1" |}.

Definition bob : User.t :=
  {| User.id := 2; User.username := "bob"; User.email := "b@x.com";
     User.passwordHash := "$p2" |}.

Definition buy_milk : Task.t :=
  {| Task.id := 1; Task.title := "buy milk"; Task.isDone := false; Task.authorId := 1 |}.

Definition pay_rent : Task.t :=
  {| Task.id := 2; Task.title := "pay rent"; Task.isDone := true; Task.authorId := 1 |}.

Definition walk_dog : Task.t :=
  {| Task.id := 3; Task.title := "walk dog"; Task.isDone := false; Task.authorId := 2 |}.

Definition call_mom : Task.t :=
  {| Task.id := 4; Task.title := "call mom"; Task.isDone := false; Task.authorId := 1 |}.

Definition db : Db :=
  {| users := [alice; bob]; tasks := [buy_milk; pay_rent; walk_dog; call_mom];
     user_seq := 3; task_seq := 5 |}.

(** A request past the middleware: [req.userId] is [a]. *)
Definition as_user (a : Z) (id : string) (b : JsVal) : Request :=
  {| authorization := None; params_id := id; body := b; userId := JNum a |}.

(** A request as it arrives, with its [Authorization] header. *)
Definition arriving (header : option string) (id : string) (b : JsVal) : Request :=
  {| authorization := header; params_id := id; body := b; userId := JUndefined |}.

Definition noon : Ambient := {| clock := 1000; salt := "salt" |}.

End Fixture.

Lemma Fixture_db_wf : wf_db Fixture.db.
Proof.
  constructor; simpl.
  - repeat constructor; simpl; intuition discriminate.
  - repeat constructor.
  - repeat constructor; simpl; intuition discriminate.
  - repeat constructor.
  - repeat constructor; simpl; intuition discriminate.
  - repeat constructor; simpl; intuition discriminate.
  - repeat constructor; simpl;
      first [ exists Fixture.alice; simpl; now auto | exists Fixture.bob; simpl; now auto ].
Qed.

(* ------------------------------------------------------------------ *)
(** ** Listing tasks *)
(* ------------------------------------------------------------------ *)

Lemma map_mapPrismaToFlutter (rows : list Task.t) :
  map (fun task => mapPrismaToFlutter (Some task)) rows =
  map Some (map rename_isDone rows).
Proof. now rewrite map_map. Qed.

(** What [GET /api/tasks] answers, for a numeric [req.userId]. *)
Lemma get_tasks_eq (req : Request) (db : Db) (a : Z) :
  parseInt (userId req) = Some a ->
  get_tasks req db =
  (Sent 200 (TasksBody (map Some (map rename_isDone
     (sort_by Prisma.isDone_asc_id_asc
        (filter (fun row => Task.authorId row =? a) (tasks db)))))), db).
Proof.
  intros Ha. unfold get_tasks, Prisma.task_findMany. rewrite Ha. simpl.
  now rewrite map_mapPrismaToFlutter.
Qed.

Lemma Legacy_id_asc_total (x y : Flutter.t) :
  Legacy.id_asc x y = true \/ Legacy.id_asc y x = true.
Proof. unfold Legacy.id_asc. lia. Qed.

Lemma Legacy_id_asc_trans (x y z : Flutter.t) :
  Legacy.id_asc x y = true -> Legacy.id_asc y z = true -> Legacy.id_asc x z = true.
Proof. unfold Legacy.id_asc. lia. Qed.

(** What the earlier [GET /api/tasks] answers, for a numeric
    [req.userId]. *)
Lemma Legacy_get_tasks_eq (req : Request) (db : Legacy.Db) (a : Z) :
  userId req = JNum a ->
  Legacy.get_tasks req db =
  (Sent 200 (TasksBody (map Some
     (sort_by Legacy.id_asc
        (filter (fun row => Flutter.authorId row =? a) (Legacy.tasks db))))), db).
Proof.
  intros Ha. unfold Legacy.get_tasks, Legacy.task_findMany. now rewrite Ha.
Qed.

Lemma Legacy_sorted_by_id (rows : list Flutter.t) :
  StronglySorted (fun x y => Flutter.id x <= Flutter.id y) (sort_by Legacy.id_asc rows).
Proof.
  pose proof (sort_by_sorted Legacy.id_asc Legacy_id_asc_total Legacy_id_asc_trans rows)
    as H.
  apply (StronglySorted_map (fun x => x) _ (fun x y => Flutter.id x <= Flutter.id y)) in H.
  - now rewrite map_id in H.
  - intros x y. unfold Legacy.id_asc. lia.
Qed.

(** C6, as the code has it.  For a user whose id is [a], the
    [GET /api/tasks] of [src/server.js] answers 200 with exactly the tasks
    whose [authorId] is [a] (a permutation of them, each with its id,
    title and author and with [isDone] shown as [completed]), listed as
    the incomplete tasks by ascending id followed by the completed tasks
    by ascending id; the [GET /api/tasks] of the earlier revision answers
    200 with exactly the tasks whose [authorId] is [a], by ascending id
    only. *)
Theorem C6_get_tasks_lists_own_tasks_in_order :
  forall a : Z,
    (forall (req : Request) (db : Db),
        parseInt (userId req) = Some a ->
        exists listed : list Flutter.t,
          get_tasks req db = (Sent 200 (TasksBody (map Some listed)), db) /\
          Permutation listed
            (map (fun row =>
                    {| Flutter.id := Task.id row; Flutter.title := Task.title row;
                       Flutter.authorId := Task.authorId row;
                       Flutter.completed := Task.isDone row |})
               (filter (fun row => Task.authorId row =? a) (tasks db))) /\
          StronglySorted listed_before listed /\
          exists incomplete completed : list Flutter.t,
            listed = incomplete ++ completed /\
            Forall (fun x => Flutter.completed x = false) incomplete /\
            Forall (fun x => Flutter.completed x = true) completed /\
            StronglySorted (fun x y => Flutter.id x <= Flutter.id y) incomplete /\
            StronglySorted (fun x y => Flutter.id x <= Flutter.id y) completed) /\
    (forall (req : Request) (db : Legacy.Db),
        userId req = JNum a ->
        exists listed : list Flutter.t,
          Legacy.get_tasks req db = (Sent 200 (TasksBody (map Some listed)), db) /\
          Permutation listed
            (filter (fun row => Flutter.authorId row =? a) (Legacy.tasks db)) /\
          StronglySorted (fun x y => Flutter.id x <= Flutter.id y) listed).
Proof.
  intros a. split.
  - intros req db Ha. eexists. split; [exact (get_tasks_eq req db a Ha)|].
    assert (Hsorted : StronglySorted listed_before
              (map rename_isDone (sort_by Prisma.isDone_asc_id_asc
                 (filter (fun row => Task.authorId row =? a) (tasks db))))).
    { eapply StronglySorted_map; [apply isDone_asc_id_asc_listed|].
      apply sort_by_sorted.
      - apply isDone_asc_id_asc_total.
      - apply isDone_asc_id_asc_trans. }
    split; [|split; [exact Hsorted | now apply listed_before_groups]].
    apply (Permutation_map rename_isDone), Permutation_sym, sort_by_perm.
  - intros req db Ha. eexists. split; [exact (Legacy_get_tasks_eq req db a Ha)|].
    split; [apply Permutation_sym, sort_by_perm | apply Legacy_sorted_by_id].
Qed.

Lemma C6_get_tasks_witness :
  (exists listed : list Flutter.t,
      get_tasks (Fixture.as_user 1 "" JNull) Fixture.db
      = (Sent 200 (TasksBody (map Some listed)), Fixture.db) /\
      Permutation listed
        (map (fun row =>
                {| Flutter.id := Task.id row; Flutter.title := Task.title row;
                   Flutter.authorId := Task.authorId row;
                   Flutter.completed := Task.isDone row |})
           (filter (fun row => Task.authorId row =? 1) (tasks Fixture.db))) /\
      StronglySorted listed_before listed /\
      exists incomplete completed : list Flutter.t,
        listed = incomplete ++ completed /\
        Forall (fun x => Flutter.completed x = false) incomplete /\
        Forall (fun x => Flutter.completed x = true) completed /\
        StronglySorted (fun x y => Flutter.id x <= Flutter.id y) incomplete /\
        StronglySorted (fun x y => Flutter.id x <= Flutter.id y) completed) /\
  (exists listed : list Flutter.t,
      Legacy.get_tasks (Fixture.as_user 1 "" JNull)
        {| Legacy.users := [Fixture.alice];
           Legacy.tasks :=
             [ {| Flutter.id := 2; Flutter.title := "buy milk"; Flutter.authorId := 1;
                  Flutter.completed := false |};
               {| Flutter.id := 1; Flutter.title := "pay rent"; Flutter.authorId := 1;
                  Flutter.completed := true |} ] |}
      = (Sent 200 (TasksBody (map Some listed)),
         {| Legacy.users := [Fixture.alice];
            Legacy.tasks :=
              [ {| Flutter.id := 2; Flutter.title := "buy milk"; Flutter.authorId := 1;
                   Flutter.completed := false |};
                {| Flutter.id := 1; Flutter.title := "pay rent"; Flutter.authorId := 1;
                   Flutter.completed := true |} ] |}) /\
      Permutation listed
        (filter (fun row => Flutter.authorId row =? 1)
           [ {| Flutter.id := 2; Flutter.title := "buy milk"; Flutter.authorId := 1;
                Flutter.completed := false |};
             {| Flutter.id := 1; Flutter.title := "pay rent"; Flutter.authorId := 1;
                Flutter.completed := true |} ]) /\
      StronglySorted (fun x y => Flutter.id x <= Flutter.id y) listed).
Proof.
  split.
  - exact (proj1 (C6_get_tasks_lists_own_tasks_in_order 1)
             (Fixture.as_user 1 "" JNull) Fixture.db eq_refl).
  - exact (proj2 (C6_get_tasks_lists_own_tasks_in_order 1)
             (Fixture.as_user 1 "" JNull)
             {| Legacy.users := [Fixture.alice];
                Legacy.tasks :=
                  [ {| Flutter.id := 2; Flutter.title := "buy milk"; Flutter.authorId := 1;
                       Flutter.completed := false |};
                    {| Flutter.id := 1; Flutter.title := "pay rent"; Flutter.authorId := 1;
                       Flutter.completed := true |} ] |}
             eq_refl).
Defined.

(** C6 as stated fails on the earlier revision: there a completed task
    with a smaller id is listed before an incomplete one. *)
Lemma C6_earlier_revision_lists_completed_first :
  Legacy.get_tasks (Fixture.as_user 1 "" JNull)
    {| Legacy.users := [Fixture.alice];
       Legacy.tasks :=
         [ {| Flutter.id := 2; Flutter.title := "buy milk"; Flutter.authorId := 1;
              Flutter.completed := false |};
           {| Flutter.id := 1; Flutter.title := "pay rent"; Flutter.authorId := 1;
              Flutter.completed := true |} ] |}
  = (Sent 200 (TasksBody
       [ Some {| Flutter.id := 1; Flutter.title := "pay rent"; Flutter.authorId := 1;
                 Flutter.completed := true |};
         Some {| Flutter.id := 2; Flutter.title := "buy milk"; Flutter.authorId := 1;
                 Flutter.completed := false |} ]),
     {| Legacy.users := [Fixture.alice];
        Legacy.tasks :=
          [ {| Flutter.id := 2; Flutter.title := "buy milk"; Flutter.authorId := 1;
               Flutter.completed := false |};
            {| Flutter.id := 1; Flutter.title := "pay rent"; Flutter.authorId := 1;
               Flutter.completed := true |} ] |}) /\
  ~ listed_before
      {| Flutter.id := 1; Flutter.title := "pay rent"; Flutter.authorId := 1;
         Flutter.completed := true |}
      {| Flutter.id := 2; Flutter.title := "buy milk"; Flutter.authorId := 1;
         Flutter.completed := false |}.
Proof.
  split; [reflexivity|].
  unfold listed_before. simpl. intros [[H _]|[H _]]; discriminate.
Qed.

(** On the fixture, Alice is shown her open tasks 1 and 4, then task 2. *)
Example get_tasks_alice :
  get_tasks (Fixture.as_user 1 "" JNull) Fixture.db =
  (Sent 200 (TasksBody (map (fun row => Some (rename_isDone row))
     [Fixture.buy_milk; Fixture.call_mom; Fixture.pay_rent])), Fixture.db).
Proof. reflexivity. Qed.

(* ------------------------------------------------------------------ *)
(** ** Tasks of another user *)
(* ------------------------------------------------------------------ *)

(** A valid update passes the handler's checks, and the completion value
    it hands to the store is a boolean. *)
Lemma valid_update_accepted (title isDoneBody completed : JsVal) :
  update_title_ok title = true ->
  update_completion_ok (completion_value completed isDoneBody) = true ->
  negb (is_nullish title && is_nullish (completion_value completed isDoneBody)) = true ->
  exists data,
    build_updateData title isDoneBody completed = Accepted data /\
    match Prisma.data_isDone data with
    | Some v => exists b, v = JBool b
    | None => True
    end.
Proof.
  intros Ht Hc Hone. unfold build_updateData.
  destruct title as [| | | |s| |]; simpl in Ht; try discriminate; simpl.
  - destruct completed, isDoneBody; simpl in *; try discriminate;
      (eexists; split; [reflexivity|]; simpl; eauto).
  - destruct completed, isDoneBody; simpl in *; try discriminate;
      (eexists; split; [reflexivity|]; simpl; eauto).
  - rewrite trim_empty_iff. apply negb_true_iff in Ht. rewrite Ht.
    destruct completed, isDoneBody; simpl in *; try discriminate;
      (eexists; split; [reflexivity|]; simpl; eauto).
Qed.

(** An update that matches no row changes nothing, whatever its data. *)
Lemma updateMany_unmatched_any (db : Db) (taskId a : Z) (data : Prisma.UpdateData) :
  (forall row, In row (tasks db) -> Prisma.matches taskId a row = false) ->
  (exists exn, Prisma.task_updateMany db taskId (Some a) data = inl exn) \/
  Prisma.task_updateMany db taskId (Some a) data = inr (0%nat, db).
Proof.
  intros Hno. destruct (Prisma.data_isDone data) as [v|] eqn:Hv.
  - destruct v; try (left; unfold Prisma.task_updateMany; rewrite Hv; simpl; eauto; fail).
    right. apply updateMany_unmatched; [exact Hno|]. rewrite Hv. eauto.
  - right. apply updateMany_unmatched; [exact Hno|]. now rewrite Hv.
Qed.

(** [PUT /api/tasks/:id] on a task of somebody else: nothing is written
    and the answer is never a success; a valid update is answered 404. *)
Lemma put_task_other_author (db : Db) (task : Task.t) (b : Z) (req : Request) :
  NoDup (map Task.id (tasks db)) ->
  In task (tasks db) ->
  b <> Task.authorId task ->
  parseInt (userId req) = Some b ->
  parseInt_string (params_id req) = Some (Task.id task) ->
  snd (put_task req db) = db /\
  status_of (fst (put_task req db)) <> Some 200 /\
  (valid_update (body req) = true ->
   put_task req db = (Sent 404 (ErrorBody "Task not found or unauthorized."), db)).
Proof.
  intros Hnd Hin Hb Huser Hid.
  pose proof (no_match_for_other_author db task b Hnd Hin Hb) as Hno.
  unfold put_task, valid_update. rewrite Huser, Hid.
  destruct (get_prop (body req) "title") as [title|];
    [|repeat split; simpl; congruence].
  destruct (get_prop (body req) "isDone") as [isDoneBody|];
    [|repeat split; simpl; congruence].
  destruct (get_prop (body req) "completed") as [completed|];
    [|repeat split; simpl; congruence].
  split; [|split].
  - destruct (build_updateData title isDoneBody completed) as [st e|exn|data];
      try reflexivity.
    destruct (updateMany_unmatched_any db (Task.id task) b data Hno) as [[exn ->]| ->];
      reflexivity.
  - destruct (build_updateData title isDoneBody completed) as [st e|exn|data] eqn:Hbuild.
    + unfold build_updateData in Hbuild. simpl.
      destruct title; simpl in Hbuild; try discriminate;
        repeat match type of Hbuild with
               | context [if ?c then _ else _] => destruct c
               end; inversion Hbuild; discriminate.
    + simpl. discriminate.
    + destruct (updateMany_unmatched_any db (Task.id task) b data Hno) as [[exn ->]| ->];
        simpl; discriminate.
  - intros Hvalid.
    apply andb_true_iff in Hvalid as [Hvalid Hone].
    apply andb_true_iff in Hvalid as [Ht Hc].
    destruct (valid_update_accepted title isDoneBody completed Ht Hc Hone)
      as (data & -> & Hdata).
    now rewrite (updateMany_unmatched db (Task.id task) b data Hno Hdata).
Qed.

(** [DELETE /api/tasks/:id] on a task of somebody else. *)
Lemma delete_task_other_author (db : Db) (task : Task.t) (b : Z) (req : Request) :
  NoDup (map Task.id (tasks db)) ->
  In task (tasks db) ->
  b <> Task.authorId task ->
  parseInt (userId req) = Some b ->
  parseInt_string (params_id req) = Some (Task.id task) ->
  delete_task req db = (Sent 404 (ErrorBody "Task not found or unauthorized."), db).
Proof.
  intros Hnd Hin Hb Huser Hid.
  pose proof (no_match_for_other_author db task b Hnd Hin Hb) as Hno.
  unfold delete_task. rewrite Huser, Hid.
  now rewrite (deleteMany_unmatched db (Task.id task) b Hno).
Qed.

(** C1, as the code has it.  For a task of user A and a request carrying
    the id of another user B: [GET /api/tasks] lists no task with that id;
    [PUT /api/tasks/:id] with the task's id writes nothing and never
    succeeds, and answers 404 when the body is a valid update (the body is
    checked first, so an invalid one is answered 400); [DELETE
    /api/tasks/:id] with the task's id answers 404 and writes nothing. *)
Theorem C1_other_user_cannot_reach_task :
  forall (db : Db) (task : Task.t) (b : Z) (req : Request),
    wf_db db ->
    In task (tasks db) ->
    b <> Task.authorId task ->
    parseInt (userId req) = Some b ->
    (exists listed : list Flutter.t,
        get_tasks req db = (Sent 200 (TasksBody (map Some listed)), db) /\
        ~ In (rename_isDone task) listed /\
        Forall (fun x => Flutter.id x <> Task.id task) listed) /\
    (parseInt_string (params_id req) = Some (Task.id task) ->
        snd (put_task req db) = db /\
        status_of (fst (put_task req db)) <> Some 200 /\
        (valid_update (body req) = true ->
         put_task req db = (Sent 404 (ErrorBody "Task not found or unauthorized."), db)) /\
        delete_task req db = (Sent 404 (ErrorBody "Task not found or unauthorized."), db)).
Proof.
  intros db task b req Hwf Hin Hb Huser.
  pose proof (wf_task_ids db Hwf) as Hnd.
  split.
  - eexists. split; [exact (get_tasks_eq req db b Huser)|].
    assert (Hothers : Forall (fun x => Flutter.id x <> Task.id task)
              (map rename_isDone (sort_by Prisma.isDone_asc_id_asc
                 (filter (fun row => Task.authorId row =? b) (tasks db))))).
    { apply Forall_map, Forall_forall. intros row Hrow. simpl. intros Hid.
      apply (Permutation_in _ (Permutation_sym (sort_by_perm _ _))) in Hrow.
      apply filter_In in Hrow as [Hrow Hauthor].
      assert (row = task) as -> by (eapply NoDup_map_eq; eauto).
      apply Z.eqb_eq in Hauthor. congruence. }
    split; [|exact Hothers].
    intros Hlisted. rewrite Forall_forall in Hothers.
    now apply (Hothers _ Hlisted).
  - intros Hid.
    destruct (put_task_other_author db task b req Hnd Hin Hb Huser Hid)
      as (Hsame & Hnot200 & H404).
    repeat split; auto.
    now apply (delete_task_other_author db task b req).
Qed.

(** C1 as stated fails: Bob's [PUT] on Alice's task 1 with a body that
    sets nothing is answered 400, not 404 (the task stays as it was). *)
Lemma C1_put_without_fields_is_400 :
  In Fixture.buy_milk (tasks Fixture.db) /\
  Task.authorId Fixture.buy_milk = 1 /\
  parseInt (userId (Fixture.as_user 2 "1" (JObj []))) = Some 2 /\
  parseInt_string (params_id (Fixture.as_user 2 "1" (JObj [])))
  = Some (Task.id Fixture.buy_milk) /\
  put_task (Fixture.as_user 2 "1" (JObj [])) Fixture.db
  = (Sent 400 (ErrorBody "Must provide title or completed status for update."),
     Fixture.db) /\
  status_of (fst (put_task (Fixture.as_user 2 "1" (JObj [])) Fixture.db)) <> Some 404.
Proof.
  repeat split; try reflexivity.
  - simpl. auto.
  - simpl. discriminate.
Qed.

Lemma C1_other_user_witness :
  (exists listed : list Flutter.t,
      get_tasks (Fixture.as_user 2 "1" (JObj [("completed", JBool true)])) Fixture.db
      = (Sent 200 (TasksBody (map Some listed)), Fixture.db) /\
      ~ In (rename_isDone Fixture.buy_milk) listed /\
      Forall (fun x => Flutter.id x <> Task.id Fixture.buy_milk) listed) /\
  put_task (Fixture.as_user 2 "1" (JObj [("completed", JBool true)])) Fixture.db
  = (Sent 404 (ErrorBody "Task not found or unauthorized."), Fixture.db) /\
  delete_task (Fixture.as_user 2 "1" (JObj [("completed", JBool true)])) Fixture.db
  = (Sent 404 (ErrorBody "Task not found or unauthorized."), Fixture.db).
Proof.
  destruct (C1_other_user_cannot_reach_task Fixture.db Fixture.buy_milk 2
              (Fixture.as_user 2 "1" (JObj [("completed", JBool true)]))
              Fixture_db_wf (or_introl eq_refl) ltac:(discriminate) eq_refl)
    as [Hget Hrest].
  destruct (Hrest eq_refl) as (_ & _ & Hput & Hdelete).
  split; [exact Hget|]. split; [exact (Hput eq_refl)|exact Hdelete].
Defined.

(* ------------------------------------------------------------------ *)
(** ** Updating a task *)
(* ------------------------------------------------------------------ *)

Lemma find_map_same_key {A : Type} (p : A -> bool) (g : A -> A) (l : list A) :
  (forall x, p (g x) = p x) ->
  find p (map g l) = option_map g (find p l).
Proof.
  intros Hp. induction l as [|y rest IH]; simpl; [reflexivity|].
  rewrite Hp. now destruct (p y).
Qed.

Lemma find_by_unique_key {A : Type} (key : A -> Z) (l : list A) (x : A) :
  NoDup (map key l) -> In x l ->
  find (fun y => key y =? key x) l = Some x.
Proof.
  induction l as [|y rest IH]; simpl; [easy|].
  intros Hnd Hin. apply NoDup_cons_iff in Hnd as [Hy Hnd].
  destruct (Z.eqb_spec (key y) (key x)) as [Heq|Hne].
  - destruct Hin as [->|Hin]; [reflexivity|].
    exfalso. apply Hy. rewrite Heq. now apply in_map.
  - destruct Hin as [->|Hin]; [congruence|]. now apply IH.
Qed.

Lemma filter_In_not_nil {A : Type} (p : A -> bool) (l : list A) (x : A) :
  In x l -> p x = true -> (List.length (filter p l) =? 0)%nat = false.
Proof.
  intros Hin Hp.
  assert (In x (filter p l)) as H by now apply filter_In.
  destruct (filter p l); [destruct H|reflexivity].
Qed.

(** [PUT /api/tasks/:id] by the author, once the body is accepted with a
    boolean (or no) completion value: every matching row is updated and
    the updated row is returned. *)
Lemma put_task_own (db : Db) (task : Task.t) (req : Request)
    (title isDoneBody completed : JsVal) (data_title : option string)
    (done : option bool) :
  NoDup (map Task.id (tasks db)) ->
  In task (tasks db) ->
  parseInt (userId req) = Some (Task.authorId task) ->
  parseInt_string (params_id req) = Some (Task.id task) ->
  get_prop (body req) "title" = Some title ->
  get_prop (body req) "isDone" = Some isDoneBody ->
  get_prop (body req) "completed" = Some completed ->
  build_updateData title isDoneBody completed =
    Accepted {| Prisma.data_title := data_title;
                Prisma.data_isDone := option_map JBool done |} ->
  put_task req db =
  (Sent 200 (TaskBody (Some (rename_isDone (Prisma.apply_update data_title done task)))),
   {| users := users db;
      tasks := updated_tasks (Task.id task) (Task.authorId task) data_title done (tasks db);
      user_seq := user_seq db; task_seq := task_seq db |}).
Proof.
  intros Hnd Hin Huser Hid Ht Hi Hc Hbuild.
  unfold put_task. rewrite Huser, Hid, Ht, Hi, Hc, Hbuild.
  assert (Hmatch : Prisma.matches (Task.id task) (Task.authorId task) task = true).
  { unfold Prisma.matches. now rewrite !Z.eqb_refl. }
  unfold Prisma.task_updateMany. simpl.
  assert (Hdone : match option_map JBool done with
                  | Some v => match Prisma.boolean_arg v with
                              | inr b => inr (Some b)
                              | inl err => inl err
                              end
                  | None => inr None
                  end = (inr done : Exn + option bool)) by now destruct done.
  rewrite Hdone, (filter_In_not_nil _ _ task Hin Hmatch).
  unfold Prisma.task_findUnique. simpl.
  rewrite find_map_same_key by (intros x; now destruct (Prisma.matches _ _ x)).
  rewrite (find_by_unique_key Task.id (tasks db) task Hnd Hin). simpl.
  now rewrite Hmatch.
Qed.

(** A body whose [completed] is a boolean sets [isDone] to it, whatever
    its [isDone] says. *)
Lemma build_updateData_completed (title isDoneBody : JsVal) (b : bool) :
  update_title_ok title = true ->
  build_updateData title isDoneBody (JBool b) =
  Accepted {| Prisma.data_title := match title with JStr s => Some s | _ => None end;
              Prisma.data_isDone := Some (JBool b) |}.
Proof.
  intros Ht. unfold build_updateData.
  destruct title; simpl in Ht; try discriminate; simpl; try reflexivity.
  rewrite trim_empty_iff. apply negb_true_iff in Ht. now rewrite Ht.
Qed.

(** A body with no [title] and no [completed] sets [isDone] from its
    [isDone]. *)
Lemma build_updateData_isDone (title isDoneBody completed : JsVal) :
  is_nullish title = true -> is_nullish completed = true ->
  is_nullish isDoneBody = false ->
  build_updateData title isDoneBody completed =
  Accepted {| Prisma.data_title := None; Prisma.data_isDone := Some isDoneBody |}.
Proof.
  intros Ht Hc Hi. unfold build_updateData. now rewrite Ht, Hc, Hi.
Qed.

(** C8, as the code has it.  An update that carries a body which
    supplies none of [title], [completed] and [isDone] (each absent or
    null), and an update whose [title] is blank after trimming, are
    answered 400 and write nothing; with a numeric id the message names
    the cause. *)
Theorem C8_update_without_fields_or_blank_title :
  forall (req : Request) (db : Db),
    (is_nullish (body req) = false ->
     supplies (body req) "title" = false ->
     supplies (body req) "completed" = false ->
     supplies (body req) "isDone" = false ->
     put_task req db =
     (Sent 400 (ErrorBody
        match parseInt_string (params_id req) with
        | Some _ => "Must provide title or completed status for update."
        | None => "Invalid task ID."
        end), db)) /\
    (forall s,
        get_prop (body req) "title" = Some (JStr s) ->
        all_white_space s = true ->
        put_task req db =
        (Sent 400 (ErrorBody
           match parseInt_string (params_id req) with
           | Some _ => "Task title cannot be empty."
           | None => "Invalid task ID."
           end), db)).
Proof.
  intros req db. split.
  - unfold supplies. intros Hbody Nt Nc Ni. unfold put_task.
    destruct (get_prop (body req) "title") as [title|] eqn:Ht;
      [|now destruct (body req)].
    destruct (get_prop (body req) "isDone") as [isDoneBody|] eqn:Hi;
      [|now destruct (body req)].
    destruct (get_prop (body req) "completed") as [completed|] eqn:Hc;
      [|now destruct (body req)].
    apply negb_false_iff in Nt, Nc, Ni.
    destruct (parseInt_string (params_id req)); [|reflexivity].
    unfold build_updateData. now rewrite Nt, Nc, Ni.
  - intros s Ht Hblank. unfold put_task. rewrite Ht.
    assert (exists i c, get_prop (body req) "isDone" = Some i /\
                        get_prop (body req) "completed" = Some c) as (i & c & -> & ->).
    { destruct (body req); simpl in *; try discriminate; eauto. }
    destruct (parseInt_string (params_id req)); [|reflexivity].
    unfold build_updateData. simpl. now rewrite trim_empty_iff, Hblank.
Qed.

Lemma C8_update_witness :
  put_task (Fixture.as_user 1 "1" (JObj [("isDone", JNull)])) Fixture.db
  = (Sent 400 (ErrorBody "Must provide title or completed status for update."),
     Fixture.db) /\
  put_task (Fixture.as_user 1 "1" (JObj [])) Fixture.db
  = (Sent 400 (ErrorBody "Must provide title or completed status for update."),
     Fixture.db) /\
  put_task (Fixture.as_user 1 "1" (JObj [("title", JStr "  "); ("completed", JBool true)]))
    Fixture.db
  = (Sent 400 (ErrorBody "Task title cannot be empty."), Fixture.db).
Proof.
  split; [|split].
  - exact (proj1 (C8_update_without_fields_or_blank_title
                    (Fixture.as_user 1 "1" (JObj [("isDone", JNull)])) Fixture.db)
             eq_refl eq_refl eq_refl eq_refl).
  - exact (proj1 (C8_update_without_fields_or_blank_title
                    (Fixture.as_user 1 "1" (JObj [])) Fixture.db)
             eq_refl eq_refl eq_refl eq_refl).
  - exact (proj2 (C8_update_without_fields_or_blank_title
                    (Fixture.as_user 1 "1"
                       (JObj [("title", JStr "  "); ("completed", JBool true)]))
                    Fixture.db)
             "  "%string eq_refl eq_refl).
Defined.

(** An update without a body is not answered at all: reading the fields
    throws before the handler's [try], and nothing is written. *)
Example put_task_without_body :
  put_task (Fixture.as_user 1 "1" JUndefined) Fixture.db = (Uncaught TypeError, Fixture.db).
Proof. reflexivity. Qed.

(** C8 as stated fails: a body with neither [title] nor [completed] but
    with [isDone] is not answered 400; Alice's task 1 is updated. *)
Lemma C8_isDone_alone_is_accepted :
  get_prop (JObj [("isDone", JBool true)]) "title" = Some JUndefined /\
  get_prop (JObj [("isDone", JBool true)]) "completed" = Some JUndefined /\
  put_task (Fixture.as_user 1 "1" (JObj [("isDone", JBool true)])) Fixture.db
  = (Sent 200 (TaskBody (Some
       {| Flutter.id := 1; Flutter.title := "buy milk"; Flutter.authorId := 1;
          Flutter.completed := true |})),
     {| users := users Fixture.db;
        tasks := [ {| Task.id := 1; Task.title := "buy milk"; Task.isDone := true;
                      Task.authorId := 1 |};
                   Fixture.pay_rent; Fixture.walk_dog; Fixture.call_mom ];
        user_seq := 3; task_seq := 5 |}) /\
  status_of (fst (put_task (Fixture.as_user 1 "1" (JObj [("isDone", JBool true)]))
                    Fixture.db)) <> Some 400 /\
  snd (put_task (Fixture.as_user 1 "1" (JObj [("isDone", JBool true)])) Fixture.db)
  <> Fixture.db.
Proof.
  repeat split; try reflexivity; simpl; discriminate.
Qed.

(** What the handler does once the body is accepted: it hands
    [updateData] to the store and answers by the count. *)
Lemma put_task_accepted (req : Request) (db : Db)
    (title isDoneBody completed : JsVal) (taskId : Z) (data : Prisma.UpdateData) :
  get_prop (body req) "title" = Some title ->
  get_prop (body req) "isDone" = Some isDoneBody ->
  get_prop (body req) "completed" = Some completed ->
  parseInt_string (params_id req) = Some taskId ->
  build_updateData title isDoneBody completed = Accepted data ->
  put_task req db =
  match Prisma.task_updateMany db taskId (parseInt (userId req)) data with
  | inl _ => (Sent 500 (ErrorBody "Failed to update task."), db)
  | inr (count, db') =>
      if (count =? 0)%nat
      then (Sent 404 (ErrorBody "Task not found or unauthorized."), db')
      else (Sent 200 (TaskBody (mapPrismaToFlutter (Prisma.task_findUnique db' taskId))), db')
  end.
Proof.
  intros Ht Hi Hc Hid Hbuild. unfold put_task. now rewrite Ht, Hi, Hc, Hid, Hbuild.
Qed.

(** C10, as the code has it.  A [PUT /api/tasks/:id] with a numeric id
    whose body has neither [title] nor [completed] (absent or null) but an
    [isDone] that is not null passes the handler's checks with
    [updateData = { isDone }]: it is not answered 400 and that
    [updateData] goes to the store; and when [isDone] is a boolean and the
    task is the caller's, the task's completion state becomes that
    boolean. *)
Theorem C10_isDone_is_used_when_completed_is_absent :
  forall (req : Request) (db : Db) (title isDoneBody completed : JsVal) (taskId : Z),
    get_prop (body req) "title" = Some title ->
    get_prop (body req) "isDone" = Some isDoneBody ->
    get_prop (body req) "completed" = Some completed ->
    is_nullish title = true ->
    is_nullish completed = true ->
    is_nullish isDoneBody = false ->
    parseInt_string (params_id req) = Some taskId ->
    build_updateData title isDoneBody completed =
      Accepted {| Prisma.data_title := None; Prisma.data_isDone := Some isDoneBody |} /\
    status_of (fst (put_task req db)) <> Some 400 /\
    put_task req db =
      match Prisma.task_updateMany db taskId (parseInt (userId req))
              {| Prisma.data_title := None; Prisma.data_isDone := Some isDoneBody |} with
      | inl _ => (Sent 500 (ErrorBody "Failed to update task."), db)
      | inr (count, db') =>
          if (count =? 0)%nat
          then (Sent 404 (ErrorBody "Task not found or unauthorized."), db')
          else (Sent 200 (TaskBody (mapPrismaToFlutter (Prisma.task_findUnique db' taskId))),
                db')
      end /\
    (forall (task : Task.t) (b : bool),
        wf_db db -> In task (tasks db) -> Task.id task = taskId ->
        parseInt (userId req) = Some (Task.authorId task) ->
        isDoneBody = JBool b ->
        put_task req db =
        (Sent 200 (TaskBody (Some
           {| Flutter.id := Task.id task; Flutter.title := Task.title task;
              Flutter.authorId := Task.authorId task; Flutter.completed := b |})),
         {| users := users db;
            tasks := updated_tasks taskId (Task.authorId task) None (Some b) (tasks db);
            user_seq := user_seq db; task_seq := task_seq db |}) /\
        In {| Task.id := Task.id task; Task.title := Task.title task;
              Task.isDone := b; Task.authorId := Task.authorId task |}
           (updated_tasks taskId (Task.authorId task) None (Some b) (tasks db))).
Proof.
  intros req db title isDoneBody completed taskId Ht Hi Hc Nt Nc Ni Hid.
  pose proof (build_updateData_isDone title isDoneBody completed Nt Nc Ni) as Hbuild.
  pose proof (put_task_accepted req db _ _ _ taskId _ Ht Hi Hc Hid Hbuild) as Hput.
  split; [exact Hbuild|]. split; [|split; [exact Hput|]].
  - rewrite Hput.
    destruct (Prisma.task_updateMany _ _ _ _) as [exn|[count db']];
      [simpl; discriminate|].
    destruct (count =? 0)%nat; simpl; discriminate.
  - intros task b Hwf Hin <- Huser ->.
    split.
    + now apply (put_task_own db task req title (JBool b) completed None (Some b)
                   (wf_task_ids db Hwf)).
    + unfold updated_tasks.
      apply in_map_iff. exists task. split; [|exact Hin].
      unfold Prisma.matches. now rewrite !Z.eqb_refl.
Qed.

(** C10 as stated fails: with an id that is no number the same body is
    answered 400, before the body is looked at. *)
Lemma C10_invalid_id_is_400 :
  get_prop (JObj [("isDone", JBool true)]) "title" = Some JUndefined /\
  get_prop (JObj [("isDone", JBool true)]) "completed" = Some JUndefined /\
  get_prop (JObj [("isDone", JBool true)]) "isDone" = Some (JBool true) /\
  parseInt_string "abc" = None /\
  put_task (Fixture.as_user 1 "abc" (JObj [("isDone", JBool true)])) Fixture.db
  = (Sent 400 (ErrorBody "Invalid task ID."), Fixture.db).
Proof. repeat split. Qed.

(** An [isDone] that is no boolean is handed to the store all the same;
    the store refuses it, so the answer is 500 and nothing is written. *)
Example put_task_isDone_ill_typed :
  put_task (Fixture.as_user 1 "1" (JObj [("isDone", JStr "yes")])) Fixture.db
  = (Sent 500 (ErrorBody "Failed to update task."), Fixture.db).
Proof. reflexivity. Qed.

Lemma C10_isDone_witness :
  put_task (Fixture.as_user 1 "4" (JObj [("isDone", JBool true)])) Fixture.db
  = (Sent 200 (TaskBody (Some
       {| Flutter.id := 4; Flutter.title := "call mom"; Flutter.authorId := 1;
          Flutter.completed := true |})),
     {| users := users Fixture.db;
        tasks := updated_tasks 4 1 None (Some true) (tasks Fixture.db);
        user_seq := 3; task_seq := 5 |}) /\
  status_of (fst (put_task (Fixture.as_user 1 "4" (JObj [("isDone", JBool true)]))
                    Fixture.db)) <> Some 400.
Proof.
  destruct (C10_isDone_is_used_when_completed_is_absent
              (Fixture.as_user 1 "4" (JObj [("isDone", JBool true)])) Fixture.db
              JUndefined (JBool true) JUndefined 4
              eq_refl eq_refl eq_refl eq_refl eq_refl eq_refl eq_refl)
    as (_ & Hnot400 & _ & Hown).
  split; [|exact Hnot400].
  exact (proj1 (Hown Fixture.call_mom true Fixture_db_wf
                  (or_intror (or_intror (or_intror (or_introl eq_refl))))
                  eq_refl eq_refl eq_refl)).
Defined.

(* ------------------------------------------------------------------ *)
(** ** Creating a task *)
(* ------------------------------------------------------------------ *)

Lemma user_exists_existsb (db : Db) (a : Z) :
  user_exists db a <-> existsb (fun u => User.id u =? a) (users db) = true.
Proof.
  unfold user_exists. rewrite existsb_exists.
  split; intros (u & Hin & Hu); exists u; (split; [exact Hin|]).
  - now apply Z.eqb_eq.
  - now apply Z.eqb_eq.
Qed.

(** Every 201 of [POST /api/tasks] is the insertion of [new_task]. *)
Lemma post_task_201_inv (req : Request) (db db' : Db) (json : Body) :
  post_task req db = (Sent 201 json, db') ->
  exists s a,
    get_prop (body req) "title" = Some (JStr s) /\
    parseInt (userId req) = Some a /\
    json = TaskBody (Some (rename_isDone (new_task db s a))) /\
    db' = with_new_task db (new_task db s a).
Proof.
  unfold post_task.
  destruct (get_prop (body req) "title") as [title|]; [|discriminate].
  destruct (title_missing_or_blank title) as [exn|[|]]; try discriminate.
  unfold Prisma.task_create.
  destruct title; simpl; try discriminate.
  destruct (parseInt (userId req)) as [a|]; simpl; [|discriminate].
  destruct (existsb _ _); [|discriminate].
  intros [= <- <-]. exists s, a. repeat split.
Qed.

(** What [POST /api/tasks] writes: nothing, or [new_task] at the end. *)
Lemma post_task_writes (req : Request) (db : Db) :
  snd (post_task req db) = db \/
  exists s a, parseInt (userId req) = Some a /\
              snd (post_task req db) = with_new_task db (new_task db s a).
Proof.
  destruct (post_task req db) as [out db'] eqn:Hpost. simpl.
  unfold post_task in Hpost.
  destruct (get_prop (body req) "title") as [title|]; [|left; congruence].
  destruct (title_missing_or_blank title) as [exn|[|]]; try (left; congruence).
  destruct (Prisma.task_create db title (parseInt (userId req)) false)
    as [exn|[row db'']] eqn:Hcreate; [left; congruence|].
  right. unfold Prisma.task_create in Hcreate.
  destruct title; simpl in Hcreate; try discriminate.
  destruct (parseInt (userId req)) as [a|]; simpl in Hcreate; [|discriminate].
  destruct (existsb _ _); [|discriminate].
  exists s, a. split; [reflexivity|].
  injection Hcreate as <- <-. now injection Hpost as _ <-.
Qed.

(** [POST /api/tasks] with a title that is not blank, for a caller who is
    a user. *)
Lemma post_task_created (req : Request) (db : Db) (s : string) (a : Z) :
  get_prop (body req) "title" = Some (JStr s) ->
  all_white_space s = false ->
  parseInt (userId req) = Some a ->
  user_exists db a ->
  post_task req db =
  (Sent 201 (TaskBody (Some (rename_isDone (new_task db s a)))),
   with_new_task db (new_task db s a)).
Proof.
  intros Ht Hs Huser Hexists. unfold post_task. rewrite Ht, Huser.
  unfold title_missing_or_blank. simpl.
  assert ((s =? "")%string = false) as ->.
  { apply String.eqb_neq. intros ->. discriminate. }
  simpl. rewrite trim_empty_iff, Hs.
  unfold Prisma.task_create. simpl.
  apply user_exists_existsb in Hexists. now rewrite Hexists.
Qed.

(** [POST /api/tasks], case by case.  A request without a body is not
    answered: reading the title throws before the handler's [try]; with a
    body, a title that is not supplied (absent or null) or is blank after
    trimming is answered 400 and nothing is created; any other title
    string, for a caller who is a user, is answered 201 and one task is
    created with that title, [completed = false] and the caller's id as
    [authorId], whatever else the body holds; and no request at all
    creates a task that is completed or owned by anybody but the caller. *)
Theorem create_task_is_open_and_owned_by_caller :
  forall (req : Request) (db : Db),
    (is_nullish (body req) = true -> post_task req db = (Uncaught TypeError, db)) /\
    (is_nullish (body req) = false -> supplies (body req) "title" = false ->
       post_task req db = (Sent 400 (ErrorBody "Task title is required."), db)) /\
    (forall s,
        get_prop (body req) "title" = Some (JStr s) ->
        all_white_space s = true ->
        post_task req db = (Sent 400 (ErrorBody "Task title is required."), db)) /\
    (forall s a,
        get_prop (body req) "title" = Some (JStr s) ->
        all_white_space s = false ->
        parseInt (userId req) = Some a ->
        user_exists db a ->
        post_task req db =
        (Sent 201 (TaskBody (Some
           {| Flutter.id := task_seq db; Flutter.title := s; Flutter.authorId := a;
              Flutter.completed := false |})),
         {| users := users db;
            tasks := tasks db ++ [ {| Task.id := task_seq db; Task.title := s;
                                      Task.isDone := false; Task.authorId := a |} ];
            user_seq := user_seq db; task_seq := task_seq db + 1 |})) /\
    (forall row,
        In row (tasks (snd (post_task req db))) ->
        In row (tasks db) \/
        (Task.isDone row = false /\ parseInt (userId req) = Some (Task.authorId row))).
Proof.
  intros req db. split; [|split; [|split; [|split]]].
  - intros Hbody. unfold post_task. now destruct (body req).
  - unfold supplies. intros Hbody Htitle. unfold post_task.
    destruct (get_prop (body req) "title") as [title|] eqn:Ht;
      [|now destruct (body req)].
    apply negb_false_iff in Htitle. now destruct title.
  - intros s Ht Hblank. unfold post_task. rewrite Ht.
    unfold title_missing_or_blank. simpl.
    rewrite trim_empty_iff, Hblank. now destruct (negb (s =? "")%string).
  - intros s a Ht Hs Huser Hexists. now apply post_task_created.
  - intros row Hrow.
    destruct (post_task_writes req db) as [Hsame|(s & a & Ha & Hnew)].
    + left. now rewrite Hsame in Hrow.
    + rewrite Hnew in Hrow. simpl in Hrow.
      apply in_app_or in Hrow as [Hold|[<-|[]]]; [now left|right].
      now split.
Qed.

Lemma create_task_is_open_and_owned_by_caller_witness :
  post_task (Fixture.as_user 2 "" JUndefined) Fixture.db
  = (Uncaught TypeError, Fixture.db) /\
  post_task (Fixture.as_user 2 "" (JObj [("completed", JBool false)])) Fixture.db
  = (Sent 400 (ErrorBody "Task title is required."), Fixture.db) /\
  post_task (Fixture.as_user 2 "" (JObj [("title", JStr "   ")])) Fixture.db
  = (Sent 400 (ErrorBody "Task title is required."), Fixture.db) /\
  post_task
    (Fixture.as_user 2 ""
       (JObj [("title", JStr "feed cat"); ("authorId", JNum 1); ("owner", JNum 1);
              ("completed", JBool true); ("isDone", JBool true)]))
    Fixture.db
  = (Sent 201 (TaskBody (Some
       {| Flutter.id := 5; Flutter.title := "feed cat"; Flutter.authorId := 2;
          Flutter.completed := false |})),
     {| users := users Fixture.db;
        tasks := tasks Fixture.db ++ [ {| Task.id := 5; Task.title := "feed cat";
                                          Task.isDone := false; Task.authorId := 2 |} ];
        user_seq := 3; task_seq := 5 + 1 |}).
Proof.
  split; [|split; [|split]].
  - exact (proj1 (create_task_is_open_and_owned_by_caller
                    (Fixture.as_user 2 "" JUndefined) Fixture.db) eq_refl).
  - exact (proj1 (proj2 (create_task_is_open_and_owned_by_caller
                    (Fixture.as_user 2 "" (JObj [("completed", JBool false)]))
                    Fixture.db)) eq_refl eq_refl).
  - exact (proj1 (proj2 (proj2 (create_task_is_open_and_owned_by_caller
                    (Fixture.as_user 2 "" (JObj [("title", JStr "   ")])) Fixture.db)))
             "   "%string eq_refl eq_refl).
  - apply (proj1 (proj2 (proj2 (proj2 (create_task_is_open_and_owned_by_caller
                    (Fixture.as_user 2 ""
                       (JObj [("title", JStr "feed cat"); ("authorId", JNum 1);
                              ("owner", JNum 1); ("completed", JBool true);
                              ("isDone", JBool true)])) Fixture.db))))
             "feed cat"%string 2 eq_refl eq_refl eq_refl).
    exists Fixture.bob. split; [simpl; auto|reflexivity].
Defined.

(* ------------------------------------------------------------------ *)
(** ** The rename between [isDone] and [completed] *)
(* ------------------------------------------------------------------ *)

(** What [GET /api/tasks] lists, by membership. *)
Lemma get_tasks_members (req : Request) (db : Db) (a : Z) :
  parseInt (userId req) = Some a ->
  exists listed : list Flutter.t,
    get_tasks req db = (Sent 200 (TasksBody (map Some listed)), db) /\
    forall y, In y listed <->
              exists row, In row (tasks db) /\ Task.authorId row = a /\
                          y = rename_isDone row.
Proof.
  intros Ha. eexists. split; [exact (get_tasks_eq req db a Ha)|].
  intros y. rewrite in_map_iff. split.
  - intros (row & <- & Hrow).
    apply (Permutation_in _ (Permutation_sym (sort_by_perm _ _))) in Hrow.
    apply filter_In in Hrow as [Hrow Hauthor]. apply Z.eqb_eq in Hauthor.
    now exists row.
  - intros (row & Hrow & Hauthor & ->). exists row. split; [reflexivity|].
    apply (Permutation_in _ (sort_by_perm _ _)).
    apply filter_In. split; [exact Hrow|]. now apply Z.eqb_eq.
Qed.

Lemma rename_isDone_injective (r1 r2 : Task.t) :
  rename_isDone r1 = rename_isDone r2 -> r1 = r2.
Proof.
  destruct r1, r2. unfold rename_isDone. simpl. now intros [= -> -> -> ->].
Qed.

(** C9. The rename is a bijection between rows and returned tasks that
    carries [isDone] to [completed] and nothing else ([mapPrismaToFlutter]
    is injective and keeps the value); a create request with a title that
    is not blank, from a caller who is a user, is answered 201 with a task
    whose [completed] is [false], whether or not the body sets
    [completed], and the task is listed again with [completed = false];
    and for every boolean [b], an
    update of the caller's task with [completed: b] returns the task with
    [completed = b], and listing the tasks afterwards shows it with
    [completed = b]. *)
Theorem C9_completed_round_trip :
  (forall row : Task.t,
      mapPrismaToFlutter (Some row) =
      Some {| Flutter.id := Task.id row; Flutter.title := Task.title row;
              Flutter.authorId := Task.authorId row;
              Flutter.completed := Task.isDone row |}) /\
  (forall r1 r2 : Task.t,
      mapPrismaToFlutter (Some r1) = mapPrismaToFlutter (Some r2) -> r1 = r2) /\
  (forall (req req' : Request) (db : Db) (s : string) (a : Z),
      get_prop (body req) "title" = Some (JStr s) ->
      all_white_space s = false ->
      parseInt (userId req) = Some a ->
      user_exists db a ->
      parseInt (userId req') = Some a ->
      exists (x : Flutter.t) (db' : Db) (listed : list Flutter.t),
        post_task req db = (Sent 201 (TaskBody (Some x)), db') /\
        Flutter.title x = s /\ Flutter.authorId x = a /\
        Flutter.completed x = false /\
        get_tasks req' db' = (Sent 200 (TasksBody (map Some listed)), db') /\
        In x listed /\
        (wf_db db ->
         forall y, In y listed -> Flutter.id y = Flutter.id x ->
                   Flutter.completed y = false)) /\
  (forall (req req' : Request) (db : Db) (task : Task.t) (b : bool)
          (title isDoneBody : JsVal),
      wf_db db -> In task (tasks db) ->
      parseInt (userId req) = Some (Task.authorId task) ->
      parseInt_string (params_id req) = Some (Task.id task) ->
      get_prop (body req) "title" = Some title ->
      update_title_ok title = true ->
      get_prop (body req) "isDone" = Some isDoneBody ->
      get_prop (body req) "completed" = Some (JBool b) ->
      parseInt (userId req') = Some (Task.authorId task) ->
      exists (x : Flutter.t) (db' : Db) (listed : list Flutter.t),
        put_task req db = (Sent 200 (TaskBody (Some x)), db') /\
        Flutter.id x = Task.id task /\ Flutter.completed x = b /\
        get_tasks req' db' = (Sent 200 (TasksBody (map Some listed)), db') /\
        In x listed /\
        (forall y, In y listed -> Flutter.id y = Task.id task -> Flutter.completed y = b)).
Proof.
  split; [reflexivity|]. split; [|split].
  - intros r1 r2 H. apply rename_isDone_injective.
    unfold mapPrismaToFlutter in H. congruence.
  - intros req req' db s a Ht Hs Ha Hexists Huser.
    destruct (get_tasks_members req' (with_new_task db (new_task db s a)) a Huser)
      as (listed & Hget & Hlisted).
    exists (rename_isDone (new_task db s a)), (with_new_task db (new_task db s a)), listed.
    split; [now apply post_task_created|].
    split; [reflexivity|]. split; [reflexivity|]. split; [reflexivity|].
    split; [exact Hget|]. split.
    + apply Hlisted. exists (new_task db s a). repeat split.
      simpl. apply in_or_app. right. now left.
    + intros Hwf y Hy Hyid.
      apply Hlisted in Hy as (row & Hrow & _ & ->).
      simpl in Hrow, Hyid. apply in_app_or in Hrow as [Hold|[<-|[]]]; [|reflexivity].
      pose proof (wf_task_seq db Hwf) as Hseq. rewrite Forall_forall in Hseq.
      specialize (Hseq row Hold). simpl in Hseq. lia.
  - intros req req' db task b title isDoneBody Hwf Hin Huser Hid Ht Htitle Hi Hc Huser'.
    pose proof (wf_task_ids db Hwf) as Hnd.
    pose proof (put_task_own db task req title isDoneBody (JBool b) _ (Some b)
                  Hnd Hin Huser Hid Ht Hi Hc
                  (build_updateData_completed title isDoneBody b Htitle)) as Hput.
    set (new_title := match title with JStr s => Some s | _ => None end) in *.
    set (db' := {| users := users db;
                   tasks := updated_tasks (Task.id task) (Task.authorId task)
                              new_title (Some b) (tasks db);
                   user_seq := user_seq db; task_seq := task_seq db |}) in *.
    destruct (get_tasks_members req' db' (Task.authorId task) Huser')
      as (listed & Hget & Hlisted).
    exists (rename_isDone (Prisma.apply_update new_title (Some b) task)), db', listed.
    split; [exact Hput|]. split; [reflexivity|]. split; [reflexivity|].
    split; [exact Hget|]. split.
    + apply Hlisted. exists (Prisma.apply_update new_title (Some b) task).
      split; [|now split].
      unfold db', updated_tasks. simpl. apply in_map_iff. exists task.
      split; [|exact Hin]. unfold Prisma.matches. now rewrite !Z.eqb_refl.
    + intros y Hy Hyid.
      apply Hlisted in Hy as (row' & Hrow' & Hauthor & ->).
      unfold db', updated_tasks in Hrow'. simpl in Hrow'.
      apply in_map_iff in Hrow' as (row & <- & Hrow).
      assert (Task.id row = Task.id task) as Hsame.
      { simpl in Hyid. now destruct (Prisma.matches _ _ row). }
      assert (row = task) as -> by (eapply NoDup_map_eq; eauto).
      unfold Prisma.matches. now rewrite !Z.eqb_refl.
Qed.

Lemma C9_completed_round_trip_witness :
  (exists (x : Flutter.t) (db' : Db) (listed : list Flutter.t),
      post_task (Fixture.as_user 2 "" (JObj [("title", JStr "feed cat")])) Fixture.db
      = (Sent 201 (TaskBody (Some x)), db') /\
      Flutter.title x = "feed cat"%string /\ Flutter.authorId x = 2 /\
      Flutter.completed x = false /\
      get_tasks (Fixture.as_user 2 "" JNull) db'
      = (Sent 200 (TasksBody (map Some listed)), db') /\
      In x listed /\
      (wf_db Fixture.db ->
       forall y, In y listed -> Flutter.id y = Flutter.id x ->
                 Flutter.completed y = false)) /\
  (exists (x : Flutter.t) (db' : Db) (listed : list Flutter.t),
      put_task (Fixture.as_user 1 "2" (JObj [("completed", JBool false)])) Fixture.db
      = (Sent 200 (TaskBody (Some x)), db') /\
      Flutter.id x = Task.id Fixture.pay_rent /\ Flutter.completed x = false /\
      get_tasks (Fixture.as_user 1 "" JNull) db'
      = (Sent 200 (TasksBody (map Some listed)), db') /\
      In x listed /\
      (forall y, In y listed -> Flutter.id y = Task.id Fixture.pay_rent ->
                 Flutter.completed y = false)).
Proof.
  split.
  - exact (proj1 (proj2 (proj2 C9_completed_round_trip))
             (Fixture.as_user 2 "" (JObj [("title", JStr "feed cat")]))
             (Fixture.as_user 2 "" JNull) Fixture.db "feed cat"%string 2
             eq_refl eq_refl eq_refl
             (ex_intro _ Fixture.bob (conj (or_intror (or_introl eq_refl)) eq_refl))
             eq_refl).
  - exact (proj2 (proj2 (proj2 C9_completed_round_trip))
             (Fixture.as_user 1 "2" (JObj [("completed", JBool false)]))
             (Fixture.as_user 1 "" JNull) Fixture.db Fixture.pay_rent false
             JUndefined JUndefined Fixture_db_wf (or_intror (or_introl eq_refl))
             eq_refl eq_refl eq_refl eq_refl eq_refl eq_refl eq_refl).
Defined.

(** On the fixture: Alice reopens task 2, and her list then shows it open,
    between her tasks 1 and 4. *)
Example reopen_then_list :
  let req := Fixture.as_user 1 "2" (JObj [("completed", JBool false)]) in
  get_tasks (Fixture.as_user 1 "" JNull) (snd (put_task req Fixture.db)) =
  (Sent 200 (TasksBody
     [ Some (rename_isDone Fixture.buy_milk);
       Some {| Flutter.id := 2; Flutter.title := "pay rent"; Flutter.authorId := 1;
               Flutter.completed := false |};
       Some (rename_isDone Fixture.call_mom) ]),
   snd (put_task req Fixture.db)).
Proof. reflexivity. Qed.

(* ------------------------------------------------------------------ *)
(** ** The middleware *)
(* ------------------------------------------------------------------ *)

Section Auth.

Context {bcrypt : Bcrypt} {jwt : Jsonwebtoken}.
Variable process_env_JWT_SECRET : option string.

#[local] Abbreviation SECRET := (JWT_SECRET process_env_JWT_SECRET).
#[local] Abbreviation gate := (protected process_env_JWT_SECRET).

(** The middleware on a token [jwt.verify] refuses. *)
Lemma authenticateToken_refused
    (amb : Ambient) (next : Handler) (req : Request) (db : Db)
    (token : string) (err : JwtError) :
  bearer_token (authorization req) = Some token ->
  jwt_verify token SECRET (clock amb) = inl err ->
  gate amb next req db = (Sent 403 (ErrorBody "Forbidden: Invalid or expired token."), db).
Proof.
  intros Htoken Hverify. unfold protected, authenticateToken.
  now rewrite Htoken, Hverify.
Qed.

(** The middleware on a token [jwt.verify] accepts. *)
Lemma authenticateToken_verified
    (amb : Ambient) (next : Handler) (req : Request) (db : Db)
    (token : string) (payload v : JsVal) :
  bearer_token (authorization req) = Some token ->
  jwt_verify token SECRET (clock amb) = inr payload ->
  get_prop payload "userId" = Some v ->
  gate amb next req db = next (with_userId req v) db.
Proof.
  intros Htoken Hverify Hv. unfold protected, authenticateToken.
  now rewrite Htoken, Hverify, Hv.
Qed.

(** C5, as the code has it.  Behind [authenticateToken], whatever the
    handler: a request without an [Authorization] header, or whose header
    is a single non-empty word, is answered 401 and the database is
    untouched; a header with a second word carries that word as its token,
    whatever the first word is and whatever follows: when [jwt.verify]
    refuses the token (bad signature, malformed or expired) the request is
    answered 403 and the database is untouched, and when the token
    verifies the request is handed to the handler with [req.userId] set to
    the payload's [userId], the handler's result being the result. *)
Theorem C5_gate_rejects_or_attaches_userId :
  forall (amb : Ambient) (next : Handler) (req : Request) (db : Db),
    (authorization req = None \/
     (exists word, authorization req = Some word /\ word <> ""%string /\ lacks " " word) ->
       gate amb next req db = (Sent 401 (ErrorBody "Unauthorized: Token missing."), db)) /\
    (forall scheme token rest : string,
        lacks " " scheme -> lacks " " token ->
        authorization req = Some (scheme ++ " " ++ token)%string \/
        authorization req = Some (scheme ++ " " ++ token ++ " " ++ rest)%string ->
        (forall err,
            jwt_verify token SECRET (clock amb) = inl err ->
            gate amb next req db =
            (Sent 403 (ErrorBody "Forbidden: Invalid or expired token."), db)) /\
        (forall payload v,
            jwt_verify token SECRET (clock amb) = inr payload ->
            get_prop payload "userId" = Some v ->
            gate amb next req db = next (with_userId req v) db /\
            userId (with_userId req v) = v /\
            body (with_userId req v) = body req /\
            params_id (with_userId req v) = params_id req)).
Proof.
  intros amb next req db. split.
  - intros [Hnone|(word & Hheader & Hne & Hword)];
      unfold protected, authenticateToken; rewrite ?Hnone, ?Hheader;
      [reflexivity|].
    now rewrite (bearer_token_one_word word Hne Hword).
  - intros scheme token rest Hscheme Htoken Hheader.
    assert (Hbearer : bearer_token (authorization req) = Some token).
    { destruct (bearer_token_second_word scheme token rest Hscheme Htoken) as [H1 H2].
      now destruct Hheader as [-> | ->]. }
    split.
    + intros err. now apply authenticateToken_refused.
    + intros payload v Hverify Hv.
      split; [now apply (authenticateToken_verified amb next req db token payload)|].
      now split.
Qed.

(** A token the server signed is refused once its seven days are over. *)
Lemma gate_refuses_expired_token
    (amb : Ambient) (next : Handler) (req : Request) (db : Db) (a iat : Z) :
  authorization req = Some ("Bearer " ++ jwt_sign a SECRET expiresIn_7d iat)%string ->
  iat + expiresIn_7d <= clock amb ->
  gate amb next req db = (Sent 403 (ErrorBody "Forbidden: Invalid or expired token."), db).
Proof.
  intros Hheader Hlate.
  destruct (jwt_sign_one_word a SECRET expiresIn_7d iat) as [_ Hword].
  apply (authenticateToken_refused amb next req db
           (jwt_sign a SECRET expiresIn_7d iat) TokenExpiredError).
  - rewrite Hheader. now apply bearer_token_of_header.
  - rewrite jwt_verify_sign.
    destruct (Z.ltb_spec (clock amb) (iat + expiresIn_7d)); [lia|reflexivity].
Qed.

(** A token the server signed for [a] lets the request through as [a]
    until its seven days are over. *)
Lemma gate_admits_signed_token
    (amb : Ambient) (next : Handler) (req : Request) (db : Db) (a iat : Z) :
  authorization req = Some ("Bearer " ++ jwt_sign a SECRET expiresIn_7d iat)%string ->
  clock amb < iat + expiresIn_7d ->
  gate amb next req db = next (with_userId req (JNum a)) db.
Proof.
  intros Hheader Hvalid.
  destruct (jwt_sign_one_word a SECRET expiresIn_7d iat) as [_ Hword].
  apply (authenticateToken_verified amb next req db
           (jwt_sign a SECRET expiresIn_7d iat)
           (JObj [("userId", JNum a); ("iat", JNum iat);
                  ("exp", JNum (iat + expiresIn_7d))])).
  - rewrite Hheader. now apply bearer_token_of_header.
  - rewrite jwt_verify_sign.
    destruct (Z.ltb_spec (clock amb) (iat + expiresIn_7d)); [reflexivity|lia].
  - reflexivity.
Qed.

(* ------------------------------------------------------------------ *)
(** ** Login *)
(* ------------------------------------------------------------------ *)

Lemma find_none_iff {A : Type} (p : A -> bool) (l : list A) :
  (forall x, In x l -> p x = false) -> find p l = None.
Proof.
  induction l as [|y rest IH]; simpl; intros H; [reflexivity|].
  rewrite (H y (or_introl eq_refl)). apply IH. auto.
Qed.

Lemma find_some_if {A : Type} (p : A -> bool) (l : list A) (x : A) :
  In x l -> p x = true -> exists y, find p l = Some y /\ In y l /\ p y = true.
Proof.
  induction l as [|z rest IH]; simpl; [easy|].
  intros Hin Hx. destruct (p z) eqn:Hz.
  - exists z. auto.
  - destruct Hin as [->|Hin]; [congruence|].
    destruct (IH Hin Hx) as (y & Hy & Hin' & Hp). exists y. auto.
Qed.

(** The body checks pass for a body that holds the credentials. *)
Lemma login_body_passes (req : Request) (e p : string) :
  get_prop (body req) "email" = Some (JStr e) -> e <> ""%string ->
  get_prop (body req) "password" = Some (JStr p) -> p <> ""%string ->
  negb (truthy (body req)) || (object_keys_length (body req) =? 0)%nat = false /\
  negb (truthy (JStr e)) || negb (truthy (JStr p)) = false.
Proof.
  intros He Hne Hp Hnp.
  destruct (object_keys_of_defined_prop (body req) "email" (JStr e) He) as [-> ->];
    [discriminate|].
  split; [reflexivity|]. simpl.
  apply String.eqb_neq in Hne, Hnp. now rewrite Hne, Hnp.
Qed.

(** [POST /api/login] for an email no user has. *)
Lemma login_unknown_email (amb : Ambient) (req : Request) (db : Db) (e p : string) :
  get_prop (body req) "email" = Some (JStr e) -> e <> ""%string ->
  get_prop (body req) "password" = Some (JStr p) -> p <> ""%string ->
  (forall u, In u (users db) -> User.email u <> e) ->
  login process_env_JWT_SECRET amb req db =
  (Sent 401 (ErrorBody "Invalid email or password."), db).
Proof.
  intros He Hne Hp Hnp Hnone.
  destruct (login_body_passes req e p He Hne Hp Hnp) as [Hbody Hfields].
  unfold login. rewrite Hbody, He, Hp, Hfields.
  unfold Prisma.user_findUnique_email. simpl.
  rewrite find_none_iff; [reflexivity|].
  intros u Hu. apply String.eqb_neq. now apply Hnone.
Qed.

(** [POST /api/login] for a known email and a password [bcrypt.compare]
    refuses. *)
Lemma login_wrong_password (amb : Ambient) (req : Request) (db : Db) (e p : string) :
  get_prop (body req) "email" = Some (JStr e) -> e <> ""%string ->
  get_prop (body req) "password" = Some (JStr p) -> p <> ""%string ->
  (exists u, In u (users db) /\ User.email u = e) ->
  (forall u, In u (users db) -> User.email u = e ->
             bcrypt_compare p (User.passwordHash u) = false) ->
  login process_env_JWT_SECRET amb req db =
  (Sent 401 (ErrorBody "Invalid email or password."), db).
Proof.
  intros He Hne Hp Hnp (u & Hu & Hemail) Hrefused.
  destruct (login_body_passes req e p He Hne Hp Hnp) as [Hbody Hfields].
  unfold login. rewrite Hbody, He, Hp, Hfields.
  unfold Prisma.user_findUnique_email. simpl.
  destruct (find_some_if (fun row => (User.email row =? e)%string) (users db) u Hu)
    as (found & -> & Hfound & Hmatch); [now apply String.eqb_eq|].
  apply String.eqb_eq in Hmatch.
  unfold compare_password. now rewrite (Hrefused found Hfound Hmatch).
Qed.

(** C2. A login whose body holds an email and a password (non-empty
    strings) is answered the same way when no user has the email and when
    a user has it but the password fails against the stored hash: status
    401, body [{ error: 'Invalid email or password.' }], nothing written. *)
Theorem C2_login_failures_are_indistinguishable :
  forall (amb amb' : Ambient) (req req' : Request) (db db' : Db)
         (e p e' p' : string),
    get_prop (body req) "email" = Some (JStr e) -> e <> ""%string ->
    get_prop (body req) "password" = Some (JStr p) -> p <> ""%string ->
    get_prop (body req') "email" = Some (JStr e') -> e' <> ""%string ->
    get_prop (body req') "password" = Some (JStr p') -> p' <> ""%string ->
    (forall u, In u (users db) -> User.email u <> e) ->
    (exists u, In u (users db') /\ User.email u = e') ->
    (forall u, In u (users db') -> User.email u = e' ->
               bcrypt_compare p' (User.passwordHash u) = false) ->
    login process_env_JWT_SECRET amb req db =
      (Sent 401 (ErrorBody "Invalid email or password."), db) /\
    login process_env_JWT_SECRET amb' req' db' =
      (Sent 401 (ErrorBody "Invalid email or password."), db') /\
    fst (login process_env_JWT_SECRET amb req db) =
    fst (login process_env_JWT_SECRET amb' req' db').
Proof.
  intros amb amb' req req' db db' e p e' p' He Hne Hp Hnp He' Hne' Hp' Hnp'
         Hunknown Hknown Hrefused.
  pose proof (login_unknown_email amb req db e p He Hne Hp Hnp Hunknown) as H1.
  pose proof (login_wrong_password amb' req' db' e' p' He' Hne' Hp' Hnp' Hknown Hrefused)
    as H2.
  split; [exact H1|]. split; [exact H2|]. now rewrite H1, H2.
Qed.

End Auth.

(* ------------------------------------------------------------------ *)
(** ** Registration *)
(* ------------------------------------------------------------------ *)

Section Registration.

Context {bcrypt : Bcrypt} {jwt : Jsonwebtoken}.
Variable process_env_JWT_SECRET : option string.

#[local] Abbreviation SECRET := (JWT_SECRET process_env_JWT_SECRET).

Lemma register_body_passes (req : Request) (u e p : string) :
  get_prop (body req) "username" = Some (JStr u) -> u <> ""%string ->
  e <> ""%string -> p <> ""%string ->
  negb (truthy (body req)) || (object_keys_length (body req) =? 0)%nat = false /\
  negb (truthy (JStr u)) || negb (truthy (JStr e)) || negb (truthy (JStr p)) = false.
Proof.
  intros Hu Hnu Hne Hnp.
  destruct (object_keys_of_defined_prop (body req) "username" (JStr u) Hu) as [-> ->];
    [discriminate|].
  split; [reflexivity|]. simpl.
  apply String.eqb_neq in Hnu, Hne, Hnp. now rewrite Hnu, Hne, Hnp.
Qed.

Lemma taken_find (db : Db) (u e : string) :
  taken db u e ->
  exists row, find (fun row => (User.username row =? u)%string
                               || (User.email row =? e)%string) (users db) = Some row.
Proof.
  intros (row & Hin & Hsame).
  destruct (find_some_if (fun row => (User.username row =? u)%string
                                     || (User.email row =? e)%string)
              (users db) row Hin) as (found & Hfound & _).
  - apply orb_true_iff. destruct Hsame as [<-|<-]; [left|right]; apply String.eqb_refl.
  - now exists found.
Qed.

Lemma not_taken_find (db : Db) (u e : string) :
  ~ taken db u e ->
  find (fun row => (User.username row =? u)%string
                   || (User.email row =? e)%string) (users db) = None /\
  existsb (fun row => (User.username row =? u)%string
                      || (User.email row =? e)%string) (users db) = false.
Proof.
  intros Hfree.
  assert (forall row, In row (users db) ->
            (User.username row =? u)%string || (User.email row =? e)%string = false) as H.
  { intros row Hin. apply orb_false_iff.
    split; apply String.eqb_neq; intros Heq; apply Hfree; exists row; auto. }
  split; [now apply find_none_iff|].
  apply not_true_is_false. intros Hex.
  apply existsb_exists in Hex as (row & Hin & Hrow). rewrite (H row Hin) in Hrow.
  discriminate.
Qed.

(** [POST /api/register] with a taken username or email. *)
Lemma register_conflict (amb : Ambient) (req : Request) (db : Db) (u e p : string) :
  get_prop (body req) "username" = Some (JStr u) -> u <> ""%string ->
  get_prop (body req) "email" = Some (JStr e) -> e <> ""%string ->
  get_prop (body req) "password" = Some (JStr p) -> p <> ""%string ->
  taken db u e ->
  register process_env_JWT_SECRET amb req db =
  (Sent 409 (ErrorBody "User with this username or email already exists."), db).
Proof.
  intros Hu Hnu He Hne Hp Hnp Htaken.
  destruct (register_body_passes req u e p Hu Hnu Hne Hnp) as [Hbody Hfields].
  unfold register. rewrite Hbody, Hu, He, Hp, Hfields.
  unfold Prisma.user_findFirst_username_or_email. simpl.
  now destruct (taken_find db u e Htaken) as [row ->].
Qed.

(** [POST /api/register] with a free username and email. *)
Lemma register_created (amb : Ambient) (req : Request) (db : Db) (u e p : string) :
  get_prop (body req) "username" = Some (JStr u) -> u <> ""%string ->
  get_prop (body req) "email" = Some (JStr e) -> e <> ""%string ->
  get_prop (body req) "password" = Some (JStr p) -> p <> ""%string ->
  ~ taken db u e ->
  register process_env_JWT_SECRET amb req db =
  (Sent 201
     (AuthBody "User registered successfully"
        (jwt_sign (user_seq db) SECRET expiresIn_7d (clock amb))
        {| pu_id := user_seq db; pu_username := u; pu_email := e |}),
   with_new_user db (new_user amb db u e p)).
Proof.
  intros Hu Hnu He Hne Hp Hnp Hfree.
  destruct (register_body_passes req u e p Hu Hnu Hne Hnp) as [Hbody Hfields].
  destruct (not_taken_find db u e Hfree) as [Hfind Hexistsb].
  unfold register. rewrite Hbody, Hu, He, Hp, Hfields.
  unfold Prisma.user_findFirst_username_or_email, Prisma.user_create. simpl.
  now rewrite Hfind, Hexistsb.
Qed.

(** Every 201 of [POST /api/register] is the insertion of [new_user]. *)
Lemma register_201_inv (amb : Ambient) (req : Request) (db db' : Db) (json : Body) :
  register process_env_JWT_SECRET amb req db = (Sent 201 json, db') ->
  exists u e p,
    get_prop (body req) "username" = Some (JStr u) /\
    get_prop (body req) "email" = Some (JStr e) /\
    get_prop (body req) "password" = Some (JStr p) /\
    ~ taken db u e /\
    json = AuthBody "User registered successfully"
             (jwt_sign (user_seq db) SECRET expiresIn_7d (clock amb))
             (public_user (new_user amb db u e p)) /\
    db' = with_new_user db (new_user amb db u e p).
Proof.
  unfold register.
  destruct (negb (truthy (body req)) || _); [discriminate|].
  destruct (get_prop (body req) "username") as [username|]; [|discriminate].
  destruct (get_prop (body req) "email") as [email|]; [|discriminate].
  destruct (get_prop (body req) "password") as [password|]; [|discriminate].
  destruct (negb (truthy username) || _ || _); [discriminate|].
  unfold Prisma.user_findFirst_username_or_email, Prisma.user_create.
  destruct username as [| | | |u| |]; simpl; try discriminate.
  destruct email as [| | | |e| |]; simpl; try discriminate.
  destruct (find _ (users db)) as [row|] eqn:Hfind; [discriminate|].
  destruct password as [| | | |p| |]; simpl; try discriminate.
  destruct (existsb _ (users db)) eqn:Hexistsb; [discriminate|].
  intros [= <- <-]. exists u, e, p. repeat split.
  intros (row & Hin & Hsame).
  apply (find_none _ _ Hfind) in Hin.
  apply orb_false_iff in Hin as [H1 H2].
  apply String.eqb_neq in H1, H2. tauto.
Qed.

(** C4. A registration whose username, email and password are non-empty
    strings: when a user already has the username or the email it is
    answered 409 and no user is created; otherwise one user is created,
    holding the bcrypt digest of the password (which is not the
    password), and the answer is 201 with a token and a user object of
    [id], [username] and [email] only. *)
Theorem C4_register_conflict_or_created :
  forall (amb : Ambient) (req : Request) (db : Db) (u e p : string),
    get_prop (body req) "username" = Some (JStr u) -> u <> ""%string ->
    get_prop (body req) "email" = Some (JStr e) -> e <> ""%string ->
    get_prop (body req) "password" = Some (JStr p) -> p <> ""%string ->
    ((exists row, In row (users db) /\ (User.username row = u \/ User.email row = e)) ->
       register process_env_JWT_SECRET amb req db =
       (Sent 409 (ErrorBody "User with this username or email already exists."), db)) /\
    ((forall row, In row (users db) -> User.username row <> u /\ User.email row <> e) ->
       exists (token : string) (newUser : User.t) (db' : Db),
         register process_env_JWT_SECRET amb req db =
         (Sent 201 (AuthBody "User registered successfully" token
                      {| pu_id := User.id newUser; pu_username := u; pu_email := e |}),
          db') /\
         users db' = users db ++ [newUser] /\
         tasks db' = tasks db /\
         User.username newUser = u /\ User.email newUser = e /\
         User.passwordHash newUser = bcrypt_hash p 10 (salt amb) /\
         User.passwordHash newUser <> p).
Proof.
  intros amb req db u e p Hu Hnu He Hne Hp Hnp. split.
  - intros Htaken. now apply (register_conflict amb req db u e p).
  - intros Hfree.
    exists (jwt_sign (user_seq db) SECRET expiresIn_7d (clock amb)),
           (new_user amb db u e p), (with_new_user db (new_user amb db u e p)).
    split.
    + apply (register_created amb req db u e p); auto.
      intros (row & Hin & Hsame). destruct (Hfree row Hin). tauto.
    + repeat split. simpl. apply bcrypt_hash_not_data.
Qed.

(** C3. Every registration answered 201 created one user, and the token
    of the answer, verified with the server's secret at the time of the
    answer or at any time before its seven days are over, yields a payload
    whose [userId] is the id of that user, which is the [id] of the
    answer's user object; a later request bearing the token reaches its
    handler with that id as [req.userId]. *)
Theorem C3_registration_token_verifies_to_new_user :
  forall (amb : Ambient) (req : Request) (db db' : Db) (json : Body),
    register process_env_JWT_SECRET amb req db = (Sent 201 json, db') ->
    exists (message token : string) (user : PublicUser) (newUser : User.t)
           (payload : JsVal),
      json = AuthBody message token user /\
      users db' = users db ++ [newUser] /\
      pu_id user = User.id newUser /\
      jwt_verify token SECRET (clock amb) = inr payload /\
      get_prop payload "userId" = Some (JNum (User.id newUser)) /\
      (forall now, now < clock amb + expiresIn_7d ->
                   jwt_verify token SECRET now = inr payload) /\
      (forall (later : Ambient) (next : Handler) (req2 : Request) (db2 : Db),
          clock later < clock amb + expiresIn_7d ->
          authorization req2 = Some ("Bearer " ++ token)%string ->
          protected process_env_JWT_SECRET later next req2 db2 =
          next (with_userId req2 (JNum (User.id newUser))) db2).
Proof.
  intros amb req db db' json Hregister.
  destruct (register_201_inv amb req db db' json Hregister)
    as (u & e & p & _ & _ & _ & _ & -> & ->).
  exists "User registered successfully"%string,
         (jwt_sign (user_seq db) SECRET expiresIn_7d (clock amb)),
         (public_user (new_user amb db u e p)), (new_user amb db u e p),
         (JObj [("userId", JNum (user_seq db)); ("iat", JNum (clock amb));
                ("exp", JNum (clock amb + expiresIn_7d))]).
  assert (Hverify : forall now, now < clock amb + expiresIn_7d ->
            jwt_verify (jwt_sign (user_seq db) SECRET expiresIn_7d (clock amb)) SECRET now
            = inr (JObj [("userId", JNum (user_seq db)); ("iat", JNum (clock amb));
                         ("exp", JNum (clock amb + expiresIn_7d))])).
  { intros now Hnow. rewrite jwt_verify_sign.
    destruct (Z.ltb_spec now (clock amb + expiresIn_7d)); [reflexivity|lia]. }
  repeat split; auto.
  - apply Hverify. unfold expiresIn_7d. lia.
  - intros later next req2 db2 Hlater Hheader.
    now apply (gate_admits_signed_token process_env_JWT_SECRET later next req2 db2
                 (user_seq db) (clock amb)).
Qed.

End Registration.

(* ------------------------------------------------------------------ *)
(** ** The server on the reference libraries *)
(* ------------------------------------------------------------------ *)

Module Run.

(** The server with [JWT_SECRET] unset and the reference libraries. *)
Definition register : Ambient -> Handler :=
  @register Reference.bcrypt Reference.jwt None.

Definition login : Ambient -> Handler :=
  @login Reference.bcrypt Reference.jwt None.

Definition protected : Ambient -> Handler -> Handler :=
  @protected Reference.jwt None.

Definition credentials (u e p : string) : JsVal :=
  JObj [("username", JStr u); ("email", JStr e); ("password", JStr p)].

Definition carol_registers : Request :=
  Fixture.arriving None "" (credentials "carol" "c@x.com" "p3").

Definition carol : User.t :=
  {| User.id := 3; User.username := "carol"; User.email := "c@x.com";
     User.passwordHash := "$p3" |}.

Definition carol_token : string := "3.1000.605800.31".

Definition carol_answer : Body :=
  AuthBody "User registered successfully" carol_token
    {| pu_id := 3; pu_username := "carol"; pu_email := "c@x.com" |}.

Definition db_with_carol : Db :=
  {| users := [Fixture.alice; Fixture.bob; carol]; tasks := tasks Fixture.db;
     user_seq := 4; task_seq := 5 |}.

End Run.

#[local] Existing Instance Reference.bcrypt.
#[local] Existing Instance Reference.jwt.

Example carol_registers_201 :
  Run.register Fixture.noon Run.carol_registers Fixture.db
  = (Sent 201 Run.carol_answer, Run.db_with_carol).
Proof. reflexivity. Qed.

(** The example of the specification, from an empty database: Alice and
    Bob register, Alice creates a task with her token, and Bob's list is
    empty while Alice's shows the task. *)
Example alice_creates_bob_sees_nothing :
  let register_as u e p db :=
    Run.register Fixture.noon (Fixture.arriving None "" (Run.credentials u e p)) db in
  let db1 := snd (register_as "alice" "a@x.com" "p1" empty_db) in
  let db2 := snd (register_as "bob" "b@x.com" "p2" db1) in
  let alice_token := "Bearer 1.1000.605800.31"%string in
  let bob_token := "Bearer 2.1000.605800.31"%string in
  let created :=
    Run.protected Fixture.noon post_task
      (Fixture.arriving (Some alice_token) "" (JObj [("title", JStr "buy milk")])) db2 in
  fst (register_as "alice" "a@x.com" "p1" empty_db)
  = Sent 201 (AuthBody "User registered successfully" "1.1000.605800.31"
                {| pu_id := 1; pu_username := "alice"; pu_email := "a@x.com" |}) /\
  fst created
  = Sent 201 (TaskBody (Some {| Flutter.id := 1; Flutter.title := "buy milk";
                                Flutter.authorId := 1; Flutter.completed := false |})) /\
  fst (Run.protected Fixture.noon get_tasks
         (Fixture.arriving (Some bob_token) "" JNull) (snd created))
  = Sent 200 (TasksBody []) /\
  fst (Run.protected Fixture.noon get_tasks
         (Fixture.arriving (Some alice_token) "" JNull) (snd created))
  = Sent 200 (TasksBody [Some {| Flutter.id := 1; Flutter.title := "buy milk";
                                 Flutter.authorId := 1; Flutter.completed := false |}]).
Proof. repeat split. Qed.

Lemma C3_registration_token_witness :
  exists (message token : string) (user : PublicUser) (newUser : User.t)
         (payload : JsVal),
    Run.carol_answer = AuthBody message token user /\
    users Run.db_with_carol = users Fixture.db ++ [newUser] /\
    pu_id user = User.id newUser /\
    jwt_verify token (JWT_SECRET None) (clock Fixture.noon) = inr payload /\
    get_prop payload "userId" = Some (JNum (User.id newUser)) /\
    (forall now, now < clock Fixture.noon + expiresIn_7d ->
                 jwt_verify token (JWT_SECRET None) now = inr payload) /\
    (forall (later : Ambient) (next : Handler) (req2 : Request) (db2 : Db),
        clock later < clock Fixture.noon + expiresIn_7d ->
        authorization req2 = Some ("Bearer " ++ token)%string ->
        Run.protected later next req2 db2 =
        next (with_userId req2 (JNum (User.id newUser))) db2).
Proof.
  exact (@C3_registration_token_verifies_to_new_user Reference.bcrypt Reference.jwt
           None Fixture.noon Run.carol_registers Fixture.db Run.db_with_carol
           Run.carol_answer eq_refl).
Defined.

Lemma C4_register_witness :
  Run.register Fixture.noon
    (Fixture.arriving None "" (Run.credentials "alice2" "a@x.com" "p9")) Fixture.db
  = (Sent 409 (ErrorBody "User with this username or email already exists."),
     Fixture.db) /\
  exists (token : string) (newUser : User.t) (db' : Db),
    Run.register Fixture.noon Run.carol_registers Fixture.db =
    (Sent 201 (AuthBody "User registered successfully" token
                 {| pu_id := User.id newUser; pu_username := "carol";
                    pu_email := "c@x.com" |}), db') /\
    users db' = users Fixture.db ++ [newUser] /\
    tasks db' = tasks Fixture.db /\
    User.username newUser = "carol"%string /\ User.email newUser = "c@x.com"%string /\
    User.passwordHash newUser = Reference.hash "p3" 10 (salt Fixture.noon) /\
    User.passwordHash newUser <> "p3"%string.
Proof.
  split.
  - apply (proj1 (@C4_register_conflict_or_created Reference.bcrypt Reference.jwt None
                    Fixture.noon
                    (Fixture.arriving None "" (Run.credentials "alice2" "a@x.com" "p9"))
                    Fixture.db "alice2" "a@x.com" "p9"
                    eq_refl ltac:(discriminate) eq_refl ltac:(discriminate)
                    eq_refl ltac:(discriminate))).
    exists Fixture.alice. split; [simpl; auto|right; reflexivity].
  - apply (proj2 (@C4_register_conflict_or_created Reference.bcrypt Reference.jwt None
                    Fixture.noon Run.carol_registers Fixture.db "carol" "c@x.com" "p3"
                    eq_refl ltac:(discriminate) eq_refl ltac:(discriminate)
                    eq_refl ltac:(discriminate))).
    intros row [<-|[<-|[]]]; split; discriminate.
Defined.

Lemma C2_login_witness :
  Run.login Fixture.noon
    (Fixture.arriving None "" (JObj [("email", JStr "nobody@x.com");
                                     ("password", JStr "p1")])) Fixture.db
  = (Sent 401 (ErrorBody "Invalid email or password."), Fixture.db) /\
  Run.login Fixture.noon
    (Fixture.arriving None "" (JObj [("email", JStr "a@x.com");
                                     ("password", JStr "wrong")])) Fixture.db
  = (Sent 401 (ErrorBody "Invalid email or password."), Fixture.db) /\
  fst (Run.login Fixture.noon
         (Fixture.arriving None "" (JObj [("email", JStr "nobody@x.com");
                                          ("password", JStr "p1")])) Fixture.db)
  = fst (Run.login Fixture.noon
           (Fixture.arriving None "" (JObj [("email", JStr "a@x.com");
                                            ("password", JStr "wrong")])) Fixture.db).
Proof.
  apply (@C2_login_failures_are_indistinguishable Reference.bcrypt Reference.jwt None
           Fixture.noon Fixture.noon _ _ Fixture.db Fixture.db
           "nobody@x.com" "p1" "a@x.com" "wrong");
    try reflexivity; try discriminate.
  - intros u [<-|[<-|[]]]; discriminate.
  - exists Fixture.alice. split; [simpl; auto|reflexivity].
  - intros u [<-|[<-|[]]]; [reflexivity|discriminate].
Defined.

(** With the right password the same request is answered 200. *)
Example alice_logs_in :
  Run.login Fixture.noon
    (Fixture.arriving None "" (JObj [("email", JStr "a@x.com"); ("password", JStr "p1")]))
    Fixture.db
  = (Sent 200 (AuthBody "Login successful" "1.1000.605800.31"
                 {| pu_id := 1; pu_username := "alice"; pu_email := "a@x.com" |}),
     Fixture.db).
Proof. reflexivity. Qed.

Lemma C5_gate_witness :
  Run.protected Fixture.noon get_tasks (Fixture.arriving None "" JNull) Fixture.db
  = (Sent 401 (ErrorBody "Unauthorized: Token missing."), Fixture.db) /\
  Run.protected Fixture.noon get_tasks (Fixture.arriving (Some "Bearer") "" JNull)
    Fixture.db
  = (Sent 401 (ErrorBody "Unauthorized: Token missing."), Fixture.db) /\
  Run.protected Fixture.noon get_tasks
    (Fixture.arriving (Some "Bearer 1.0.900.31") "" JNull) Fixture.db
  = (Sent 403 (ErrorBody "Forbidden: Invalid or expired token."), Fixture.db) /\
  Run.protected Fixture.noon get_tasks
    (Fixture.arriving (Some "Bearer 1.0.604800.31") "" JNull) Fixture.db
  = get_tasks
      (with_userId (Fixture.arriving (Some "Bearer 1.0.604800.31") "" JNull) (JNum 1))
      Fixture.db.
Proof.
  split; [|split; [|split]].
  - exact (proj1 (@C5_gate_rejects_or_attaches_userId Reference.jwt None Fixture.noon
                    get_tasks (Fixture.arriving None "" JNull) Fixture.db)
             (or_introl eq_refl)).
  - refine (proj1 (@C5_gate_rejects_or_attaches_userId Reference.jwt None Fixture.noon
                     get_tasks (Fixture.arriving (Some "Bearer") "" JNull) Fixture.db)
              (or_intror (ex_intro _ "Bearer"%string (conj eq_refl (conj _ _))))).
    + discriminate.
    + now apply lacks_by_test.
  - refine (proj1 (proj2
              (@C5_gate_rejects_or_attaches_userId Reference.jwt None Fixture.noon
                 get_tasks (Fixture.arriving (Some "Bearer 1.0.900.31") "" JNull)
                 Fixture.db)
              "Bearer"%string "1.0.900.31"%string ""%string _ _ (or_introl eq_refl))
              TokenExpiredError eq_refl); now apply lacks_by_test.
  - refine (proj1 (proj2 (proj2
              (@C5_gate_rejects_or_attaches_userId Reference.jwt None Fixture.noon
                 get_tasks (Fixture.arriving (Some "Bearer 1.0.604800.31") "" JNull)
                 Fixture.db)
              "Bearer"%string "1.0.604800.31"%string ""%string _ _ (or_introl eq_refl))
              (JObj [("userId", JNum 1); ("iat", JNum 0); ("exp", JNum 604800)])
              (JNum 1) eq_refl eq_refl)); now apply lacks_by_test.
Defined.

(** C5 as stated fails: a header that carries no bearer token but the
    credentials of another scheme has a second word, which is verified as
    a token; the answer is 403, not 401. *)
Lemma C5_other_scheme_is_403 :
  bearer_token (Some "Basic YWxpY2U6cDE=") = Some "YWxpY2U6cDE="%string /\
  Run.protected Fixture.noon get_tasks
    (Fixture.arriving (Some "Basic YWxpY2U6cDE=") "" JNull) Fixture.db
  = (Sent 403 (ErrorBody "Forbidden: Invalid or expired token."), Fixture.db) /\
  status_of (fst (Run.protected Fixture.noon get_tasks
                    (Fixture.arriving (Some "Basic YWxpY2U6cDE=") "" JNull) Fixture.db))
  <> Some 401.
Proof. repeat split. simpl. discriminate. Qed.

(** C7. A create request without a body supplies no title, yet it is not
    answered 400: [const { title } = req.body] throws before the handler's
    [try], so the request gets no answer from the handler.  Registration
    and login answer the same request 400: they test [!req.body] first. *)
Lemma C7_create_without_body_is_not_answered :
  supplies JUndefined "title" = false /\
  post_task (Fixture.as_user 2 "" JUndefined) Fixture.db
  = (Uncaught TypeError, Fixture.db) /\
  Run.protected Fixture.noon post_task
    (Fixture.arriving (Some "Bearer 2.0.604800.31") "" JUndefined) Fixture.db
  = (Uncaught TypeError, Fixture.db) /\
  Run.register Fixture.noon (Fixture.arriving None "" JUndefined) Fixture.db
  = (Sent 400 (ErrorBody "Request body missing or invalid JSON format."), Fixture.db) /\
  Run.login Fixture.noon (Fixture.arriving None "" JUndefined) Fixture.db
  = (Sent 400 (ErrorBody "Request body missing or invalid JSON format."), Fixture.db).
Proof. repeat split. Qed.

(* ------------------------------------------------------------------ *)
(** ** The database stays well formed *)
(* ------------------------------------------------------------------ *)

Lemma NoDup_snoc {A : Type} (l : list A) (x : A) :
  NoDup l -> ~ In x l -> NoDup (l ++ [x]).
Proof.
  intros Hl Hx. apply (Permutation_NoDup (Permutation_cons_append l x)).
  now constructor.
Qed.

Lemma fresh_key {A : Type} (key : A -> Z) (l : list A) (seq : Z) :
  Forall (fun row => key row < seq) l -> ~ In seq (map key l).
Proof.
  intros Hbelow Hin. apply in_map_iff in Hin as (row & Hkey & Hrow).
  rewrite Forall_forall in Hbelow. specialize (Hbelow row Hrow). lia.
Qed.

Lemma wf_empty_db : wf_db empty_db.
Proof. constructor; simpl; constructor. Qed.

Lemma wf_with_new_task (db : Db) (s : string) (a : Z) :
  wf_db db -> user_exists db a -> wf_db (with_new_task db (new_task db s a)).
Proof.
  intros [Hids Hseq Huids Huseq Hnames Hemails Hauthors] Hexists.
  constructor; simpl; auto.
  - rewrite map_app. simpl. apply NoDup_snoc; [exact Hids|].
    now apply fresh_key.
  - apply Forall_app. split.
    + eapply Forall_impl; [|exact Hseq]. simpl. intros row Hrow. lia.
    + constructor; [simpl; lia|constructor].
  - apply Forall_app. split; [exact Hauthors|].
    constructor; [exact Hexists|constructor].
Qed.

Lemma wf_with_new_user (db : Db) (row : User.t) :
  wf_db db -> User.id row = user_seq db ->
  (forall old, In old (users db) ->
               User.username old <> User.username row /\ User.email old <> User.email row) ->
  wf_db (with_new_user db row).
Proof.
  intros [Hids Hseq Huids Huseq Hnames Hemails Hauthors] Hid Hfree.
  constructor; simpl; auto.
  - rewrite map_app. simpl. apply NoDup_snoc; [exact Huids|].
    rewrite Hid. now apply fresh_key.
  - apply Forall_app. split.
    + eapply Forall_impl; [|exact Huseq]. simpl. intros old Hold. lia.
    + constructor; [lia|constructor].
  - rewrite map_app. simpl. apply NoDup_snoc; [exact Hnames|].
    intros Hin. apply in_map_iff in Hin as (old & Hsame & Hold).
    now destruct (Hfree old Hold).
  - rewrite map_app. simpl. apply NoDup_snoc; [exact Hemails|].
    intros Hin. apply in_map_iff in Hin as (old & Hsame & Hold).
    now destruct (Hfree old Hold).
  - eapply Forall_impl; [|exact Hauthors]. simpl.
    intros task (u & Hu & Hauthor). exists u. split; [|exact Hauthor].
    apply in_or_app. now left.
Qed.

(** Rows rewritten in place, ids and authors kept. *)
Lemma wf_tasks_rewritten (db : Db) (g : Task.t -> Task.t) :
  (forall row, Task.id (g row) = Task.id row /\ Task.authorId (g row) = Task.authorId row) ->
  wf_db db ->
  wf_db {| users := users db; tasks := map g (tasks db);
           user_seq := user_seq db; task_seq := task_seq db |}.
Proof.
  intros Hg [Hids Hseq Huids Huseq Hnames Hemails Hauthors].
  constructor; simpl; auto.
  - rewrite map_map. erewrite map_ext; [exact Hids|]. intros row. apply Hg.
  - apply Forall_map. eapply Forall_impl; [|exact Hseq]. simpl.
    intros row Hrow. now rewrite (proj1 (Hg row)).
  - apply Forall_map. eapply Forall_impl; [|exact Hauthors]. simpl.
    intros row Hrow. now rewrite (proj2 (Hg row)).
Qed.

Lemma NoDup_map_filter {A B : Type} (key : A -> B) (p : A -> bool) (l : list A) :
  NoDup (map key l) -> NoDup (map key (filter p l)).
Proof.
  induction l as [|x rest IH]; simpl; [auto|].
  intros Hnd. apply NoDup_cons_iff in Hnd as [Hx Hnd].
  destruct (p x); simpl; [|now apply IH].
  constructor; [|now apply IH].
  intros Hin. apply Hx. apply in_map_iff in Hin as (y & Hy & Hin).
  apply filter_In in Hin as [Hin _]. rewrite <- Hy. now apply in_map.
Qed.

Lemma Forall_filter_keeps {A : Type} (P : A -> Prop) (p : A -> bool) (l : list A) :
  Forall P l -> Forall P (filter p l).
Proof.
  rewrite !Forall_forall. intros H x Hx. apply filter_In in Hx as [Hx _]. auto.
Qed.

(** Rows removed. *)
Lemma wf_tasks_removed (db : Db) (p : Task.t -> bool) :
  wf_db db ->
  wf_db {| users := users db; tasks := filter p (tasks db);
           user_seq := user_seq db; task_seq := task_seq db |}.
Proof.
  intros [Hids Hseq Huids Huseq Hnames Hemails Hauthors].
  constructor; simpl; auto.
  - now apply NoDup_map_filter.
  - now apply Forall_filter_keeps.
  - now apply Forall_filter_keeps.
Qed.

Lemma get_tasks_writes_nothing (req : Request) (db : Db) :
  snd (get_tasks req db) = db.
Proof.
  unfold get_tasks. now destruct (Prisma.task_findMany _ _ _).
Qed.

Lemma post_task_keeps_wf (req : Request) (db : Db) :
  wf_db db -> wf_db (snd (post_task req db)).
Proof.
  intros Hwf. unfold post_task.
  destruct (get_prop (body req) "title") as [title|]; [|exact Hwf].
  destruct (title_missing_or_blank title) as [exn|[|]]; try exact Hwf.
  unfold Prisma.task_create.
  destruct title; simpl; try exact Hwf.
  destruct (parseInt (userId req)) as [a|]; simpl; [|exact Hwf].
  destruct (existsb _ _) eqn:Hexists; [|exact Hwf]. simpl.
  apply (wf_with_new_task db s a Hwf). now apply user_exists_existsb.
Qed.

Lemma put_task_keeps_wf (req : Request) (db : Db) :
  wf_db db -> wf_db (snd (put_task req db)).
Proof.
  intros Hwf. unfold put_task.
  destruct (get_prop (body req) "title") as [title|]; [|exact Hwf].
  destruct (get_prop (body req) "isDone") as [isDoneBody|]; [|exact Hwf].
  destruct (get_prop (body req) "completed") as [completed|]; [|exact Hwf].
  destruct (parseInt_string (params_id req)) as [taskId|]; [|exact Hwf].
  destruct (build_updateData title isDoneBody completed) as [st e|exn|data];
    try exact Hwf.
  unfold Prisma.task_updateMany.
  destruct (Prisma.int_arg (parseInt (userId req))) as [exn|a]; [exact Hwf|].
  destruct (match Prisma.data_isDone data with
            | Some v => match Prisma.boolean_arg v with
                        | inr b => inr (Some b)
                        | inl err => inl err
                        end
            | None => inr None
            end) as [exn|done]; [exact Hwf|].
  assert (wf_db {| users := users db;
                   tasks := map (fun row => if Prisma.matches taskId a row
                                            then Prisma.apply_update
                                                   (Prisma.data_title data) done row
                                            else row) (tasks db);
                   user_seq := user_seq db; task_seq := task_seq db |}) as Hwf'.
  { apply wf_tasks_rewritten; [|exact Hwf].
    intros row. now destruct (Prisma.matches taskId a row). }
  now destruct (_ =? 0)%nat.
Qed.

Lemma delete_task_keeps_wf (req : Request) (db : Db) :
  wf_db db -> wf_db (snd (delete_task req db)).
Proof.
  intros Hwf. unfold delete_task.
  destruct (parseInt_string (params_id req)) as [taskId|]; [|exact Hwf].
  unfold Prisma.task_deleteMany.
  destruct (Prisma.int_arg (parseInt (userId req))) as [exn|a]; [exact Hwf|].
  pose proof (wf_tasks_removed db (fun row => negb (Prisma.matches taskId a row)) Hwf).
  now destruct (_ =? 0)%nat.
Qed.

Section Routes.

Context {bcrypt : Bcrypt} {jwt : Jsonwebtoken}.
Variable process_env_JWT_SECRET : option string.

Lemma register_keeps_wf (amb : Ambient) (req : Request) (db : Db) :
  wf_db db -> wf_db (snd (register process_env_JWT_SECRET amb req db)).
Proof.
  intros Hwf.
  destruct (register process_env_JWT_SECRET amb req db) as [out db'] eqn:Hreg.
  destruct out as [status json|exn]; simpl.
  - destruct (Z.eq_dec status 201) as [->|Hne].
    + destruct (register_201_inv process_env_JWT_SECRET amb req db db' json Hreg)
        as (u & e & p & _ & _ & _ & Hfree & _ & ->).
      apply wf_with_new_user; [exact Hwf|reflexivity|].
      intros old Hold. simpl.
      split; intros Hsame; apply Hfree; exists old; auto.
    + assert (db' = db) as ->; [|exact Hwf].
      unfold register in Hreg.
      repeat match type of Hreg with
             | (if ?c then _ else _) = _ => destruct c
             | match ?x with _ => _ end = _ => destruct x
             end; try congruence.
  - assert (db' = db) as ->; [|exact Hwf].
    unfold register in Hreg.
    repeat match type of Hreg with
           | (if ?c then _ else _) = _ => destruct c
           | match ?x with _ => _ end = _ => destruct x
           end; try congruence.
Qed.

Lemma login_writes_nothing (amb : Ambient) (req : Request) (db : Db) :
  snd (login process_env_JWT_SECRET amb req db) = db.
Proof.
  unfold login.
  repeat match goal with
         | |- snd (if ?c then _ else _) = _ => destruct c
         | |- snd (match ?x with _ => _ end) = _ => destruct x
         end; reflexivity.
Qed.

Lemma protected_keeps_wf (amb : Ambient) (next : Handler) (req : Request) (db : Db) :
  (forall req' db', wf_db db' -> wf_db (snd (next req' db'))) ->
  wf_db db -> wf_db (snd (protected process_env_JWT_SECRET amb next req db)).
Proof.
  intros Hnext Hwf. unfold protected, authenticateToken.
  destruct (bearer_token (authorization req)) as [token|]; [|exact Hwf].
  destruct (jwt_verify token _ _) as [err|user]; [exact Hwf|].
  destruct (get_prop user "userId"); [now apply Hnext|exact Hwf].
Qed.

Lemma serve_keeps_wf (route : Route) (amb : Ambient) (req : Request) (db : Db) :
  wf_db db -> wf_db (snd (serve process_env_JWT_SECRET route amb req db)).
Proof.
  intros Hwf. destruct route; simpl.
  - now apply register_keeps_wf.
  - now rewrite login_writes_nothing.
  - apply protected_keeps_wf; [|exact Hwf].
    intros req' db' Hwf'. now rewrite get_tasks_writes_nothing.
  - apply protected_keeps_wf; [|exact Hwf]. intros req' db'. apply post_task_keeps_wf.
  - apply protected_keeps_wf; [|exact Hwf]. intros req' db'. apply put_task_keeps_wf.
  - apply protected_keeps_wf; [|exact Hwf]. intros req' db'. apply delete_task_keeps_wf.
Qed.

(** Whatever requests the server has served since it started on an empty
    database, the database is well formed. *)
Theorem wf_db_invariant (calls : list (Route * Ambient * Request)) :
  wf_db (run process_env_JWT_SECRET calls empty_db).
Proof.
  assert (forall db, wf_db db -> wf_db (run process_env_JWT_SECRET calls db)) as H.
  { induction calls as [|[[route amb] req] rest IH]; intros db Hwf; simpl; [exact Hwf|].
    apply IH. now apply serve_keeps_wf. }
  apply H, wf_empty_db.
Qed.

End Routes.

Lemma gate_refuses_expired_token_witness :
  Run.protected {| clock := 700000; salt := "salt" |} get_tasks
    (Fixture.arriving (Some "Bearer 1.0.604800.31") "" JNull) Fixture.db
  = (Sent 403 (ErrorBody "Forbidden: Invalid or expired token."), Fixture.db).
Proof.
  apply (@gate_refuses_expired_token Reference.jwt None
           {| clock := 700000; salt := "salt" |} get_tasks
           (Fixture.arriving (Some "Bearer 1.0.604800.31") "" JNull) Fixture.db 1 0).
  - reflexivity.
  - simpl. unfold expiresIn_7d. lia.
Defined.

(* ------------------------------------------------------------------ *)
(** ** Deleting a task, and logging in after registering *)
(* ------------------------------------------------------------------ *)

(** [DELETE /api/tasks/:id] by the author of the task: the answer is 200,
    the task is gone and every other task is kept; the same request again
    is answered 404 and changes nothing. *)
Theorem delete_task_own_then_again :
  forall (db : Db) (task : Task.t) (req : Request),
    wf_db db ->
    In task (tasks db) ->
    parseInt (userId req) = Some (Task.authorId task) ->
    parseInt_string (params_id req) = Some (Task.id task) ->
    exists db' : Db,
      delete_task req db = (Sent 200 (MessageBody "Task deleted successfully."), db') /\
      users db' = users db /\
      ~ In task (tasks db') /\
      (forall row, In row (tasks db) -> row <> task -> In row (tasks db')) /\
      (forall row, In row (tasks db') -> In row (tasks db)) /\
      delete_task req db' = (Sent 404 (ErrorBody "Task not found or unauthorized."), db').
Proof.
  intros db task req Hwf Hin Huser Hid.
  pose proof (wf_task_ids db Hwf) as Hnd.
  assert (Hmatch : Prisma.matches (Task.id task) (Task.authorId task) task = true).
  { unfold Prisma.matches. now rewrite !Z.eqb_refl. }
  eexists. split; [|split; [|split; [|split; [|split]]]].
  - unfold delete_task. rewrite Huser, Hid. unfold Prisma.task_deleteMany. simpl.
    now rewrite (filter_In_not_nil _ _ task Hin Hmatch).
  - reflexivity.
  - simpl. intros Hstill. apply filter_In in Hstill as [_ Hstill].
    now rewrite Hmatch in Hstill.
  - simpl. intros row Hrow Hne. apply filter_In. split; [exact Hrow|].
    apply negb_true_iff. unfold Prisma.matches.
    destruct (Z.eqb_spec (Task.id row) (Task.id task)) as [Hsame|]; [|reflexivity].
    exfalso. apply Hne. eapply NoDup_map_eq; eauto.
  - simpl. intros row Hrow. now apply filter_In in Hrow as [Hrow _].
  - unfold delete_task. rewrite Huser, Hid.
    rewrite deleteMany_unmatched; [reflexivity|].
    simpl. intros row Hrow.
    apply filter_In in Hrow as [_ Hrow]. now apply negb_true_iff.
Qed.

Lemma delete_task_own_witness :
  exists db' : Db,
    delete_task (Fixture.as_user 1 "2" JNull) Fixture.db
    = (Sent 200 (MessageBody "Task deleted successfully."), db') /\
    users db' = users Fixture.db /\
    ~ In Fixture.pay_rent (tasks db') /\
    (forall row, In row (tasks Fixture.db) -> row <> Fixture.pay_rent ->
                 In row (tasks db')) /\
    (forall row, In row (tasks db') -> In row (tasks Fixture.db)) /\
    delete_task (Fixture.as_user 1 "2" JNull) db'
    = (Sent 404 (ErrorBody "Task not found or unauthorized."), db').
Proof.
  exact (delete_task_own_then_again Fixture.db Fixture.pay_rent
           (Fixture.as_user 1 "2" JNull) Fixture_db_wf
           (or_intror (or_introl eq_refl)) eq_refl eq_refl).
Defined.

Lemma find_app_skip {A : Type} (p : A -> bool) (l l' : list A) :
  find p l = None -> find p (l ++ l') = find p l'.
Proof.
  induction l as [|x rest IH]; simpl; [reflexivity|].
  destruct (p x); [discriminate|exact IH].
Qed.

Section LoginAfterRegistration.

Context {bcrypt : Bcrypt} {jwt : Jsonwebtoken}.
Variable process_env_JWT_SECRET : option string.

(** After a registration answered 201, a login with the same email and
    password is answered 200 with the new user's id, username and email
    and a token signed for that id. *)
Theorem login_after_registration :
  forall (amb later : Ambient) (req req2 : Request) (db db' : Db) (json : Body)
         (e p : string),
    register process_env_JWT_SECRET amb req db = (Sent 201 json, db') ->
    get_prop (body req) "email" = Some (JStr e) ->
    get_prop (body req) "password" = Some (JStr p) ->
    get_prop (body req2) "email" = Some (JStr e) ->
    get_prop (body req2) "password" = Some (JStr p) ->
    e <> ""%string -> p <> ""%string ->
    exists (message token : string) (user : PublicUser),
      json = AuthBody message token user /\
      login process_env_JWT_SECRET later req2 db' =
      (Sent 200 (AuthBody "Login successful"
                   (jwt_sign (pu_id user) (JWT_SECRET process_env_JWT_SECRET)
                      expiresIn_7d (clock later))
                   user), db').
Proof.
  intros amb later req req2 db db' json e p Hreg He Hp He2 Hp2 Hne Hnp.
  destruct (register_201_inv process_env_JWT_SECRET amb req db db' json Hreg)
    as (u & e0 & p0 & _ & He0 & Hp0 & Hfree & -> & ->).
  rewrite He in He0. rewrite Hp in Hp0.
  injection He0 as <-. injection Hp0 as <-.
  exists "User registered successfully"%string,
         (jwt_sign (user_seq db) (JWT_SECRET process_env_JWT_SECRET)
            expiresIn_7d (clock amb)),
         (public_user (new_user amb db u e p)).
  split; [reflexivity|].
  destruct (login_body_passes req2 e p He2 Hne Hp2 Hnp) as [Hbody Hfields].
  unfold login. rewrite Hbody, He2, Hp2, Hfields.
  unfold Prisma.user_findUnique_email. simpl.
  rewrite find_app_skip.
  - simpl. rewrite String.eqb_refl. unfold compare_password. simpl.
    now rewrite bcrypt_compare_hash.
  - apply find_none_iff. intros row Hrow. apply String.eqb_neq.
    intros Hsame. apply Hfree. exists row. auto.
Qed.

End LoginAfterRegistration.

Lemma login_after_registration_witness :
  exists (message token : string) (user : PublicUser),
    Run.carol_answer = AuthBody message token user /\
    Run.login Fixture.noon
      (Fixture.arriving None "" (JObj [("email", JStr "c@x.com"); ("password", JStr "p3")]))
      Run.db_with_carol
    = (Sent 200 (AuthBody "Login successful"
                   (jwt_sign (pu_id user) (JWT_SECRET None) expiresIn_7d
                      (clock Fixture.noon))
                   user), Run.db_with_carol).
Proof.
  exact (@login_after_registration Reference.bcrypt Reference.jwt None
           Fixture.noon Fixture.noon Run.carol_registers
           (Fixture.arriving None ""
              (JObj [("email", JStr "c@x.com"); ("password", JStr "p3")]))
           Fixture.db Run.db_with_carol Run.carol_answer "c@x.com" "p3"
           eq_refl eq_refl eq_refl eq_refl eq_refl
           ltac:(discriminate) ltac:(discriminate)).
Defined.

(* ------------------------------------------------------------------ *)
(** ** The earlier revision *)
(* ------------------------------------------------------------------ *)

Section LegacyLogin.

Context {bcrypt : Bcrypt} {jwt : Jsonwebtoken}.

(** The earlier login answers its two failures alike, too. *)
Lemma Legacy_login_failures_alike
    (amb amb' : Ambient) (req req' : Request) (db db' : Legacy.Db)
    (e p e' p' : string) :
  get_prop (body req) "email" = Some (JStr e) -> e <> ""%string ->
  get_prop (body req) "password" = Some (JStr p) -> p <> ""%string ->
  get_prop (body req') "email" = Some (JStr e') -> e' <> ""%string ->
  get_prop (body req') "password" = Some (JStr p') -> p' <> ""%string ->
  (forall u, In u (Legacy.users db) -> User.email u <> e) ->
  (exists u, In u (Legacy.users db') /\ User.email u = e') ->
  (forall u, In u (Legacy.users db') -> User.email u = e' ->
             bcrypt_compare p' (User.passwordHash u) = false) ->
  Legacy.login amb req db = (Sent 401 (ErrorBody "Invalid email or password."), db) /\
  Legacy.login amb' req' db' = (Sent 401 (ErrorBody "Invalid email or password."), db').
Proof.
  intros He Hne Hp Hnp He' Hne' Hp' Hnp' Hunknown (u & Hu & Hemail) Hrefused.
  apply String.eqb_neq in Hne, Hnp, Hne', Hnp'.
  unfold Legacy.login. rewrite He, Hp, He', Hp'. simpl.
  rewrite Hne, Hnp, Hne', Hnp'. simpl.
  split.
  - rewrite find_none_iff; [reflexivity|].
    intros row Hrow. apply String.eqb_neq. now apply Hunknown.
  - destruct (find_some_if (fun row => (User.email row =? e')%string)
                (Legacy.users db') u Hu)
      as (found & -> & Hfound & Hmatch); [now apply String.eqb_eq|].
    apply String.eqb_eq in Hmatch. now rewrite (Hrefused found Hfound Hmatch).
Qed.

End LegacyLogin.

(** The earlier [GET /api/tasks] lists the caller's tasks by ascending id,
    with no regard to their completion. *)
Lemma Legacy_get_tasks_by_id (req : Request) (db : Legacy.Db) (a : Z) :
  userId req = JNum a ->
  exists listed : list Flutter.t,
    Legacy.get_tasks req db = (Sent 200 (TasksBody (map Some listed)), db) /\
    Permutation listed
      (filter (fun row => Flutter.authorId row =? a) (Legacy.tasks db)) /\
    StronglySorted (fun x y => Flutter.id x <= Flutter.id y) listed.
Proof.
  intros Ha. unfold Legacy.get_tasks, Legacy.task_findMany. rewrite Ha.
  eexists. split; [reflexivity|]. split.
  - apply Permutation_sym, sort_by_perm.
  - pose proof (sort_by_sorted Legacy.id_asc Legacy_id_asc_total Legacy_id_asc_trans
                  (filter (fun row => Flutter.authorId row =? a) (Legacy.tasks db))) as H.
    apply (StronglySorted_map (fun x => x) _
             (fun x y => Flutter.id x <= Flutter.id y)) in H.
    + now rewrite map_id in H.
    + intros x y. unfold Legacy.id_asc. lia.
Qed.

Lemma Legacy_get_tasks_by_id_witness :
  exists listed : list Flutter.t,
    Legacy.get_tasks (Fixture.as_user 1 "" JNull)
      {| Legacy.users := [Fixture.alice];
         Legacy.tasks := map rename_isDone (tasks Fixture.db) |}
    = (Sent 200 (TasksBody (map Some listed)),
       {| Legacy.users := [Fixture.alice];
          Legacy.tasks := map rename_isDone (tasks Fixture.db) |}) /\
    Permutation listed
      (filter (fun row => Flutter.authorId row =? 1)
         (map rename_isDone (tasks Fixture.db))) /\
    StronglySorted (fun x y => Flutter.id x <= Flutter.id y) listed.
Proof.
  exact (Legacy_get_tasks_by_id (Fixture.as_user 1 "" JNull)
           {| Legacy.users := [Fixture.alice];
              Legacy.tasks := map rename_isDone (tasks Fixture.db) |} 1 eq_refl).
Defined.

(* ------------------------------------------------------------------ *)
(** ** What a request can answer and what it can write *)
(* ------------------------------------------------------------------ *)

Lemma filter_length_zero {A : Type} (p : A -> bool) (l : list A) :
  (List.length (filter p l) =? 0)%nat = true ->
  forall x, In x l -> p x = false.
Proof.
  intros Hlen. apply filter_nil_iff.
  destruct (filter p l); [reflexivity|discriminate].
Qed.

(** [GET /api/tasks] answers 200 or 500 and writes nothing. *)
Lemma get_tasks_outcomes (req : Request) (db : Db) :
  In (status_of (fst (get_tasks req db))) [Some 200; Some 500] /\
  snd (get_tasks req db) = db.
Proof.
  unfold get_tasks. destruct (Prisma.task_findMany _ _ _); simpl; auto.
Qed.

(** [POST /api/tasks] either inserts [new_task] and answers 201, or
    writes nothing. *)
Lemma post_task_outcomes (req : Request) (db : Db) :
  (status_of (fst (post_task req db)) = Some 201 /\
   exists s a, parseInt (userId req) = Some a /\
               snd (post_task req db) = with_new_task db (new_task db s a)) \/
  (In (status_of (fst (post_task req db))) [Some 400; Some 500; None] /\
   snd (post_task req db) = db).
Proof.
  unfold post_task.
  destruct (get_prop (body req) "title") as [title|]; [|right; simpl; auto].
  destruct (title_missing_or_blank title) as [exn|[|]]; try (right; simpl; now auto).
  unfold Prisma.task_create.
  destruct title; simpl; try (right; simpl; now auto).
  destruct (parseInt (userId req)) as [a|]; simpl; [|right; simpl; now auto].
  destruct (existsb _ _); [|right; simpl; now auto].
  left. split; [reflexivity|]. now exists s, a.
Qed.

(** [PUT /api/tasks/:id] either updates the rows of [(taskId, a)] and
    answers 200, or writes nothing. *)
Lemma put_task_outcomes (req : Request) (db : Db) :
  (status_of (fst (put_task req db)) = Some 200 /\
   exists taskId a title done,
     parseInt_string (params_id req) = Some taskId /\
     parseInt (userId req) = Some a /\
     snd (put_task req db) = with_updated_tasks db taskId a title done) \/
  (In (status_of (fst (put_task req db))) [Some 400; Some 404; Some 500; None] /\
   snd (put_task req db) = db).
Proof.
  unfold put_task.
  destruct (get_prop (body req) "title") as [title|]; [|right; simpl; intuition].
  destruct (get_prop (body req) "isDone") as [isDoneBody|]; [|right; simpl; intuition].
  destruct (get_prop (body req) "completed") as [completed|]; [|right; simpl; intuition].
  destruct (parseInt_string (params_id req)) as [taskId|]; [|right; simpl; intuition].
  destruct (build_updateData title isDoneBody completed) as [st e|exn|data] eqn:Hbuild.
  - right. simpl. split; [|reflexivity].
    unfold build_updateData in Hbuild.
    destruct title; simpl in Hbuild; try discriminate;
      repeat match type of Hbuild with
             | context [if ?c then _ else _] => destruct c
             end; inversion Hbuild; subst; simpl; auto.
  - right. simpl. intuition.
  - unfold Prisma.task_updateMany.
    destruct (parseInt (userId req)) as [a|]; simpl; [|right; simpl; now intuition].
    destruct (match Prisma.data_isDone data with
              | Some v => match Prisma.boolean_arg v with
                          | inr b => inr (Some b)
                          | inl err => inl err
                          end
              | None => inr None
              end) as [exn|done]; [right; simpl; now intuition|].
    destruct (_ =? 0)%nat eqn:Hcount.
    + right. simpl. split; [intuition|].
      rewrite map_unmatched; [apply db_eta|].
      now apply filter_length_zero.
    + left. split; [reflexivity|].
      now exists taskId, a, (Prisma.data_title data), done.
Qed.

(** [DELETE /api/tasks/:id] either removes the rows of [(taskId, a)] and
    answers 200, or writes nothing. *)
Lemma delete_task_outcomes (req : Request) (db : Db) :
  (status_of (fst (delete_task req db)) = Some 200 /\
   exists taskId a,
     parseInt_string (params_id req) = Some taskId /\
     parseInt (userId req) = Some a /\
     snd (delete_task req db) = without_tasks db taskId a) \/
  (In (status_of (fst (delete_task req db))) [Some 400; Some 404; Some 500] /\
   snd (delete_task req db) = db).
Proof.
  unfold delete_task.
  destruct (parseInt_string (params_id req)) as [taskId|]; [|right; simpl; auto].
  unfold Prisma.task_deleteMany.
  destruct (parseInt (userId req)) as [a|]; simpl; [|right; simpl; now auto].
  destruct (_ =? 0)%nat eqn:Hcount.
  - right. simpl. split; [auto|].
    rewrite filter_unmatched; [apply db_eta|].
    now apply filter_length_zero.
  - left. split; [reflexivity|]. now exists taskId, a.
Qed.

Section Outcomes.

Context {bcrypt : Bcrypt} {jwt : Jsonwebtoken}.
Variable process_env_JWT_SECRET : option string.

(** [POST /api/register] either inserts one user, with the next id, and
    answers 201, or writes nothing; it always answers. *)
Lemma register_outcomes (amb : Ambient) (req : Request) (db : Db) :
  (status_of (fst (register process_env_JWT_SECRET amb req db)) = Some 201 /\
   exists row, User.id row = user_seq db /\
               snd (register process_env_JWT_SECRET amb req db) = with_new_user db row) \/
  (In (status_of (fst (register process_env_JWT_SECRET amb req db)))
      [Some 400; Some 409; Some 500] /\
   snd (register process_env_JWT_SECRET amb req db) = db).
Proof.
  unfold register.
  destruct (negb (truthy (body req)) || _) eqn:Hbody; [right; simpl; now intuition|].
  assert (exists u e p, get_prop (body req) "username" = Some u /\
                        get_prop (body req) "email" = Some e /\
                        get_prop (body req) "password" = Some p)
    as (username & email & password & -> & -> & ->).
  { destruct (body req); simpl in *; try discriminate;
      do 3 eexists; repeat split; reflexivity. }
  destruct (negb (truthy username) || _ || _); [right; simpl; now intuition|].
  unfold Prisma.user_findFirst_username_or_email, Prisma.user_create.
  destruct username; simpl; try (right; simpl; now intuition).
  destruct email; simpl; try (right; simpl; now intuition).
  destruct (find _ (users db)); [right; simpl; now intuition|].
  destruct password; simpl; try (right; simpl; now intuition).
  destruct (existsb _ (users db)); [right; simpl; now intuition|].
  left. split; [reflexivity|]. eexists. split; [|reflexivity]. reflexivity.
Qed.

(** [POST /api/login] answers 200, 400, 401 or 500 and writes nothing. *)
Lemma login_outcomes (amb : Ambient) (req : Request) (db : Db) :
  In (status_of (fst (login process_env_JWT_SECRET amb req db)))
     [Some 200; Some 400; Some 401; Some 500] /\
  snd (login process_env_JWT_SECRET amb req db) = db.
Proof.
  unfold login.
  destruct (negb (truthy (body req)) || _) eqn:Hbody; [simpl; now intuition|].
  assert (exists e p, get_prop (body req) "email" = Some e /\
                      get_prop (body req) "password" = Some p)
    as (email & password & -> & ->).
  { destruct (body req); simpl in *; try discriminate;
      do 2 eexists; repeat split; reflexivity. }
  destruct (negb (truthy email) || _); [simpl; now intuition|].
  unfold Prisma.user_findUnique_email, compare_password.
  destruct email; simpl; try (simpl; now intuition).
  destruct (find _ (users db)); [|simpl; now intuition].
  destruct password; simpl; try (simpl; now intuition).
  destruct (bcrypt_compare _ _); simpl; now intuition.
Qed.

(** The middleware either answers 401 or 403 (or throws) and writes
    nothing, or hands the request, with a [userId], to the handler. *)
Lemma protected_outcomes (amb : Ambient) (next : Handler) (req : Request) (db : Db) :
  (In (status_of (fst (protected process_env_JWT_SECRET amb next req db)))
      [Some 401; Some 403; None] /\
   snd (protected process_env_JWT_SECRET amb next req db) = db) \/
  (exists token payload v,
     bearer_token (authorization req) = Some token /\
     jwt_verify token (JWT_SECRET process_env_JWT_SECRET) (clock amb) = inr payload /\
     get_prop payload "userId" = Some v /\
     protected process_env_JWT_SECRET amb next req db = next (with_userId req v) db).
Proof.
  unfold protected, authenticateToken.
  destruct (bearer_token (authorization req)) as [token|]; [|left; simpl; now intuition].
  destruct (jwt_verify token _ _) as [err|payload] eqn:Hverify;
    [left; simpl; now intuition|].
  destruct (get_prop payload "userId") as [v|] eqn:Hv; [|left; simpl; now intuition].
  right. now exists token, payload, v.
Qed.

(** Every route answers with one of its statuses, or, on a task route,
    ends in an exception thrown outside the handler's [try]; register and
    login always answer. *)
Theorem routes_answer_with_their_statuses :
  forall (route : Route) (amb : Ambient) (req : Request) (db : Db),
    match status_of (fst (serve process_env_JWT_SECRET route amb req db)) with
    | Some status => In status (route_statuses route)
    | None => route <> POST_register /\ route <> POST_login
    end.
Proof.
  intros route amb req db. destruct route; simpl.
  - destruct (register_outcomes amb req db) as [[-> _]|[Hin _]]; [simpl; auto|].
    simpl in Hin. destruct Hin as [<-|[<-|[<-|[]]]]; simpl; auto.
  - destruct (login_outcomes amb req db) as [Hin _].
    simpl in Hin. destruct Hin as [<-|[<-|[<-|[<-|[]]]]]; simpl; auto.
  - destruct (protected_outcomes amb get_tasks req db)
      as [[Hin _]|(token & payload & v & _ & _ & _ & ->)].
    + simpl in Hin. destruct Hin as [<-|[<-|[<-|[]]]]; simpl; auto.
      split; discriminate.
    + destruct (get_tasks_outcomes (with_userId req v) db) as [Hin _].
      simpl in Hin. destruct Hin as [<-|[<-|[]]]; simpl; auto.
  - destruct (protected_outcomes amb post_task req db)
      as [[Hin _]|(token & payload & v & _ & _ & _ & ->)].
    + simpl in Hin. destruct Hin as [<-|[<-|[<-|[]]]]; simpl; auto.
      split; discriminate.
    + destruct (post_task_outcomes (with_userId req v) db) as [[-> _]|[Hin _]];
        [simpl; auto|].
      simpl in Hin. destruct Hin as [<-|[<-|[<-|[]]]]; simpl; auto 10.
      split; discriminate.
  - destruct (protected_outcomes amb put_task req db)
      as [[Hin _]|(token & payload & v & _ & _ & _ & ->)].
    + simpl in Hin. destruct Hin as [<-|[<-|[<-|[]]]]; simpl; auto.
      split; discriminate.
    + destruct (put_task_outcomes (with_userId req v) db) as [[-> _]|[Hin _]];
        [simpl; auto|].
      simpl in Hin. destruct Hin as [<-|[<-|[<-|[<-|[]]]]]; simpl; auto 10.
      split; discriminate.
  - destruct (protected_outcomes amb delete_task req db)
      as [[Hin _]|(token & payload & v & _ & _ & _ & ->)].
    + simpl in Hin. destruct Hin as [<-|[<-|[<-|[]]]]; simpl; auto.
      split; discriminate.
    + destruct (delete_task_outcomes (with_userId req v) db) as [[-> _]|[Hin _]];
        [simpl; auto|].
      simpl in Hin. destruct Hin as [<-|[<-|[<-|[]]]]; simpl; auto 10.
Qed.

(** A request that is refused leaves the database exactly as it was: one
    answered with a status from 400 to 499, on any route, or one that ends
    in an exception thrown outside the handler's [try].  (A 500 is left
    out: the update handler reads the row back after it has written it,
    inside the same [try].) *)
Theorem refused_requests_write_nothing :
  forall (route : Route) (amb : Ambient) (req : Request) (db : Db),
    (forall code,
        status_of (fst (serve process_env_JWT_SECRET route amb req db)) = Some code ->
        400 <= code < 500) ->
    snd (serve process_env_JWT_SECRET route amb req db) = db.
Proof.
  intros route amb req db Hcode.
  assert (H200 : status_of (fst (serve process_env_JWT_SECRET route amb req db))
                 <> Some 200) by (intros H; specialize (Hcode _ H); lia).
  assert (H201 : status_of (fst (serve process_env_JWT_SECRET route amb req db))
                 <> Some 201) by (intros H; specialize (Hcode _ H); lia).
  clear Hcode. destruct route; simpl in *.
  - destruct (register_outcomes amb req db) as [[Hst _]|[_ Hsame]]; congruence.
  - apply login_outcomes.
  - destruct (protected_outcomes amb get_tasks req db)
      as [[_ Hsame]|(token & payload & v & _ & _ & _ & Heq)]; [exact Hsame|].
    rewrite Heq. apply get_tasks_outcomes.
  - destruct (protected_outcomes amb post_task req db)
      as [[_ Hsame]|(token & payload & v & _ & _ & _ & Heq)]; [exact Hsame|].
    rewrite Heq in *.
    destruct (post_task_outcomes (with_userId req v) db) as [[Hst _]|[_ Hsame]];
      congruence.
  - destruct (protected_outcomes amb put_task req db)
      as [[_ Hsame]|(token & payload & v & _ & _ & _ & Heq)]; [exact Hsame|].
    rewrite Heq in *.
    destruct (put_task_outcomes (with_userId req v) db) as [[Hst _]|[_ Hsame]];
      congruence.
  - destruct (protected_outcomes amb delete_task req db)
      as [[_ Hsame]|(token & payload & v & _ & _ & _ & Heq)]; [exact Hsame|].
    rewrite Heq in *.
    destruct (delete_task_outcomes (with_userId req v) db) as [[Hst _]|[_ Hsame]];
      congruence.
Qed.

(** What a route can write: only registration adds a user (one row, at
    the end, with the next id), nobody removes or changes one; and
    registration, login and listing leave the tasks as they are. *)
Lemma serve_users (route : Route) (amb : Ambient) (req : Request) (db : Db) :
  users (snd (serve process_env_JWT_SECRET route amb req db)) = users db \/
  (route = POST_register /\
   exists row, User.id row = user_seq db /\
     users (snd (serve process_env_JWT_SECRET route amb req db)) = users db ++ [row]).
Proof.
  destruct route; simpl.
  - destruct (register_outcomes amb req db) as [[_ (row & Hid & ->)]|[_ ->]];
      [right|now left].
    split; [reflexivity|]. now exists row.
  - left. now rewrite (proj2 (login_outcomes amb req db)).
  - left. destruct (protected_outcomes amb get_tasks req db)
      as [[_ ->]|(token & payload & v & _ & _ & _ & ->)]; [reflexivity|].
    now rewrite (proj2 (get_tasks_outcomes _ db)).
  - left. destruct (protected_outcomes amb post_task req db)
      as [[_ ->]|(token & payload & v & _ & _ & _ & ->)]; [reflexivity|].
    destruct (post_task_outcomes (with_userId req v) db)
      as [[_ (s & a & _ & ->)]|[_ ->]]; reflexivity.
  - left. destruct (protected_outcomes amb put_task req db)
      as [[_ ->]|(token & payload & v & _ & _ & _ & ->)]; [reflexivity|].
    destruct (put_task_outcomes (with_userId req v) db)
      as [[_ (t & a & ti & d & _ & _ & ->)]|[_ ->]]; reflexivity.
  - left. destruct (protected_outcomes amb delete_task req db)
      as [[_ ->]|(token & payload & v & _ & _ & _ & ->)]; [reflexivity|].
    destruct (delete_task_outcomes (with_userId req v) db)
      as [[_ (t & a & _ & _ & ->)]|[_ ->]]; reflexivity.
Qed.

Lemma serve_tasks_untouched (route : Route) (amb : Ambient) (req : Request) (db : Db) :
  route = POST_register \/ route = POST_login \/ route = GET_tasks ->
  tasks (snd (serve process_env_JWT_SECRET route amb req db)) = tasks db /\
  task_seq (snd (serve process_env_JWT_SECRET route amb req db)) = task_seq db.
Proof.
  intros [->|[->| ->]]; simpl.
  - destruct (register_outcomes amb req db) as [[_ (row & _ & ->)]|[_ ->]]; now split.
  - now rewrite (proj2 (login_outcomes amb req db)).
  - destruct (protected_outcomes amb get_tasks req db)
      as [[_ ->]|(token & payload & v & _ & _ & _ & ->)]; [now split|].
    now rewrite (proj2 (get_tasks_outcomes _ db)).
Qed.

(** Users are never removed or changed: after any requests the users of
    before are still there, in place, followed by those registered since;
    and a request that is not a registration leaves the users as they
    are, as registration, login and listing leave the tasks. *)
Theorem users_only_grow :
  forall (calls : list (Route * Ambient * Request)) (db : Db),
    (exists added,
        users (run process_env_JWT_SECRET calls db) = users db ++ added) /\
    (forall route amb req,
        route <> POST_register ->
        users (snd (serve process_env_JWT_SECRET route amb req db)) = users db) /\
    (forall route amb req,
        route = POST_register \/ route = POST_login \/ route = GET_tasks ->
        tasks (snd (serve process_env_JWT_SECRET route amb req db)) = tasks db).
Proof.
  intros calls db. split; [|split].
  - revert db. induction calls as [|[[route amb] req] rest IH]; intros db; simpl.
    + exists []. now rewrite app_nil_r.
    + destruct (IH (snd (serve process_env_JWT_SECRET route amb req db)))
        as [added ->].
      destruct (serve_users route amb req db) as [->|(_ & row & _ & ->)].
      * now exists added.
      * exists (row :: added). now rewrite <- app_assoc.
  - intros route amb req Hroute.
    destruct (serve_users route amb req db) as [H|(Hreg & _)]; [exact H|contradiction].
  - intros route amb req Hroute. now apply serve_tasks_untouched.
Qed.

End Outcomes.

(* ------------------------------------------------------------------ *)
(** ** Who can touch a task *)
(* ------------------------------------------------------------------ *)

(** [PUT /api/tasks/:id], row by row: a row keeps its id and its author
    whatever the body holds, and a row that is not addressed (another id,
    or another author than the caller) is left as it is. *)
Theorem put_task_row_by_row :
  forall (req : Request) (db : Db),
    users (snd (put_task req db)) = users db /\
    Forall2 (fun old new =>
               Task.id new = Task.id old /\
               Task.authorId new = Task.authorId old /\
               (parseInt_string (params_id req) <> Some (Task.id old) \/
                parseInt (userId req) <> Some (Task.authorId old) -> new = old))
            (tasks db) (tasks (snd (put_task req db))).
Proof.
  intros req db.
  assert (Hsame : forall l : list Task.t,
             Forall2 (fun old new =>
               Task.id new = Task.id old /\
               Task.authorId new = Task.authorId old /\
               (parseInt_string (params_id req) <> Some (Task.id old) \/
                parseInt (userId req) <> Some (Task.authorId old) -> new = old)) l l).
  { induction l; constructor; auto. }
  destruct (put_task_outcomes req db)
    as [[_ (taskId & a & title & done & Hid & Ha & ->)]|[_ ->]]; [|now split].
  split; [reflexivity|]. simpl. unfold updated_tasks.
  induction (tasks db) as [|row rest IH]; simpl; constructor; [|exact IH].
  unfold Prisma.matches.
  destruct (Z.eqb_spec (Task.id row) taskId) as [Hrow|Hrow]; simpl.
  - destruct (Z.eqb_spec (Task.authorId row) a) as [Hauthor|Hauthor]; simpl.
    + repeat split. intros [H|H]; exfalso; apply H; congruence.
    + now repeat split.
  - now repeat split.
Qed.

Lemma put_task_keeps_others (req : Request) (db : Db) (task : Task.t) :
  parseInt (userId req) <> Some (Task.authorId task) ->
  In task (tasks db) -> In task (tasks (snd (put_task req db))).
Proof.
  intros Hother Hin.
  destruct (put_task_outcomes req db)
    as [[_ (taskId & a & title & done & _ & Ha & ->)]|[_ ->]]; [|exact Hin].
  simpl. unfold updated_tasks. apply in_map_iff. exists task. split; [|exact Hin].
  unfold Prisma.matches.
  destruct (Z.eqb_spec (Task.authorId task) a) as [Hsame|_];
    [|now rewrite andb_false_r].
  exfalso. apply Hother. congruence.
Qed.

Lemma delete_task_keeps_others (req : Request) (db : Db) (task : Task.t) :
  parseInt (userId req) <> Some (Task.authorId task) ->
  In task (tasks db) -> In task (tasks (snd (delete_task req db))).
Proof.
  intros Hother Hin.
  destruct (delete_task_outcomes req db)
    as [[_ (taskId & a & _ & Ha & ->)]|[_ ->]]; [|exact Hin].
  simpl. apply filter_In. split; [exact Hin|].
  unfold Prisma.matches.
  destruct (Z.eqb_spec (Task.authorId task) a) as [Hsame|_];
    [|now rewrite andb_false_r].
  exfalso. apply Hother. congruence.
Qed.

Lemma post_task_keeps_all (req : Request) (db : Db) (task : Task.t) :
  In task (tasks db) -> In task (tasks (snd (post_task req db))).
Proof.
  intros Hin.
  destruct (post_task_outcomes req db) as [[_ (s & a & _ & ->)]|[_ ->]]; [|exact Hin].
  simpl. apply in_or_app. now left.
Qed.

Section Callers.

Context {bcrypt : Bcrypt} {jwt : Jsonwebtoken}.
Variable process_env_JWT_SECRET : option string.

Lemma serve_keeps_others
    (route : Route) (amb : Ambient) (req : Request) (db : Db) (task : Task.t) :
  carries_no_token_of process_env_JWT_SECRET (Task.authorId task) amb req ->
  In task (tasks db) ->
  In task (tasks (snd (serve process_env_JWT_SECRET route amb req db))).
Proof.
  intros Hother Hin.
  assert (Hnext : forall next : Handler,
             (forall req', parseInt (userId req') <> Some (Task.authorId task) ->
                           In task (tasks (snd (next req' db)))) ->
             In task (tasks (snd (protected process_env_JWT_SECRET amb next req db)))).
  { intros next Hkeeps.
    destruct (protected_outcomes process_env_JWT_SECRET amb next req db)
      as [[_ ->]|(token & payload & v & Htoken & Hverify & Hv & ->)]; [exact Hin|].
    apply Hkeeps. simpl.
    destruct (authorization req) as [header|] eqn:Hheader; [|discriminate].
    destruct (Hother header token payload Hheader
                (bearer_token_in_header header token Htoken) Hverify)
      as (n & Hn & _ & Hne).
    rewrite Hn in Hv. injection Hv as <-. simpl. congruence. }
  destruct route.
  - now rewrite (proj1 (serve_tasks_untouched process_env_JWT_SECRET
                         POST_register amb req db (or_introl eq_refl))).
  - now rewrite (proj1 (serve_tasks_untouched process_env_JWT_SECRET
                         POST_login amb req db (or_intror (or_introl eq_refl)))).
  - now rewrite (proj1 (serve_tasks_untouched process_env_JWT_SECRET
                         GET_tasks amb req db (or_intror (or_intror eq_refl)))).
  - apply Hnext. intros req' _. now apply post_task_keeps_all.
  - apply Hnext. intros req' Hreq'. now apply put_task_keeps_others.
  - apply Hnext. intros req' Hreq'. now apply delete_task_keeps_others.
Qed.

(** A task is changed or removed only by a request that carries a token
    of its author: through any sequence of requests, on any routes, each
    of which carries no token, no token that verifies, or tokens signed
    for integer ids other than the author's, the task row stays as it
    is. *)
Theorem only_the_author_touches_a_task :
  forall (calls : list (Route * Ambient * Request)) (db : Db) (task : Task.t),
    In task (tasks db) ->
    Forall (fun call =>
              carries_no_token_of process_env_JWT_SECRET (Task.authorId task)
                (snd (fst call)) (snd call))
           calls ->
    In task (tasks (run process_env_JWT_SECRET calls db)).
Proof.
  induction calls as [|[[route amb] req] rest IH]; intros db task Hin Hcalls; simpl.
  - exact Hin.
  - apply Forall_cons_iff in Hcalls as [Hcall Hrest]. simpl in Hcall.
    apply IH; [|exact Hrest]. now apply serve_keeps_others.
Qed.

End Callers.

(** Bob's update of Alice's task 1 is answered 404; a delete with an id
    that is no number is answered 400. *)
Lemma refused_requests_write_nothing_witness :
  snd (serve (bcrypt := Reference.bcrypt) (jwt := Reference.jwt) None PUT_tasks_id
         Fixture.noon
         (Fixture.arriving (Some "Bearer 2.0.604800.31") "1"
            (JObj [("completed", JBool true)]))
         Fixture.db)
  = Fixture.db /\
  snd (serve (bcrypt := Reference.bcrypt) (jwt := Reference.jwt) None DELETE_tasks_id
         Fixture.noon
         (Fixture.arriving (Some "Bearer 1.0.604800.31") "one" JNull)
         Fixture.db)
  = Fixture.db.
Proof.
  split.
  - apply (@refused_requests_write_nothing Reference.bcrypt Reference.jwt None
             PUT_tasks_id Fixture.noon
             (Fixture.arriving (Some "Bearer 2.0.604800.31") "1"
                (JObj [("completed", JBool true)]))
             Fixture.db).
    intros code Hcode. vm_compute in Hcode. injection Hcode as <-. lia.
  - apply (@refused_requests_write_nothing Reference.bcrypt Reference.jwt None
             DELETE_tasks_id Fixture.noon
             (Fixture.arriving (Some "Bearer 1.0.604800.31") "one" JNull)
             Fixture.db).
    intros code Hcode. vm_compute in Hcode. injection Hcode as <-. lia.
Defined.

(** Bob and a stranger try everything on Alice's task 1; it stays. *)
Lemma only_the_author_touches_a_task_witness :
  In Fixture.buy_milk
     (tasks (run (bcrypt := Reference.bcrypt) (jwt := Reference.jwt) None
               [ (PUT_tasks_id, Fixture.noon,
                  Fixture.arriving (Some "Bearer 2.0.604800.31") "1"
                    (JObj [("title", JStr "mine now"); ("completed", JBool true)]));
                 (DELETE_tasks_id, Fixture.noon,
                  Fixture.arriving (Some "Bearer 2.0.604800.31") "1" JNull);
                 (DELETE_tasks_id, Fixture.noon,
                  Fixture.arriving None "1" JNull);
                 (POST_tasks, Fixture.noon,
                  Fixture.arriving (Some "Bearer 2.0.604800.31") ""
                    (JObj [("title", JStr "walk cat"); ("authorId", JNum 1)])) ]
               Fixture.db)).
Proof.
  apply (@only_the_author_touches_a_task Reference.bcrypt Reference.jwt None).
  - simpl. auto.
  - repeat constructor; simpl;
      intros header token payload [= <-] Hin Hverify; simpl in Hin;
      repeat (destruct Hin as [<-|Hin];
              [ vm_compute in Hverify; try discriminate;
                injection Hverify as <-; exists 2; repeat split; discriminate |]);
      destruct Hin.
Defined.

(* ------------------------------------------------------------------ *)
(** ** A partial update *)
(* ------------------------------------------------------------------ *)

Lemma build_updateData_valid (title isDoneBody completed : JsVal) :
  update_title_ok title = true ->
  update_completion_ok (completion_value completed isDoneBody) = true ->
  negb (is_nullish title && is_nullish (completion_value completed isDoneBody)) = true ->
  build_updateData title isDoneBody completed =
  Accepted {| Prisma.data_title := requested_title title;
              Prisma.data_isDone :=
                option_map JBool (requested_done completed isDoneBody) |}.
Proof.
  intros Ht Hc Hone. unfold build_updateData, requested_done.
  destruct title as [| | | |s| |]; simpl in Ht; try discriminate; simpl.
  - destruct completed, isDoneBody; simpl in *; try discriminate; reflexivity.
  - destruct completed, isDoneBody; simpl in *; try discriminate; reflexivity.
  - rewrite trim_empty_iff. apply negb_true_iff in Ht. rewrite Ht.
    destruct completed, isDoneBody; simpl in *; try discriminate; reflexivity.
Qed.

(** [PUT /api/tasks/:id] by the author with a valid update changes the
    fields the body asks for and keeps the others: a body with a title
    only keeps the completion state, a body with a completion value only
    keeps the title, and [completed] is preferred to [isDone]. *)
Theorem put_task_changes_what_is_asked :
  forall (req : Request) (db : Db) (task : Task.t)
         (title isDoneBody completed : JsVal),
    wf_db db ->
    In task (tasks db) ->
    parseInt (userId req) = Some (Task.authorId task) ->
    parseInt_string (params_id req) = Some (Task.id task) ->
    get_prop (body req) "title" = Some title ->
    get_prop (body req) "isDone" = Some isDoneBody ->
    get_prop (body req) "completed" = Some completed ->
    valid_update (body req) = true ->
    fst (put_task req db) =
    Sent 200 (TaskBody (Some
      {| Flutter.id := Task.id task;
         Flutter.title := match requested_title title with
                          | Some s => s
                          | None => Task.title task
                          end;
         Flutter.authorId := Task.authorId task;
         Flutter.completed := match requested_done completed isDoneBody with
                              | Some b => b
                              | None => Task.isDone task
                              end |})) /\
    In {| Task.id := Task.id task;
          Task.title := match requested_title title with
                        | Some s => s
                        | None => Task.title task
                        end;
          Task.isDone := match requested_done completed isDoneBody with
                         | Some b => b
                         | None => Task.isDone task
                         end;
          Task.authorId := Task.authorId task |}
       (tasks (snd (put_task req db))).
Proof.
  intros req db task title isDoneBody completed Hwf Hin Huser Hid Ht Hi Hc Hvalid.
  unfold valid_update in Hvalid. rewrite Ht, Hi, Hc in Hvalid.
  apply andb_true_iff in Hvalid as [Hvalid Hone].
  apply andb_true_iff in Hvalid as [Htitle Hdone].
  rewrite (put_task_own db task req title isDoneBody completed
             (requested_title title) (requested_done completed isDoneBody)
             (wf_task_ids db Hwf) Hin Huser Hid Ht Hi Hc
             (build_updateData_valid title isDoneBody completed Htitle Hdone Hone)).
  split; [reflexivity|]. simpl. unfold updated_tasks.
  apply in_map_iff. exists task. split; [|exact Hin].
  unfold Prisma.matches. now rewrite !Z.eqb_refl.
Qed.

(** Alice renames her completed task 2: it stays completed.  She sends
    both [completed] and [isDone] for task 4: [completed] counts. *)
Lemma put_task_changes_what_is_asked_witness :
  (fst (put_task (Fixture.as_user 1 "2" (JObj [("title", JStr "pay the rent")]))
          Fixture.db)
   = Sent 200 (TaskBody (Some
       {| Flutter.id := 2; Flutter.title := "pay the rent"; Flutter.authorId := 1;
          Flutter.completed := true |}))) /\
  (fst (put_task
          (Fixture.as_user 1 "4"
             (JObj [("isDone", JBool false); ("completed", JBool true)]))
          Fixture.db)
   = Sent 200 (TaskBody (Some
       {| Flutter.id := 4; Flutter.title := "call mom"; Flutter.authorId := 1;
          Flutter.completed := true |}))).
Proof.
  split.
  - exact (proj1 (put_task_changes_what_is_asked
                    (Fixture.as_user 1 "2" (JObj [("title", JStr "pay the rent")]))
                    Fixture.db Fixture.pay_rent (JStr "pay the rent") JUndefined
                    JUndefined Fixture_db_wf (or_intror (or_introl eq_refl))
                    eq_refl eq_refl eq_refl eq_refl eq_refl eq_refl)).
  - exact (proj1 (put_task_changes_what_is_asked
                    (Fixture.as_user 1 "4"
                       (JObj [("isDone", JBool false); ("completed", JBool true)]))
                    Fixture.db Fixture.call_mom JUndefined (JBool false) (JBool true)
                    Fixture_db_wf
                    (or_intror (or_intror (or_intror (or_introl eq_refl))))
                    eq_refl eq_refl eq_refl eq_refl eq_refl eq_refl)).
Defined.

(* ------------------------------------------------------------------ *)
(** ** Logging in *)
(* ------------------------------------------------------------------ *)

Lemma find_by_unique_email (l : list User.t) (user : User.t) :
  NoDup (map User.email l) -> In user l ->
  find (fun row => (User.email row =? User.email user)%string) l = Some user.
Proof.
  induction l as [|row rest IH]; simpl; [easy|].
  intros Hnd Hin. apply NoDup_cons_iff in Hnd as [Hrow Hnd].
  destruct (String.eqb_spec (User.email row) (User.email user)) as [Heq|Hne].
  - destruct Hin as [->|Hin]; [reflexivity|].
    exfalso. apply Hrow. rewrite Heq. now apply in_map.
  - destruct Hin as [->|Hin]; [congruence|]. now apply IH.
Qed.

Section LoginSuccess.

Context {bcrypt : Bcrypt} {jwt : Jsonwebtoken}.
Variable process_env_JWT_SECRET : option string.

(** A login with the email of a user and a password [bcrypt.compare]
    accepts against that user's hash is answered 200 with that user's id,
    username and email, writes nothing, and its token verifies, until its
    seven days are over, to a payload whose [userId] is the user's id. *)
Theorem login_with_right_password :
  forall (amb : Ambient) (req : Request) (db : Db) (user : User.t) (p : string),
    wf_db db ->
    In user (users db) ->
    get_prop (body req) "email" = Some (JStr (User.email user)) ->
    get_prop (body req) "password" = Some (JStr p) ->
    User.email user <> ""%string -> p <> ""%string ->
    bcrypt_compare p (User.passwordHash user) = true ->
    exists token,
      login process_env_JWT_SECRET amb req db =
      (Sent 200 (AuthBody "Login successful" token
                   {| pu_id := User.id user; pu_username := User.username user;
                      pu_email := User.email user |}), db) /\
      forall now, now < clock amb + expiresIn_7d ->
        exists payload,
          jwt_verify token (JWT_SECRET process_env_JWT_SECRET) now = inr payload /\
          get_prop payload "userId" = Some (JNum (User.id user)).
Proof.
  intros amb req db user p Hwf Hin He Hp Hne Hnp Hok.
  exists (jwt_sign (User.id user) (JWT_SECRET process_env_JWT_SECRET)
            expiresIn_7d (clock amb)).
  split.
  - destruct (login_body_passes req (User.email user) p He Hne Hp Hnp)
      as [Hbody Hfields].
    unfold login. rewrite Hbody, He, Hp, Hfields.
    unfold Prisma.user_findUnique_email. simpl.
    rewrite (find_by_unique_email (users db) user (wf_emails db Hwf) Hin).
    unfold compare_password. now rewrite Hok.
  - intros now Hnow. eexists. rewrite jwt_verify_sign.
    destruct (Z.ltb_spec now (clock amb + expiresIn_7d)); [|lia].
    split; reflexivity.
Qed.

End LoginSuccess.

Lemma login_with_right_password_witness :
  exists token,
    Run.login Fixture.noon
      (Fixture.arriving None "" (JObj [("email", JStr "b@x.com"); ("password", JStr "p2")]))
      Fixture.db =
    (Sent 200 (AuthBody "Login successful" token
                 {| pu_id := 2; pu_username := "bob"; pu_email := "b@x.com" |}),
     Fixture.db) /\
    forall now, now < clock Fixture.noon + expiresIn_7d ->
      exists payload,
        jwt_verify token (JWT_SECRET None) now = inr payload /\
        get_prop payload "userId" = Some (JNum 2).
Proof.
  exact (@login_with_right_password Reference.bcrypt Reference.jwt None
           Fixture.noon
           (Fixture.arriving None ""
              (JObj [("email", JStr "b@x.com"); ("password", JStr "p2")]))
           Fixture.db Fixture.bob "p2" Fixture_db_wf (or_intror (or_introl eq_refl))
           eq_refl eq_refl ltac:(discriminate) ltac:(discriminate) eq_refl).
Defined.

(* ------------------------------------------------------------------ *)
(** ** The Authorization header *)
(* ------------------------------------------------------------------ *)

Lemma split_not_nil (sep : ascii) (s : string) : split sep s <> [].
Proof.
  destruct s as [|c rest]; simpl; [discriminate|].
  destruct (Ascii.eqb c sep); [discriminate|].
  destruct (split sep rest); discriminate.
Qed.

Lemma split_one_piece (sep : ascii) (s : string) :
  nth_error (split sep s) 1 = None -> lacks sep s.
Proof.
  induction s as [|c rest IH]; simpl; intros Hnth.
  - intros c [].
  - destruct (Ascii.eqb_spec c sep) as [->|Hne].
    + exfalso. simpl in Hnth. pose proof (split_not_nil sep rest).
      destruct (split sep rest); [contradiction|discriminate].
    + intros c' [<-|Hc']; [exact Hne|].
      apply IH; [|exact Hc'].
      destruct (split sep rest) as [|piece pieces]; [reflexivity|exact Hnth].
Qed.

(** The token the middleware looks at is the second word of the header,
    whatever the first word is and whatever follows: it is missing
    exactly when the header is absent or is one non-empty word (a scheme
    alone, or a token without a scheme); an empty header is taken as the
    empty token. *)
Theorem token_is_the_second_word_of_the_header :
  (forall header : option string,
      bearer_token header = None <->
      header = None \/
      exists h, header = Some h /\ h <> ""%string /\ lacks " " h) /\
  (forall scheme token rest : string,
      lacks " " scheme -> lacks " " token ->
      bearer_token (Some (scheme ++ " " ++ token)%string) = Some token /\
      bearer_token (Some (scheme ++ " " ++ token ++ " " ++ rest)%string) = Some token) /\
  bearer_token (Some ""%string) = Some ""%string.
Proof.
  split; [|split; [|reflexivity]].
  - intros [h|]; simpl; [|tauto]. split.
    + destruct (String.eqb_spec h "") as [->|Hne]; [discriminate|].
      intros Hnth. right. exists h. repeat split; auto.
      now apply split_one_piece.
    + intros [H|(h' & [= <-] & Hne & Hlacks)]; [discriminate|].
      apply String.eqb_neq in Hne. rewrite Hne.
      now rewrite split_no_sep.
  - intros scheme token rest Hscheme Htoken.
    assert (Hne : forall tail, ((scheme ++ String " " tail)%string =? "")%string = false).
    { intros tail. destruct scheme; reflexivity. }
    split; unfold bearer_token.
    + change (scheme ++ " " ++ token)%string with (scheme ++ String " " token)%string.
      rewrite Hne, split_app, split_no_sep; auto.
    + change (scheme ++ " " ++ token ++ " " ++ rest)%string
        with (scheme ++ String " " (token ++ String " " rest))%string.
      rewrite Hne, split_app, split_app; auto.
Qed.

(* ------------------------------------------------------------------ *)
(** ** From registration to the first task *)
(* ------------------------------------------------------------------ *)

Section FirstTask.

Context {bcrypt : Bcrypt} {jwt : Jsonwebtoken}.
Variable process_env_JWT_SECRET : option string.

(** The token of a registration answered 201 works on the task routes
    until its seven days are over: a [POST /api/tasks] bearing it, with a
    title that is not blank, is answered 201 with a task owned by the new
    user, and a [GET /api/tasks] bearing it then lists that task. *)
Theorem registered_user_creates_and_lists :
  forall (amb later : Ambient) (req create list : Request) (db db1 : Db)
         (message token : string) (user : PublicUser) (s : string),
    register process_env_JWT_SECRET amb req db
    = (Sent 201 (AuthBody message token user), db1) ->
    clock later < clock amb + expiresIn_7d ->
    authorization create = Some ("Bearer " ++ token)%string ->
    authorization list = Some ("Bearer " ++ token)%string ->
    get_prop (body create) "title" = Some (JStr s) ->
    all_white_space s = false ->
    exists db2 listed,
      serve process_env_JWT_SECRET POST_tasks later create db1
      = (Sent 201 (TaskBody (Some
           {| Flutter.id := task_seq db; Flutter.title := s;
              Flutter.authorId := pu_id user; Flutter.completed := false |})), db2) /\
      serve process_env_JWT_SECRET GET_tasks later list db2
      = (Sent 200 (TasksBody (map Some listed)), db2) /\
      In {| Flutter.id := task_seq db; Flutter.title := s;
            Flutter.authorId := pu_id user; Flutter.completed := false |} listed.
Proof.
  intros amb later req create list db db1 message token user s
         Hreg Hlater Hcreate Hlist Ht Hs.
  destruct (register_201_inv process_env_JWT_SECRET amb req db db1 _ Hreg)
    as (u & e & p & _ & _ & _ & _ & Hjson & ->).
  injection Hjson as -> -> ->.
  set (newbie := new_user amb db u e p).
  set (row := new_task (with_new_user db newbie) s (user_seq db)).
  exists (with_new_task (with_new_user db newbie) row).
  destruct (get_tasks_members (with_userId list (JNum (user_seq db)))
              (with_new_task (with_new_user db newbie) row) (user_seq db) eq_refl)
    as (listed & Hget & Hmembers).
  exists listed. simpl. split; [|split].
  - rewrite (gate_admits_signed_token process_env_JWT_SECRET later post_task create
               (with_new_user db newbie) (user_seq db) (clock amb) Hcreate Hlater).
    apply (post_task_created (with_userId create (JNum (user_seq db)))
             (with_new_user db newbie) s (user_seq db)); auto.
    exists newbie. split; [|reflexivity]. simpl. apply in_or_app. right. now left.
  - rewrite (gate_admits_signed_token process_env_JWT_SECRET later get_tasks list
               _ (user_seq db) (clock amb) Hlist Hlater).
    exact Hget.
  - apply Hmembers. exists row. split; [|now split].
    simpl. apply in_or_app. right. now left.
Qed.

End FirstTask.

Lemma registered_user_creates_and_lists_witness :
  exists db2 listed,
    serve None POST_tasks Fixture.noon
      (Fixture.arriving (Some ("Bearer " ++ Run.carol_token)%string) ""
         (JObj [("title", JStr "water plants")])) Run.db_with_carol
    = (Sent 201 (TaskBody (Some
         {| Flutter.id := task_seq Fixture.db; Flutter.title := "water plants";
            Flutter.authorId := 3; Flutter.completed := false |})), db2) /\
    serve None GET_tasks Fixture.noon
      (Fixture.arriving (Some ("Bearer " ++ Run.carol_token)%string) "" JNull) db2
    = (Sent 200 (TasksBody (map Some listed)), db2) /\
    In {| Flutter.id := task_seq Fixture.db; Flutter.title := "water plants";
          Flutter.authorId := 3; Flutter.completed := false |} listed.
Proof.
  exact (@registered_user_creates_and_lists Reference.bcrypt Reference.jwt None
           Fixture.noon Fixture.noon Run.carol_registers
           (Fixture.arriving (Some ("Bearer " ++ Run.carol_token)%string) ""
              (JObj [("title", JStr "water plants")]))
           (Fixture.arriving (Some ("Bearer " ++ Run.carol_token)%string) "" JNull)
           Fixture.db Run.db_with_carol
           "User registered successfully" Run.carol_token
           {| pu_id := 3; pu_username := "carol"; pu_email := "c@x.com" |}
           "water plants" eq_refl ltac:(vm_compute; reflexivity)
           eq_refl eq_refl eq_refl eq_refl).
Defined.

(* ------------------------------------------------------------------ *)
(** ** Ids in the path *)
(* ------------------------------------------------------------------ *)

Lemma digit_value_10 :
  digit_value 10 "0" = Some 0 /\ digit_value 10 "1" = Some 1 /\
  digit_value 10 "2" = Some 2 /\ digit_value 10 "3" = Some 3 /\
  digit_value 10 "4" = Some 4 /\ digit_value 10 "5" = Some 5 /\
  digit_value 10 "6" = Some 6 /\ digit_value 10 "7" = Some 7 /\
  digit_value 10 "8" = Some 8 /\ digit_value 10 "9" = Some 9.
Proof. repeat split. Qed.

Lemma parse_digits_acc (d : Decimal.uint) (acc : positive) :
  parse_digits 10 (NilEmpty.string_of_uint d) (Some (Z.pos acc)) =
  Some (Z.pos (Pos.of_uint_acc d acc)).
Proof.
  destruct digit_value_10 as (H0 & H1 & H2 & H3 & H4 & H5 & H6 & H7 & H8 & H9).
  revert acc. induction d; intros acc; simpl NilEmpty.string_of_uint;
    cbn [parse_digits Pos.of_uint_acc]; [reflexivity|..];
    rewrite ?H0, ?H1, ?H2, ?H3, ?H4, ?H5, ?H6, ?H7, ?H8, ?H9;
    (match goal with
     | |- parse_digits _ _ (Some ?z) = Some (Z.pos (Pos.of_uint_acc _ ?q)) =>
         replace z with (Z.pos q) by lia
     end); apply IHd.
Qed.

Lemma parse_digits_zero (d : Decimal.uint) :
  parse_digits 10 (NilEmpty.string_of_uint d) (Some 0) = Some (Z.of_N (Pos.of_uint d)).
Proof.
  destruct digit_value_10 as (H0 & H1 & H2 & H3 & H4 & H5 & H6 & H7 & H8 & H9).
  induction d; simpl NilEmpty.string_of_uint; cbn [parse_digits Pos.of_uint];
    [reflexivity|..];
    rewrite ?H0, ?H1, ?H2, ?H3, ?H4, ?H5, ?H6, ?H7, ?H8, ?H9;
    [exact IHd|..]; apply parse_digits_acc.
Qed.

Lemma parse_digits_start (d : Decimal.uint) :
  d <> Decimal.Nil ->
  parse_digits 10 (NilEmpty.string_of_uint d) None = Some (Z.of_N (Pos.of_uint d)).
Proof.
  destruct digit_value_10 as (H0 & H1 & H2 & H3 & H4 & H5 & H6 & H7 & H8 & H9).
  intros Hd. destruct d; [contradiction|..];
    simpl NilEmpty.string_of_uint; cbn [parse_digits Pos.of_uint];
    rewrite ?H0, ?H1, ?H2, ?H3, ?H4, ?H5, ?H6, ?H7, ?H8, ?H9;
    [apply parse_digits_zero|..]; apply parse_digits_acc.
Qed.

(** The digits of a positive number are read as they are: no white space
    to skip, no sign, no [0x]. *)
Lemma parseInt_string_digits (d : Decimal.uint) :
  d <> Decimal.Nil ->
  parseInt_string (NilEmpty.string_of_uint d) =
  option_map (Z.mul 1) (parse_digits 10 (NilEmpty.string_of_uint d) None) /\
  parseInt_string (String "-" (NilEmpty.string_of_uint d)) =
  option_map (Z.mul (-1)) (parse_digits 10 (NilEmpty.string_of_uint d) None).
Proof.
  intros Hd. destruct d as [|d|d|d|d|d|d|d|d|d|d]; [contradiction|..];
    try (split; reflexivity).
  destruct d; split; reflexivity.
Qed.

(** [parseInt] reads back every integer written in decimal. *)
Lemma parseInt_decimal (n : Z) : parseInt_string (decimal n) = Some n.
Proof.
  unfold decimal. destruct n as [|p|p]; simpl Z.to_int; [reflexivity|..].
  - simpl NilEmpty.string_of_int.
    rewrite (proj1 (parseInt_string_digits _ (DecimalPos.Unsigned.to_uint_nonnil p))).
    rewrite parse_digits_start by apply DecimalPos.Unsigned.to_uint_nonnil.
    now rewrite DecimalPos.Unsigned.of_to.
  - cbn [NilEmpty.string_of_int].
    rewrite (proj2 (parseInt_string_digits _ (DecimalPos.Unsigned.to_uint_nonnil p))).
    rewrite parse_digits_start by apply DecimalPos.Unsigned.to_uint_nonnil.
    now rewrite DecimalPos.Unsigned.of_to.
Qed.

Lemma filter_app_last {A : Type} (p : A -> bool) (l : list A) (x : A) :
  (forall y, In y l -> p y = true) -> p x = false ->
  filter p (l ++ [x]) = l.
Proof.
  intros Hl Hx. rewrite filter_app. simpl. rewrite Hx, app_nil_r.
  induction l as [|y rest IH]; simpl; [reflexivity|].
  rewrite (Hl y (or_introl eq_refl)), IH; auto.
  intros z Hz. apply Hl. now right.
Qed.

(** The id a created task is returned with, written in decimal in the
    path, addresses that task: the creator's [DELETE /api/tasks/:id] is
    answered 200 and leaves the tasks (and the users) as they were before
    the creation. *)
Theorem create_then_delete_by_id :
  forall (create delete : Request) (db db1 : Db) (x : Flutter.t),
    wf_db db ->
    post_task create db = (Sent 201 (TaskBody (Some x)), db1) ->
    params_id delete = decimal (Flutter.id x) ->
    parseInt (userId delete) = parseInt (userId create) ->
    exists db2,
      delete_task delete db1
      = (Sent 200 (MessageBody "Task deleted successfully."), db2) /\
      tasks db2 = tasks db /\ users db2 = users db.
Proof.
  intros create delete db db1 x Hwf Hpost Hid Huser.
  destruct (post_task_201_inv create db db1 _ Hpost) as (s & a & _ & Ha & Hx & ->).
  injection Hx as ->. simpl in Hid.
  unfold delete_task. rewrite Hid, parseInt_decimal, Huser, Ha.
  unfold Prisma.task_deleteMany. simpl.
  assert (Hold : forall row, In row (tasks db) ->
                   Prisma.matches (task_seq db) a row = false).
  { intros row Hrow. unfold Prisma.matches.
    pose proof (wf_task_seq db Hwf) as Hseq. rewrite Forall_forall in Hseq.
    specialize (Hseq row Hrow). simpl in Hseq.
    destruct (Z.eqb_spec (Task.id row) (task_seq db)); [lia|reflexivity]. }
  assert (Hnew : Prisma.matches (task_seq db) a (new_task db s a) = true).
  { unfold Prisma.matches. simpl. now rewrite !Z.eqb_refl. }
  rewrite filter_app. simpl. rewrite Hnew.
  rewrite (proj2 (filter_nil_iff _ _) Hold). simpl.
  eexists. split; [reflexivity|]. simpl. split; [|reflexivity].
  apply filter_app_last.
  - intros row Hrow. now rewrite (Hold row Hrow).
  - now rewrite Hnew.
Qed.

Lemma create_then_delete_by_id_witness :
  exists db2,
    delete_task (Fixture.as_user 2 "5" JNull)
      (with_new_task Fixture.db (new_task Fixture.db "feed cat" 2))
    = (Sent 200 (MessageBody "Task deleted successfully."), db2) /\
    tasks db2 = tasks Fixture.db /\ users db2 = users Fixture.db.
Proof.
  exact (create_then_delete_by_id
           (Fixture.as_user 2 "" (JObj [("title", JStr "feed cat")]))
           (Fixture.as_user 2 "5" JNull) Fixture.db
           (with_new_task Fixture.db (new_task Fixture.db "feed cat" 2))
           (rename_isDone (new_task Fixture.db "feed cat" 2))
           Fixture_db_wf eq_refl eq_refl eq_refl).
Defined.

(* ------------------------------------------------------------------ *)
(** ** Credentials that are not there *)
(* ------------------------------------------------------------------ *)

Lemma keyed_body_passes (props : list (string * JsVal)) :
  props <> [] ->
  negb (truthy (JObj props)) || (object_keys_length (JObj props) =? 0)%nat = false.
Proof.
  intros Hprops. simpl. destruct props as [|[k v] rest]; [contradiction|].
  simpl. destruct (in_dec string_dec k (map fst rest)) as [Hin|_]; [|reflexivity].
  apply (nodup_In string_dec) in Hin.
  destruct (nodup string_dec (map fst rest)); [destruct Hin|reflexivity].
Qed.

(** A field all of whose bindings are [null] or the empty string, a
    field without binding among them, reads as a falsy value. *)
Lemma assoc_without_value (key : string) (props : list (string * JsVal)) :
  (forall v, In (key, v) props -> v = JNull \/ v = JStr "") ->
  truthy (assoc key props) = false.
Proof.
  induction props as [|[k v] rest IH]; simpl; intros Hall; [reflexivity|].
  destruct (String.eqb_spec key k) as [<-|_].
  - destruct (Hall v (or_introl eq_refl)) as [-> | ->]; reflexivity.
  - apply IH. intros v' Hv'. apply Hall. now right.
Qed.

Section MissingCredentials.

Context {bcrypt : Bcrypt} {jwt : Jsonwebtoken}.
Variable process_env_JWT_SECRET : option string.

(** Registration and login look at the body before they look at the
    database.  Without a body, or with the body [{}], both answer 400
    'Request body missing or invalid JSON format.'; with a JSON object in
    which a credential has no value (the key is missing, or its value is
    [null] or the empty string), registration answers 400 for [username],
    [email] and [password], login for [email] and [password], each with
    its own message; whatever the database holds, and nothing is
    written. *)
Theorem credentials_are_checked_first :
  forall (amb : Ambient) (req : Request) (db : Db),
    (body req = JUndefined \/ body req = JNull \/ body req = JObj [] ->
       register process_env_JWT_SECRET amb req db
       = (Sent 400 (ErrorBody "Request body missing or invalid JSON format."), db) /\
       login process_env_JWT_SECRET amb req db
       = (Sent 400 (ErrorBody "Request body missing or invalid JSON format."), db)) /\
    (forall (props : list (string * JsVal)) (key : string),
        body req = JObj props -> props <> [] ->
        (forall v, In (key, v) props -> v = JNull \/ v = JStr "") ->
        (In key ["username"; "email"; "password"]%string ->
           register process_env_JWT_SECRET amb req db
           = (Sent 400 (ErrorBody "Please provide username, email, and password."), db)) /\
        (In key ["email"; "password"]%string ->
           login process_env_JWT_SECRET amb req db
           = (Sent 400 (ErrorBody "Please provide email and password."), db))).
Proof.
  intros amb req db. split.
  - unfold register, login. now intros [-> |[-> | ->]].
  - intros props key Hbody Hprops Hall.
    pose proof (assoc_without_value key props Hall) as Hkey.
    pose proof (keyed_body_passes props Hprops) as Hcheck.
    split; intros Hin.
    + unfold register. rewrite Hbody, Hcheck. simpl.
      replace (negb (truthy (assoc "username" props))
               || negb (truthy (assoc "email" props))
               || negb (truthy (assoc "password" props))) with true; [reflexivity|].
      simpl in Hin. destruct Hin as [<-|[<-|[<-|[]]]]; rewrite Hkey; simpl;
        now rewrite ?orb_true_r.
    + unfold login. rewrite Hbody, Hcheck. simpl.
      replace (negb (truthy (assoc "email" props))
               || negb (truthy (assoc "password" props))) with true; [reflexivity|].
      simpl in Hin. destruct Hin as [<-|[<-|[]]]; rewrite Hkey; simpl;
        now rewrite ?orb_true_r.
Qed.

End MissingCredentials.

Lemma credentials_are_checked_first_witness :
  (Run.register Fixture.noon (Fixture.arriving None "" (JObj [])) Fixture.db
   = (Sent 400 (ErrorBody "Request body missing or invalid JSON format."), Fixture.db)) /\
  (Run.register Fixture.noon
     (Fixture.arriving None ""
        (JObj [("username", JStr "dave"); ("email", JStr ""); ("password", JStr "p4")]))
     Fixture.db
   = (Sent 400 (ErrorBody "Please provide username, email, and password."),
      Fixture.db)) /\
  (Run.login Fixture.noon
     (Fixture.arriving None "" (JObj [("email", JStr "a@x.com")])) Fixture.db
   = (Sent 400 (ErrorBody "Please provide email and password."), Fixture.db)).
Proof.
  split; [|split].
  - exact (proj1 (proj1 (@credentials_are_checked_first Reference.bcrypt Reference.jwt
                           None Fixture.noon (Fixture.arriving None "" (JObj []))
                           Fixture.db) (or_intror (or_intror eq_refl)))).
  - refine (proj1 (proj2 (@credentials_are_checked_first Reference.bcrypt Reference.jwt
                            None Fixture.noon
                            (Fixture.arriving None ""
                               (JObj [("username", JStr "dave"); ("email", JStr "");
                                      ("password", JStr "p4")]))
                            Fixture.db) _ "email"%string eq_refl _ _)
              (or_intror (or_introl eq_refl))).
    + discriminate.
    + intros v [H|[H|[H|[]]]]; try discriminate. injection H as <-. now right.
  - refine (proj2 (proj2 (@credentials_are_checked_first Reference.bcrypt Reference.jwt
                            None Fixture.noon
                            (Fixture.arriving None "" (JObj [("email", JStr "a@x.com")]))
                            Fixture.db) _ "password"%string eq_refl _ _)
              (or_intror (or_introl eq_refl))).
    + discriminate.
    + intros v [H|[]]. discriminate.
Defined.

(* ------------------------------------------------------------------ *)
(** ** The two revisions side by side *)
(* ------------------------------------------------------------------ *)

Section Revisions.

Context {bcrypt : Bcrypt} {jwt : Jsonwebtoken}.

(** With [JWT_SECRET] not set in the environment, the middleware refuses
    exactly the requests its earlier revision (part_000) refused, with the
    same status, now with a JSON error body; and it hands the same request,
    with the same [userId], to the handler. *)
Theorem gate_revisions_agree :
  forall (amb : Ambient) (next : Handler) (req : Request) (db : Db),
    match Legacy.authenticateToken amb req with
    | Legacy.SendStatus code =>
        (code = 401 \/ code = 403) /\
        exists message,
          authenticateToken None amb next req db = (Sent code (ErrorBody message), db)
    | Legacy.Next req' => authenticateToken None amb next req db = next req' db
    | Legacy.Throws exn => authenticateToken None amb next req db = (Uncaught exn, db)
    end.
Proof.
  intros amb next req db.
  unfold Legacy.authenticateToken, authenticateToken, JWT_SECRET, Legacy.JWT_SECRET.
  destruct (bearer_token (authorization req)) as [token|].
  - destruct (jwt_verify token _ (clock amb)) as [err|user].
    + split; [now right|]. now eexists.
    + now destruct (get_prop user "userId").
  - split; [now left|]. now eexists.
Qed.

(** On a body with at least one key, and with [JWT_SECRET] not set in the
    environment, [POST /api/login] answers as its earlier revision
    (part_000) did on the same users: a failure is answered with the same
    status and body; a success with the same message and user, the token
    now signed for seven days where it was signed for one hour; neither
    writes. *)
Theorem login_revisions_agree :
  forall (amb : Ambient) (req : Request) (db : Db) (old : Legacy.Db)
         (props : list (string * JsVal)),
    body req = JObj props -> props <> [] ->
    Legacy.users old = users db ->
    snd (Legacy.login amb req old) = old /\
    snd (login None amb req db) = db /\
    (forall message token user,
        fst (Legacy.login amb req old) = Sent 200 (AuthBody message token user) ->
        token = jwt_sign (pu_id user) Legacy.JWT_SECRET Legacy.expiresIn_1h (clock amb) /\
        fst (login None amb req db)
        = Sent 200 (AuthBody message
                      (jwt_sign (pu_id user) Legacy.JWT_SECRET expiresIn_7d (clock amb))
                      user)) /\
    (status_of (fst (Legacy.login amb req old)) <> Some 200 ->
     fst (login None amb req db) = fst (Legacy.login amb req old)).
Proof.
  intros amb req db old props Hbody Hprops Husers.
  assert (Hfailure : forall (o : Outcome),
             (forall message token user, o <> Sent 200 (AuthBody message token user)) ->
             snd (o, old) = old /\ snd (o, db) = db /\
             (forall message token user,
                 fst (o, old) = Sent 200 (AuthBody message token user) ->
                 token = jwt_sign (pu_id user) Legacy.JWT_SECRET Legacy.expiresIn_1h
                           (clock amb) /\
                 fst (o, db)
                 = Sent 200 (AuthBody message
                               (jwt_sign (pu_id user) Legacy.JWT_SECRET expiresIn_7d
                                  (clock amb)) user)) /\
             (status_of (fst (o, old)) <> Some 200 -> fst (o, db) = fst (o, old))).
  { intros o Ho. split; [reflexivity|split; [reflexivity|split]].
    - intros message token user H. now destruct (Ho message token user).
    - reflexivity. }
  unfold Legacy.login, login, Prisma.user_findUnique_email, compare_password,
    JWT_SECRET, Legacy.JWT_SECRET, public_user.
  rewrite Hbody, (keyed_body_passes props Hprops), Husers. simpl.
  destruct (negb (truthy (assoc "email" props))
            || negb (truthy (assoc "password" props))); simpl.
  { now apply Hfailure. }
  destruct (Prisma.string_arg (assoc "email" props)) as [err|e]; simpl.
  { now apply Hfailure. }
  destruct (find (fun row => (User.email row =? e)%string) (users db)) as [user|]; simpl.
  2:{ now apply Hfailure. }
  destruct (assoc "password" props); simpl; try (now apply Hfailure).
  destruct (bcrypt_compare s (User.passwordHash user)); simpl.
  - split; [reflexivity|split; [reflexivity|split]].
    + intros message token u [= <- <- <-]. split; reflexivity.
    + intros Hstatus. now destruct Hstatus.
  - now apply Hfailure.
Qed.

End Revisions.

Lemma login_revisions_agree_witness :
  fst (Run.login Fixture.noon
         (Fixture.arriving None ""
            (JObj [("email", JStr "a@x.com"); ("password", JStr "nope")]))
         Fixture.db)
  = fst (@Legacy.login Reference.bcrypt Reference.jwt Fixture.noon
           (Fixture.arriving None ""
              (JObj [("email", JStr "a@x.com"); ("password", JStr "nope")]))
           {| Legacy.users := users Fixture.db; Legacy.tasks := [] |}).
Proof.
  refine (proj2 (proj2 (proj2
    (@login_revisions_agree Reference.bcrypt Reference.jwt Fixture.noon
       (Fixture.arriving None ""
          (JObj [("email", JStr "a@x.com"); ("password", JStr "nope")]))
       Fixture.db {| Legacy.users := users Fixture.db; Legacy.tasks := [] |}
       _ eq_refl _ eq_refl))) _).
  - discriminate.
  - vm_compute. discriminate.
Defined.

(* ------------------------------------------------------------------ *)
(** ** The same update twice *)
(* ------------------------------------------------------------------ *)

Lemma apply_update_twice (title : option string) (done : option bool) (row : Task.t) :
  Prisma.apply_update title done (Prisma.apply_update title done row)
  = Prisma.apply_update title done row.
Proof.
  unfold Prisma.apply_update. simpl. now destruct title, done.
Qed.

Lemma updated_tasks_twice
    (taskId a : Z) (title : option string) (done : option bool) (rows : list Task.t) :
  updated_tasks taskId a title done (updated_tasks taskId a title done rows)
  = updated_tasks taskId a title done rows /\
  filter (Prisma.matches taskId a) (updated_tasks taskId a title done rows)
  = updated_tasks taskId a title done (filter (Prisma.matches taskId a) rows).
Proof.
  unfold updated_tasks. induction rows as [|row rest [IHmap IHfilter]]; [now split|].
  simpl. destruct (Prisma.matches taskId a row) eqn:Hrow.
  - assert (Prisma.matches taskId a (Prisma.apply_update title done row) = true)
      as Hkept by exact Hrow.
    rewrite Hkept, apply_update_twice, IHmap. simpl. rewrite Hrow.
    split; [reflexivity|]. now rewrite IHfilter.
  - rewrite Hrow, IHmap. now split.
Qed.

Lemma updateMany_twice
    (db db' : Db) (taskId : Z) (authorId : option Z) (data : Prisma.UpdateData)
    (count : nat) :
  Prisma.task_updateMany db taskId authorId data = inr (count, db') ->
  Prisma.task_updateMany db' taskId authorId data = inr (count, db').
Proof.
  unfold Prisma.task_updateMany.
  destruct authorId as [a|]; simpl; [|discriminate].
  destruct (match Prisma.data_isDone data with
            | Some v => match Prisma.boolean_arg v with
                        | inr b => inr (Some b)
                        | inl err => inl err
                        end
            | None => inr None
            end) as [exn|done]; [discriminate|].
  intros [= <- <-]. simpl.
  destruct (updated_tasks_twice taskId a (Prisma.data_title data) done (tasks db))
    as [Hmap Hfilter].
  unfold updated_tasks in Hmap, Hfilter.
  now rewrite Hmap, Hfilter, length_map.
Qed.

(** [PUT /api/tasks/:id] can be sent twice: the second time it is answered
    as the first time, and the database is as the first left it. *)
Theorem put_task_twice :
  forall (req : Request) (db : Db),
    put_task req (snd (put_task req db)) = put_task req db.
Proof.
  intros req db. unfold put_task.
  destruct (get_prop (body req) "title") as [title|]; [|reflexivity].
  destruct (get_prop (body req) "isDone") as [isDoneBody|]; [|reflexivity].
  destruct (get_prop (body req) "completed") as [completed|]; [|reflexivity].
  destruct (parseInt_string (params_id req)) as [taskId|]; [|reflexivity].
  destruct (build_updateData title isDoneBody completed) as [st e|exn|data];
    try reflexivity.
  destruct (Prisma.task_updateMany db taskId (parseInt (userId req)) data)
    as [exn|[count db']] eqn:Hupdate.
  - simpl. now rewrite Hupdate.
  - apply updateMany_twice in Hupdate.
    destruct (count =? 0)%nat eqn:Hcount; simpl; now rewrite Hupdate, Hcount.
Qed.
